(** * pyC3D: a shallow embedding of the C3D decoder

    The development follows the Python sources file by file:
    [consts.py], [binaryFileReader.py], [_internals.py] and [c3dFile.py].
    Python objects that are mutated in place ([C3DFile], [BinaryFileReader])
    become explicit state threaded through a state-and-exception monad;
    exceptions are values of [PyExc]; the unbounded [while True] loop of the
    parameter walker takes fuel. *)

From Stdlib Require Import ZArith List Bool Lia String Ascii.
From Stdlib Require Import Strings.Byte.
From Stdlib Require Import Floats.SpecFloat.
Import ListNotations.
Open Scope Z_scope.
Set Warnings "-register-all".

(* ================================================================= *)
(** ** Python values *)

(** A Python [str] is a sequence of Unicode code points. *)
Definition pystr := list N.

Definition pystr_of_string (s : string) : pystr :=
  map N_of_ascii (list_ascii_of_string s).

Definition pystr_eqb (a b : pystr) : bool :=
  if list_eq_dec N.eq_dec a b then true else false.

(** A Python [float] is an IEEE-754 binary64 number. *)
Definition pyfloat := spec_float.

Definition f64_prec : Z := 53.
Definition f64_emax : Z := 1024.

Definition float_zero : pyfloat := S754_zero false.

Definition float_of_int (z : Z) : pyfloat :=
  binary_normalize f64_prec f64_emax z 0 false.

(** The values the decoder stores in parameters and sample buffers. *)
Inductive PyVal : Type :=
| VNone
| VInt (z : Z)
| VFloat (f : pyfloat)
| VStr (s : pystr)
| VList (l : list PyVal).

(** The exceptions the decoder can raise, by Python class. *)
Inductive PyExc : Type :=
| ValueError (msg : string)
| UnicodeDecodeError
| StructError
| OSError
| AttributeError
| TypeError
| IndexError
| FileNotFoundError.

(** Outcome of running a piece of Python: a value, a raised exception, or
    [Timeout] when the fuel of an unbounded loop ran out. *)
Inductive Result (A : Type) : Type :=
| Ok (a : A)
| Raise (e : PyExc)
| Timeout.
Arguments Ok {A} a.
Arguments Raise {A} e.
Arguments Timeout {A}.

Definition is_ok {A} (r : Result A) : bool :=
  match r with Ok _ => true | _ => false end.

Definition is_raise {A} (r : Result A) : bool :=
  match r with Raise _ => true | _ => false end.

(** [x == 0] for a number read from the file. *)
Definition py_eq_zero (v : PyVal) : bool :=
  match v with
  | VInt z => z =? 0
  | VFloat f => SFeqb f float_zero
  | _ => false
  end.

(** [x < 0]; comparing a non-number with an [int] raises [TypeError]. *)
Definition py_lt_zero (v : PyVal) : Result bool :=
  match v with
  | VInt z => Ok (z <? 0)
  | VFloat f => Ok (SFltb f float_zero)
  | _ => Raise TypeError
  end.

(** [a != b] between a [float] and an [int]. *)
Definition py_float_ne_int (f : pyfloat) (z : Z) : bool :=
  negb (SFeqb f (float_of_int z)).

(** [value * x] for an [int] value: numeric product, or sequence repetition. *)
Definition py_mul_int (value : Z) (x : PyVal) : Result PyVal :=
  match x with
  | VInt z => Ok (VInt (value * z))
  | VFloat f => Ok (VFloat (SFmul f64_prec f64_emax (float_of_int value) f))
  | VStr s => Ok (VStr (List.concat (repeat s (Z.to_nat value))))
  | VList l => Ok (VList (List.concat (repeat l (Z.to_nat value))))
  | VNone => Raise TypeError
  end.

(* ================================================================= *)
(** ** The state-and-exception monad *)

Definition M (S A : Type) : Type := S -> Result A * S.

Definition ret {S A} (a : A) : M S A := fun s => (Ok a, s).

Definition bind {S A B} (m : M S A) (k : A -> M S B) : M S B :=
  fun s =>
    match m s with
    | (Ok a, s') => k a s'
    | (Raise e, s') => (Raise e, s')
    | (Timeout, s') => (Timeout, s')
    end.

Definition raise {S A} (e : PyExc) : M S A := fun s => (Raise e, s).

Definition get {S} : M S S := fun s => (Ok s, s).

Definition put {S} (s : S) : M S unit := fun _ => (Ok tt, s).

Definition modify {S} (f : S -> S) : M S unit := fun s => (Ok tt, f s).

(** A bare [try: ... except: ...]: every exception is handled, in the state
    the body left behind. *)
Definition try_except {S A} (body : M S A) (handler : M S A) : M S A :=
  fun s =>
    match body s with
    | (Raise _, s') => handler s'
    | r => r
    end.

Definition lift_result {S A} (r : Result A) : M S A := fun s => (r, s).

Declare Scope monad_scope.
Delimit Scope monad_scope with monad.
Notation "x <- m ;; k" := (bind m (fun x => k))
  (at level 61, m at next level, right associativity) : monad_scope.
Notation "m ;;; k" := (bind m (fun _ => k))
  (at level 61, right associativity) : monad_scope.
Open Scope monad_scope.

(* ================================================================= *)
(** ** [struct.unpack] *)

Module struct.

Inductive ByteOrder := Little | Big | Native.

Definition byte_val (b : byte) : Z := Z.of_N (Byte.to_N b).

(** The unsigned integer a byte string denotes, least significant first. *)
Fixpoint le_unsigned (data : list byte) : Z :=
  match data with
  | [] => 0
  | b :: rest => byte_val b + 256 * le_unsigned rest
  end.

(** The machine this runs on is little-endian, so [Native] reads as
    [Little]. *)
Definition unsigned (order : ByteOrder) (data : list byte) : Z :=
  match order with
  | Big => le_unsigned (rev data)
  | _ => le_unsigned data
  end.

(** Two's complement reading of a [w]-bit pattern. *)
Definition signed (w : Z) (u : Z) : Z :=
  if u <? 2 ^ (w - 1) then u else u - 2 ^ w.

(** The binary32 number with bit pattern [w], as the Python [float]
    (binary64) of the same value. *)
Definition float_of_bits32 (w : Z) : pyfloat :=
  let s := Z.testbit w 31 in
  let e := Z.land (Z.shiftr w 23) 255 in
  let m := Z.land w (2 ^ 23 - 1) in
  if e =? 255 then
    if m =? 0 then S754_infinity s else S754_nan
  else if e =? 0 then
    binary_normalize f64_prec f64_emax (cond_Zopp s m) (-149) s
  else
    binary_normalize f64_prec f64_emax (cond_Zopp s (m + 2 ^ 23)) (e - 150) s.

(** Size in bytes of a format character; [None] for a character the
    decoder never uses. *)
Definition calcsize (fmt : ascii) : option Z :=
  match fmt with
  | "b"%char | "B"%char => Some 1
  | "h"%char => Some 2
  | "l"%char | "f"%char => Some 4
  | _ => None
  end.

(** [struct.unpack(order + fmt, data)[0]] for one format character. *)
Definition unpack (order : ByteOrder) (fmt : ascii) (data : list byte)
  : Result PyVal :=
  match calcsize fmt with
  | None => Raise StructError
  | Some size =>
      if Z.of_nat (List.length data) =? size then
        let u := unsigned order data in
        match fmt with
        | "B"%char => Ok (VInt u)
        | "f"%char => Ok (VFloat (float_of_bits32 u))
        | _ => Ok (VInt (signed (8 * size) u))
        end
      else Raise StructError
  end.

(** Cut a byte string in fields of [size] bytes. *)
Fixpoint chunks (size : nat) (total : nat) (data : list byte)
  : list (list byte) :=
  match total with
  | O => []
  | S n => firstn size data :: chunks size n (skipn size data)
  end.

(** The fields of [struct.unpack(f"<{total}c", data)] for a format
    character of [size] bytes, as unsigned integers: the buffer must have
    exactly the size the format asks for, and a negative count is not a
    format. *)
Definition fields (size : Z) (total : Z) (data : list byte)
  : Result (list Z) :=
  if (total <? 0) || negb (Z.of_nat (List.length data) =? size * total)
  then Raise StructError
  else Ok (map le_unsigned (chunks (Z.to_nat size) (Z.to_nat total) data)).

(** [struct.unpack(f"<{total}h", data)] *)
Definition unpack_many_h (total : Z) (data : list byte) : Result (list Z) :=
  match fields 2 total data with
  | Ok us => Ok (map (signed 16) us)
  | Raise e => Raise e
  | Timeout => Timeout
  end.

(** [struct.unpack(f"<{total}f", data)] *)
Definition unpack_many_f (total : Z) (data : list byte)
  : Result (list pyfloat) :=
  match fields 4 total data with
  | Ok us => Ok (map float_of_bits32 us)
  | Raise e => Raise e
  | Timeout => Timeout
  end.

End struct.

(* ================================================================= *)
(** ** consts.py *)

Module DataTypes.
Record _DataType := { name : string; size : Z; fmt : ascii }.
Definition FLOAT : _DataType := {| name := "Float"; size := 4; fmt := "f" |}.
Definition LONG : _DataType := {| name := "Long"; size := 4; fmt := "l" |}.
Definition INT : _DataType := {| name := "Int"; size := 2; fmt := "h" |}.
End DataTypes.

Module ProcessorTypes.
Definition DEC : string := "DEC".
Definition INTEL : string := "Intel".
Definition MIPS : string := "MIPS".
End ProcessorTypes.

(* ================================================================= *)
(** ** [bytes.decode()] and [str.strip()] *)

Module codec.

Open Scope N_scope.

Definition in_range (lo hi : N) (b : byte) : bool :=
  (lo <=? Byte.to_N b) && (Byte.to_N b <=? hi).

(** The six low bits of a continuation byte. *)
Definition low6 (b : byte) : N := Byte.to_N b - 128.

(** Strict UTF-8, as [bytes.decode()] applies it: shortest form only, no
    surrogates, nothing above U+10FFFF.  [None] is [UnicodeDecodeError]. *)
Fixpoint utf8_decode (data : list byte) : option pystr :=
  match data with
  | [] => Some []
  | b0 :: r0 =>
      let n0 := Byte.to_N b0 in
      if n0 <? 128 then option_map (cons n0) (utf8_decode r0)
      else if in_range 194 223 b0 then
        match r0 with
        | b1 :: r1 =>
            if in_range 128 191 b1
            then option_map (cons ((n0 - 192) * 64 + low6 b1)) (utf8_decode r1)
            else None
        | _ => None
        end
      else if in_range 224 239 b0 then
        match r0 with
        | b1 :: b2 :: r2 =>
            let lo := if n0 =? 224 then 160 else 128 in
            let hi := if n0 =? 237 then 159 else 191 in
            if in_range lo hi b1 && in_range 128 191 b2
            then option_map
                   (cons ((n0 - 224) * 4096 + low6 b1 * 64 + low6 b2))
                   (utf8_decode r2)
            else None
        | _ => None
        end
      else if in_range 240 244 b0 then
        match r0 with
        | b1 :: b2 :: b3 :: r3 =>
            let lo := if n0 =? 240 then 144 else 128 in
            let hi := if n0 =? 244 then 143 else 191 in
            if in_range lo hi b1 && in_range 128 191 b2 && in_range 128 191 b3
            then option_map
                   (cons ((n0 - 240) * 262144 + low6 b1 * 4096
                          + low6 b2 * 64 + low6 b3))
                   (utf8_decode r3)
            else None
        | _ => None
        end
      else None
  end.

(** The code points [str.strip()] removes. *)
Definition isspace (c : N) : bool :=
  ((9 <=? c) && (c <=? 13)) || ((28 <=? c) && (c <=? 32))
  || (c =? 133) || (c =? 160) || (c =? 5760)
  || ((8192 <=? c) && (c <=? 8202))
  || (c =? 8232) || (c =? 8233) || (c =? 8239) || (c =? 8287)
  || (c =? 12288).

Fixpoint lstrip (s : pystr) : pystr :=
  match s with
  | c :: rest => if isspace c then lstrip rest else s
  | [] => []
  end.

Definition strip (s : pystr) : pystr := rev (lstrip (rev (lstrip s))).

End codec.

(* ================================================================= *)
(** ** binaryFileReader.py *)

(** What is stored at a path: [None] when nothing is. *)
Definition FileSystem := string -> option (list byte).

(** [_handle] is [None] before a file is opened, afterwards the position of
    the open handle; [_data] is the content of the file. *)
Record BinaryFileReader := mkReader {
  _handle : option Z;
  _data : list byte;
  _processorType : option string
}.

Module Reader.

Definition init : BinaryFileReader :=
  {| _handle := None; _data := []; _processorType := None |}.

Definition openFile (content : list byte) : M BinaryFileReader unit :=
  modify (fun r => {| _handle := Some 0; _data := content;
                      _processorType := _processorType r |}).

(** A handle never sits at a negative position. *)
Definition seek (seekPos : Z) : M BinaryFileReader unit :=
  fun r =>
    match _handle r with
    | None => (Raise OSError, r)
    | Some _ =>
        if seekPos <? 0 then (Raise OSError, r)
        else (Ok tt, {| _handle := Some seekPos; _data := _data r;
                        _processorType := _processorType r |})
    end.

Definition tell : M BinaryFileReader Z :=
  fun r =>
    match _handle r with
    | None => (Raise OSError, r)
    | Some p => (Ok p, r)
    end.

(** [self._handle.read(length)]: at most [length] bytes from the current
    position, everything left for [-1], and no other negative length. *)
Definition readBytes (length : Z) : M BinaryFileReader (list byte) :=
  fun r =>
    match _handle r with
    | None => (Raise OSError, r)
    | Some p =>
        if length <? -1
        then (Raise (ValueError "read length must be non-negative or -1"), r)
        else
          let rest := skipn (Z.to_nat p) (_data r) in
          let out := if length =? -1 then rest
                     else firstn (Z.to_nat length) rest in
          (Ok out, {| _handle := Some (p + Z.of_nat (List.length out));
                      _data := _data r;
                      _processorType := _processorType r |})
    end.

Definition readStringFromByte (length : Z) : M BinaryFileReader pystr :=
  data <- readBytes length ;;
  match codec.utf8_decode data with
  | Some s => ret s
  | None => raise UnicodeDecodeError
  end.

(** The decoder uses what it reads as an [int] or as a [float]. *)
Definition expect_int {S} (v : PyVal) : M S Z :=
  match v with VInt z => ret z | _ => raise TypeError end.

Definition expect_float {S} (v : PyVal) : M S pyfloat :=
  match v with VFloat f => ret f | _ => raise TypeError end.

Definition readByte : M BinaryFileReader Z :=
  data <- readBytes 1 ;;
  v <- lift_result (struct.unpack struct.Native "b" data) ;;
  expect_int v.

Definition readUnsignedByte : M BinaryFileReader Z :=
  data <- readBytes 1 ;;
  v <- lift_result (struct.unpack struct.Native "B" data) ;;
  expect_int v.

Definition _readBasedOnProcessorType (data : list byte)
    (dataType : DataTypes._DataType) (processorType : option string)
  : Result PyVal :=
  match processorType with
  | None => struct.unpack struct.Little (DataTypes.fmt dataType) data
  | Some p =>
      if String.eqb p ProcessorTypes.INTEL then
        struct.unpack struct.Little (DataTypes.fmt dataType) data
      else if String.eqb p ProcessorTypes.DEC then
        struct.unpack struct.Big (DataTypes.fmt dataType) (rev data)
      else if String.eqb p ProcessorTypes.MIPS then
        struct.unpack struct.Little (DataTypes.fmt dataType)
                      (skipn 1 data ++ firstn 1 data)
      else Raise (ValueError "Unsupported processor type")
  end.

Definition readScalar (dataType : DataTypes._DataType)
  : M BinaryFileReader PyVal :=
  data <- readBytes (DataTypes.size dataType) ;;
  r <- get ;;
  lift_result (_readBasedOnProcessorType data dataType (_processorType r)).

Definition readInt : M BinaryFileReader Z :=
  v <- readScalar DataTypes.INT ;; expect_int v.

Definition readLong : M BinaryFileReader Z :=
  v <- readScalar DataTypes.LONG ;; expect_int v.

Definition readFloat : M BinaryFileReader pyfloat :=
  v <- readScalar DataTypes.FLOAT ;; expect_float v.

Definition setProcessorType (processorType : option string)
  : M BinaryFileReader unit :=
  modify (fun r => {| _handle := _handle r; _data := _data r;
                      _processorType := processorType |}).

Definition bulkReadFloat (total : Z) : M BinaryFileReader (list pyfloat) :=
  data <- readBytes (DataTypes.size DataTypes.FLOAT * total) ;;
  lift_result (struct.unpack_many_f total data).

Definition bulkReadInt (total : Z) : M BinaryFileReader (list Z) :=
  data <- readBytes (DataTypes.size DataTypes.INT * total) ;;
  lift_result (struct.unpack_many_h total data).

End Reader.

(* ================================================================= *)
(** ** _internals.py *)

Module ParameterDataTypes.

Definition String : Z := -1.
Definition Byte : Z := 1.
Definition Interger : Z := 2.
Definition FloatingPoint : Z := 4.

Definition is_int (v : PyVal) : bool :=
  match v with VInt _ => true | _ => false end.

Definition is_float (v : PyVal) : bool :=
  match v with VFloat _ => true | _ => false end.

(** The [isinstance] chain at the end of [getTypeFromData]. *)
Definition typeOfScalar (inputData : PyVal) : Result Z :=
  match inputData with
  | VStr _ => Ok String
  | VInt z => if z <? 255 then Ok Byte else Ok Interger
  | VFloat _ => Ok FloatingPoint
  | _ => Raise (ValueError "not a supported type in the c3d format")
  end.

Definition getTypeFromData (inputData : PyVal) : Result Z :=
  match inputData with
  | VList l =>
      if existsb is_int l && existsb is_float l then Ok FloatingPoint
      else match l with
           | [] => Raise (ValueError "No data in list")
           | first :: _ => typeOfScalar first
           end
  | _ => typeOfScalar inputData
  end.

Definition dataTypeCheck (inputData : PyVal) (inputType : Z) : bool :=
  match getTypeFromData inputData with
  | Ok expectedData =>
      if (expectedData =? Byte) && (inputType =? Interger) then true
      else expectedData =? inputType
  | _ => false
  end.

End ParameterDataTypes.

Record Header := mkHeader {
  parameterBlock : Z;
  markerCount : Z;
  analogMesasurements : Z;
  firstFrame : Z;
  lastFrame : Z;
  maxFrameGap : Z;
  scaleFactor : pyfloat;
  dataStart : Z;
  sampleRate : Z;
  frameRate : pyfloat;
  paramaterBlockCount : Z;
  processorType : option string
}.

Module HeaderOps.
Definition clear : Header :=
  {| parameterBlock := 0; markerCount := 0; analogMesasurements := 0;
     firstFrame := 0; lastFrame := 0; maxFrameGap := 0;
     scaleFactor := float_zero; dataStart := 0; sampleRate := 0;
     frameRate := float_zero; paramaterBlockCount := 0;
     processorType := None |}.
End HeaderOps.

(** class [Parameter]: the fields of [ParameterBase], then its own. *)
Record ParameterT := mkParameter {
  p_name : pystr;
  p_description : pystr;
  p_locked : bool;
  p_data : PyVal;
  p_dataType : option Z
}.

Module ParameterOps.

Definition new (name : pystr) : ParameterT :=
  {| p_name := name; p_description := []; p_locked := false;
     p_data := VNone; p_dataType := None |}.

Definition with_dataType (p : ParameterT) (t : option Z) : ParameterT :=
  {| p_name := p_name p; p_description := p_description p;
     p_locked := p_locked p; p_data := p_data p; p_dataType := t |}.

Definition with_data (p : ParameterT) (d : PyVal) : ParameterT :=
  {| p_name := p_name p; p_description := p_description p;
     p_locked := p_locked p; p_data := d; p_dataType := p_dataType p |}.

Definition is_none (v : PyVal) : bool :=
  match v with VNone => true | _ => false end.

Definition setDataType (newValue : Z) : M ParameterT unit :=
  fun p =>
    if negb (is_none (p_data p))
       && negb (ParameterDataTypes.dataTypeCheck (p_data p) newValue)
    then (Raise (ValueError "New Type is not compatible with current data"), p)
    else (Ok tt, with_dataType p (Some newValue)).

(** [data()] hands out a deep copy; values are immutable here. *)
Definition data (p : ParameterT) : PyVal := p_data p.

Definition setData (newData : PyVal) : M ParameterT unit :=
  fun p =>
    match p_dataType p with
    | None => (Raise (ValueError "Cannot set new data with no dataType set"), p)
    | Some dataType =>
        if negb (ParameterDataTypes.dataTypeCheck newData dataType)
        then (Raise (ValueError "New Data is not compatible with current data Type"), p)
        else (Ok tt, with_data p newData)
    end.

Definition clear (p : ParameterT) : ParameterT := with_data p VNone.

End ParameterOps.

Record ParameterGroup := mkGroup {
  g_name : pystr;
  g_description : pystr;
  g_locked : bool;
  g_parameters : list ParameterT;
  g_groupId : Z
}.

(** [l.remove(x)] where [x] is the first item that satisfies [f]. *)
Fixpoint remove_first {A} (f : A -> bool) (l : list A) : list A :=
  match l with
  | [] => []
  | x :: rest => if f x then rest else x :: remove_first f rest
  end.

Module GroupOps.

Definition new (name : pystr) (groupId : Z) : ParameterGroup :=
  {| g_name := name; g_description := [];
     g_locked := if groupId >? 0 then true else false;
     g_parameters := []; g_groupId := Z.abs groupId |}.

Definition setDescription (newValue : pystr) (g : ParameterGroup)
  : ParameterGroup :=
  {| g_name := g_name g; g_description := newValue; g_locked := g_locked g;
     g_parameters := g_parameters g; g_groupId := g_groupId g |}.

Definition with_parameters (g : ParameterGroup) (ps : list ParameterT)
  : ParameterGroup :=
  {| g_name := g_name g; g_description := g_description g;
     g_locked := g_locked g; g_parameters := ps; g_groupId := g_groupId g |}.

Definition groupId (g : ParameterGroup) : Z := g_groupId g.

Definition getParameter (name : pystr) (g : ParameterGroup)
  : option ParameterT :=
  find (fun param => pystr_eqb (p_name param) name) (g_parameters g).

Definition addParameter (p : ParameterT) (g : ParameterGroup)
  : ParameterGroup :=
  with_parameters g (g_parameters g ++ [p]).

(** The new property sits last in the group; the caller keeps a reference
    to it and mutates it there. *)
Definition addNewProperty (name : pystr) (g : ParameterGroup)
  : ParameterGroup :=
  addParameter (ParameterOps.new name) g.

Definition setGroupId (newData : Z) (g : ParameterGroup) : ParameterGroup :=
  {| g_name := g_name g; g_description := g_description g;
     g_locked := g_locked g; g_parameters := g_parameters g;
     g_groupId := Z.abs newData |}.

Definition getParameters (g : ParameterGroup) : list ParameterT :=
  g_parameters g.

(** The parameter found by name is the first with that name, and it is
    that object [list.remove] takes out. *)
Definition removePrameterByName (name : pystr) (g : ParameterGroup)
  : bool * ParameterGroup :=
  match getParameter name g with
  | Some _ =>
      (true,
       with_parameters g
         (remove_first (fun param => pystr_eqb (p_name param) name)
            (g_parameters g)))
  | None => (false, g)
  end.

End GroupOps.

Record Vector3 := mkVector3 { v_data : list PyVal }.

(** [Marker._data] is a dict from frame keys to a position or [None]; kept
    as an association list in insertion order, keys unique. *)
Record Marker := mkMarker {
  _markerName : PyVal;
  m_data : list (Z * option Vector3)
}.

Module MarkerOps.

Definition new (markerName : PyVal) : Marker :=
  {| _markerName := markerName; m_data := [] |}.

(** [dict.get(key)]: a missing key reads as [None]. *)
Fixpoint dict_get (d : list (Z * option Vector3)) (key : Z)
  : option Vector3 :=
  match d with
  | [] => None
  | (k, v) :: rest => if k =? key then v else dict_get rest key
  end.

Definition getPosition (frameNumber : Z) (m : Marker) : option Vector3 :=
  dict_get (m_data m) frameNumber.

Definition with_data (m : Marker) (d : list (Z * option Vector3)) : Marker :=
  {| _markerName := _markerName m; m_data := d |}.

Definition markerName (m : Marker) : PyVal := _markerName m.

Definition setMarkerName (newName : PyVal) (m : Marker) : Marker :=
  {| _markerName := newName; m_data := m_data m |}.

(** [d[key] = v]: an existing key keeps its place. *)
Fixpoint dict_set (d : list (Z * option Vector3)) (key : Z)
    (v : option Vector3) : list (Z * option Vector3) :=
  match d with
  | [] => [(key, v)]
  | (k, x) :: rest =>
      if k =? key then (k, v) :: rest else (k, x) :: dict_set rest key v
  end.

Definition setPosition (frameNumber : Z) (positionAtFrame : Vector3)
    (m : Marker) : Marker :=
  with_data m (dict_set (m_data m) frameNumber (Some positionAtFrame)).

End MarkerOps.

(* ================================================================= *)
(** ** c3dFile.py *)

Record C3DFile := mkC3DFile {
  _filePath : string;
  _parameters : list ParameterGroup;
  _markers : list Marker;
  _header : Header
}.

(** The two objects a decoding method works on: [self] and the open
    [handle] it is passed. *)
Record Load := mkLoad {
  self : C3DFile;
  handle : BinaryFileReader
}.

Module C3D.

Definition _c3dFileKeyValue_ : Z := 80.

(** *** State plumbing *)

Definition on_handle {A} (m : M BinaryFileReader A) : M Load A :=
  fun w =>
    let (r, h) := m (handle w) in (r, {| self := self w; handle := h |}).

Definition on_self {A} (m : M C3DFile A) : M Load A :=
  fun w =>
    let (r, c) := m (self w) in (r, {| self := c; handle := handle w |}).

Definition with_header (c : C3DFile) (h : Header) : C3DFile :=
  {| _filePath := _filePath c; _parameters := _parameters c;
     _markers := _markers c; _header := h |}.

Definition with_parameters (c : C3DFile) (ps : list ParameterGroup)
  : C3DFile :=
  {| _filePath := _filePath c; _parameters := ps;
     _markers := _markers c; _header := _header c |}.

Definition with_markers (c : C3DFile) (ms : list Marker) : C3DFile :=
  {| _filePath := _filePath c; _parameters := _parameters c;
     _markers := ms; _header := _header c |}.

Definition with_filePath (c : C3DFile) (p : string) : C3DFile :=
  {| _filePath := p; _parameters := _parameters c;
     _markers := _markers c; _header := _header c |}.

(** An assignment [self._header.field = v]. *)
Definition set_header (f : Header -> Header) : M Load unit :=
  on_self (modify (fun c => with_header c (f (_header c)))).

Definition set_parameterBlock v h :=
  mkHeader v (markerCount h) (analogMesasurements h) (firstFrame h)
    (lastFrame h) (maxFrameGap h) (scaleFactor h) (dataStart h)
    (sampleRate h) (frameRate h) (paramaterBlockCount h) (processorType h).
Definition set_markerCount v h :=
  mkHeader (parameterBlock h) v (analogMesasurements h) (firstFrame h)
    (lastFrame h) (maxFrameGap h) (scaleFactor h) (dataStart h)
    (sampleRate h) (frameRate h) (paramaterBlockCount h) (processorType h).
Definition set_analogMesasurements v h :=
  mkHeader (parameterBlock h) (markerCount h) v (firstFrame h)
    (lastFrame h) (maxFrameGap h) (scaleFactor h) (dataStart h)
    (sampleRate h) (frameRate h) (paramaterBlockCount h) (processorType h).
Definition set_firstFrame v h :=
  mkHeader (parameterBlock h) (markerCount h) (analogMesasurements h) v
    (lastFrame h) (maxFrameGap h) (scaleFactor h) (dataStart h)
    (sampleRate h) (frameRate h) (paramaterBlockCount h) (processorType h).
Definition set_lastFrame v h :=
  mkHeader (parameterBlock h) (markerCount h) (analogMesasurements h)
    (firstFrame h) v (maxFrameGap h) (scaleFactor h) (dataStart h)
    (sampleRate h) (frameRate h) (paramaterBlockCount h) (processorType h).
Definition set_maxFrameGap v h :=
  mkHeader (parameterBlock h) (markerCount h) (analogMesasurements h)
    (firstFrame h) (lastFrame h) v (scaleFactor h) (dataStart h)
    (sampleRate h) (frameRate h) (paramaterBlockCount h) (processorType h).
Definition set_scaleFactor v h :=
  mkHeader (parameterBlock h) (markerCount h) (analogMesasurements h)
    (firstFrame h) (lastFrame h) (maxFrameGap h) v (dataStart h)
    (sampleRate h) (frameRate h) (paramaterBlockCount h) (processorType h).
Definition set_dataStart v h :=
  mkHeader (parameterBlock h) (markerCount h) (analogMesasurements h)
    (firstFrame h) (lastFrame h) (maxFrameGap h) (scaleFactor h) v
    (sampleRate h) (frameRate h) (paramaterBlockCount h) (processorType h).
Definition set_sampleRate v h :=
  mkHeader (parameterBlock h) (markerCount h) (analogMesasurements h)
    (firstFrame h) (lastFrame h) (maxFrameGap h) (scaleFactor h)
    (dataStart h) v (frameRate h) (paramaterBlockCount h) (processorType h).
Definition set_frameRate v h :=
  mkHeader (parameterBlock h) (markerCount h) (analogMesasurements h)
    (firstFrame h) (lastFrame h) (maxFrameGap h) (scaleFactor h)
    (dataStart h) (sampleRate h) v (paramaterBlockCount h) (processorType h).
Definition set_paramaterBlockCount v h :=
  mkHeader (parameterBlock h) (markerCount h) (analogMesasurements h)
    (firstFrame h) (lastFrame h) (maxFrameGap h) (scaleFactor h)
    (dataStart h) (sampleRate h) (frameRate h) v (processorType h).
Definition set_processorType v h :=
  mkHeader (parameterBlock h) (markerCount h) (analogMesasurements h)
    (firstFrame h) (lastFrame h) (maxFrameGap h) (scaleFactor h)
    (dataStart h) (sampleRate h) (frameRate h) (paramaterBlockCount h) v.

(** *** Construction and reset *)

Definition init : C3DFile :=
  {| _filePath := ""; _parameters := []; _markers := [];
     _header := HeaderOps.clear |}.

Definition reset : M C3DFile unit :=
  modify (fun c => {| _filePath := _filePath c; _parameters := [];
                      _markers := []; _header := HeaderOps.clear |}).

(** *** Header *)

(** [{84: INTEL, 85: DEC, 86: MIPS}.get(processorType)] *)
Definition processorOfCode (processorType : Z) : option string :=
  if processorType =? 84 then Some ProcessorTypes.INTEL
  else if processorType =? 85 then Some ProcessorTypes.DEC
  else if processorType =? 86 then Some ProcessorTypes.MIPS
  else None.

Definition _readProcessorType : M Load unit :=
  processorType <- on_handle Reader.readByte ;;
  let newProc := processorOfCode processorType in
  set_header (set_processorType newProc) ;;;
  on_handle (Reader.setProcessorType newProc).

Definition _readHeader : M Load unit :=
  on_handle (Reader.seek 0) ;;;
  pb <- on_handle Reader.readByte ;;
  set_header (set_parameterBlock pb) ;;;
  curPos <- on_handle Reader.tell ;;
  on_handle (Reader.seek ((pb - 1) * 512)) ;;;
  on_handle Reader.readByte ;;;
  on_handle Reader.readByte ;;;
  on_handle Reader.readByte ;;;
  _readProcessorType ;;;
  on_handle (Reader.seek curPos) ;;;
  key <- on_handle Reader.readByte ;;
  if negb (key =? _c3dFileKeyValue_)
  then raise (ValueError "Not a valid C3D file")
  else
    v <- on_handle Reader.readInt ;; set_header (set_markerCount v) ;;;
    v <- on_handle Reader.readInt ;; set_header (set_analogMesasurements v) ;;;
    v <- on_handle Reader.readInt ;; set_header (set_firstFrame v) ;;;
    v <- on_handle Reader.readInt ;; set_header (set_lastFrame v) ;;;
    v <- on_handle Reader.readInt ;; set_header (set_maxFrameGap v) ;;;
    v <- on_handle Reader.readFloat ;; set_header (set_scaleFactor v) ;;;
    v <- on_handle Reader.readInt ;; set_header (set_dataStart v) ;;;
    v <- on_handle Reader.readInt ;; set_header (set_sampleRate v) ;;;
    v <- on_handle Reader.readFloat ;; set_header (set_frameRate v).

(** *** Queries used while decoding *)

Definition getMarkerCount (c : C3DFile) : Z := markerCount (_header c).

Definition getFrameStart (c : C3DFile) : Z := firstFrame (_header c).

Definition getFrameEnd (c : C3DFile) : Z := lastFrame (_header c).

Definition getSampleRate (c : C3DFile) : pyfloat := frameRate (_header c).

Definition getMarkers (c : C3DFile) : list Marker := _markers c.

Definition getParameterGroups (c : C3DFile) : list ParameterGroup :=
  _parameters c.

(** Position in [groups] of the first group with this id. *)
Fixpoint index_of_group (groupId : Z) (groups : list ParameterGroup)
  : option nat :=
  match groups with
  | [] => None
  | g :: rest =>
      if GroupOps.groupId g =? groupId then Some O
      else option_map S (index_of_group groupId rest)
  end.

Definition getParameterByGroupId (groupId : Z) (c : C3DFile) : option nat :=
  index_of_group (Z.abs groupId) (_parameters c).

Definition getParameterGroup (name : pystr) (c : C3DFile)
  : option ParameterGroup :=
  find (fun param => pystr_eqb (g_name param) name) (_parameters c).

(** *** Parameter block *)

Fixpoint replace_nth {A} (n : nat) (x : A) (l : list A) : list A :=
  match l, n with
  | [], _ => []
  | _ :: rest, O => x :: rest
  | y :: rest, S n' => y :: replace_nth n' x rest
  end.

(** A method call on the group object at position [gi] of
    [self._parameters]. *)
Definition on_group (gi : nat) (f : ParameterGroup -> ParameterGroup)
  : M Load unit :=
  on_self (modify (fun c =>
    match nth_error (_parameters c) gi with
    | Some g => with_parameters c (replace_nth gi (f g) (_parameters c))
    | None => c
    end)).

(** A method call on the parameter object at position [pi] of the group at
    position [gi]. *)
Definition on_parameter {A} (gi pi : nat) (m : M ParameterT A)
  : M Load A :=
  fun w =>
    match nth_error (_parameters (self w)) gi with
    | Some g =>
        match nth_error (g_parameters g) pi with
        | Some p =>
            let (r, p') := m p in
            let g' := GroupOps.with_parameters g
                        (replace_nth pi p' (g_parameters g)) in
            (r, {| self := with_parameters (self w)
                             (replace_nth gi g' (_parameters (self w)));
                   handle := handle w |})
        | None => (Raise AttributeError, w)
        end
    | None => (Raise AttributeError, w)
    end.

Definition _readDescription : M Load pystr :=
  paramDescirptionLength <- on_handle Reader.readByte ;;
  if paramDescirptionLength =? 0 then ret []
  else on_handle (Reader.readStringFromByte paramDescirptionLength).

Definition _newParam (name : pystr) (groupId : Z) : M Load unit :=
  let newParameter := GroupOps.new name groupId in
  description <- _readDescription ;;
  on_self (modify (fun c =>
    with_parameters c
      (_parameters c ++ [GroupOps.setDescription description newParameter]))).

Definition _readPropertyValue (propertyType : Z) : M Load PyVal :=
  if propertyType =? -1 then
    nameLength <- on_handle Reader.readByte ;;
    s <- on_handle (Reader.readStringFromByte nameLength) ;;
    ret (VStr s)
  else if propertyType =? 1 then
    v <- on_handle Reader.readByte ;; ret (VInt v)
  else if propertyType =? 2 then
    v <- on_handle Reader.readInt ;; ret (VInt v)
  else if propertyType =? 4 then
    v <- on_handle Reader.readFloat ;; ret (VFloat v)
  else raise (ValueError "Unkown value given").

Definition UNABLE_TO_READ_VALUE : pystr :=
  pystr_of_string "UNABLE TO READ VALUE".

(** The [for _ in range(arraySize)] loop over the strings of an array,
    [value] being the list built so far. *)
Fixpoint readStringArray (stringSize : Z) (arraySize : nat)
    (value : list PyVal) : M Load (list PyVal) :=
  match arraySize with
  | O => ret value
  | S n =>
      value' <- try_except
                  (s <- on_handle (Reader.readStringFromByte stringSize) ;;
                   ret (value ++ [VStr (codec.strip s)]))
                  (ret [VStr UNABLE_TO_READ_VALUE]) ;;
      readStringArray stringSize n value'
  end.

(** The [for _ in range(dataDimensions)] loop over the scalars of an
    array. *)
Fixpoint readScalarArray (dataType : Z) (dataDimensions : nat)
    (value : list PyVal) : M Load (list PyVal) :=
  match dataDimensions with
  | O => ret value
  | S n =>
      v <- _readPropertyValue dataType ;;
      readScalarArray dataType n (value ++ [v])
  end.

(** The value of a parameter record, from its data type byte on. *)
Definition readParamValue (dataType dataDimensions : Z) : M Load PyVal :=
  if dataType =? -1 then
    stringSize <- on_handle Reader.readByte ;;
    if dataDimensions >? 1 then
      arraySize <- on_handle Reader.readUnsignedByte ;;
      let value := if arraySize =? 0 then [VStr []] else [] in
      l <- readStringArray stringSize (Z.to_nat arraySize) value ;;
      ret (VList l)
    else
      s <- on_handle (Reader.readStringFromByte stringSize) ;;
      ret (VStr (codec.strip s))
  else if dataDimensions =? 0 then
    _readPropertyValue dataType
  else
    l <- readScalarArray dataType (Z.to_nat dataDimensions) [] ;;
    ret (VList l).

Definition _readParamBlock : M Load bool :=
  b <- on_handle Reader.readByte ;;
  let nameLength := Z.abs b in
  if nameLength =? 0 then ret false
  else
    groupId <- on_handle Reader.readByte ;;
    groupName <- on_handle (Reader.readStringFromByte nameLength) ;;
    currentFilePos <- on_handle Reader.tell ;;
    bytesToNextGroup <- on_handle Reader.readInt ;;
    if bytesToNextGroup =? 0 then ret false
    else
      w <- get ;;
      match getParameterByGroupId groupId (self w) with
      | None =>
          _newParam groupName groupId ;;; ret true
      | Some gi =>
          let pi := match nth_error (_parameters (self w)) gi with
                    | Some g => List.length (g_parameters g)
                    | None => O
                    end in
          on_group gi (GroupOps.addNewProperty groupName) ;;;
          dataType <- on_handle Reader.readByte ;;
          dataDimensions <- on_handle Reader.readByte ;;
          value <- readParamValue dataType dataDimensions ;;
          on_parameter gi pi (ParameterOps.setDataType dataType) ;;;
          on_parameter gi pi (ParameterOps.setData value) ;;;
          on_handle (Reader.seek (currentFilePos + bytesToNextGroup)) ;;;
          ret true
      end.

Definition timeout {S A} : M S A := fun s => (Timeout, s).

(** [while True: if self._readParamBlock(handle) is False: break] *)
Fixpoint readParamBlocks (fuel : nat) : M Load unit :=
  match fuel with
  | O => timeout
  | S n =>
      continue <- _readParamBlock ;;
      if continue then readParamBlocks n else ret tt
  end.

Definition _readParameters (fuel : nat) : M Load unit :=
  w <- get ;;
  on_handle (Reader.seek ((parameterBlock (_header (self w)) - 1) * 512)) ;;;
  on_handle Reader.readByte ;;;
  on_handle Reader.readByte ;;;
  v <- on_handle Reader.readByte ;;
  set_header (set_paramaterBlockCount v) ;;;
  _readProcessorType ;;;
  readParamBlocks fuel.

(** *** Markers *)

(** [for x in v]: a list yields its items, a string its characters, and
    nothing else the decoder stores can be iterated. *)
Definition py_iter (v : PyVal) : Result (list PyVal) :=
  match v with
  | VList l => Ok l
  | VStr s => Ok (map (fun c => VStr [c]) s)
  | _ => Raise TypeError
  end.

(** [data[i]] *)
Definition py_index (data : list PyVal) (i : nat) : Result PyVal :=
  match nth_error data i with
  | Some v => Ok v
  | None => Raise IndexError
  end.

(** [data[a:b]] for [0 <= a]. *)
Definition py_slice (data : list PyVal) (a b : Z) : list PyVal :=
  firstn (Z.to_nat (b - a)) (skipn (Z.to_nat a) data).

(** [range(0, stop, step)] for [0 <= stop]. *)
Definition py_range0 (stop step : Z) : Result (list Z) :=
  if step =? 0 then Raise (ValueError "range() arg 3 must not be zero")
  else if step <? 0 then Ok []
  else Ok (map (fun k => Z.of_nat k * step)
               (seq 0 (Z.to_nat ((stop + step - 1) / step)))).

(** [enumerate(l)] *)
Definition enumerate {A} (l : list A) : list (Z * A) :=
  combine (map Z.of_nat (seq 0 (List.length l))) l.

Definition _quickVec (data : list PyVal) : Result (option Vector3) :=
  let vec := Ok (Some {| v_data := data |}) in
  match py_index data 0 with
  | Ok d0 =>
      if py_eq_zero d0 then
        match py_index data 1 with
        | Ok d1 =>
            if py_eq_zero d1 then
              match py_index data 2 with
              | Ok d2 => if py_eq_zero d2 then Ok None else vec
              | Raise e => Raise e
              | Timeout => Timeout
              end
            else vec
        | Raise e => Raise e
        | Timeout => Timeout
        end
      else vec
  | Raise e => Raise e
  | Timeout => Timeout
  end.

(** The dict comprehension of [processMarkerData]: one entry per frame
    start [idx], in order; the first failing entry fails the whole. *)
Fixpoint markerDataOf (data : list PyVal) (markerIdx : Z)
    (entries : list (Z * Z)) : Result (list (Z * option Vector3)) :=
  match entries with
  | [] => Ok []
  | (frame, idx) :: rest =>
      match _quickVec (py_slice data (idx + markerIdx * 4)
                                     (idx + markerIdx * 4 + 4)) with
      | Ok v =>
          match markerDataOf data markerIdx rest with
          | Ok d => Ok ((frame, v) :: d)
          | Raise e => Raise e
          | Timeout => Timeout
          end
      | Raise e => Raise e
      | Timeout => Timeout
      end
  end.

Definition processMarkerData (marker : Marker) (data : list PyVal)
    (markerIdx markerCount : Z) : Result Marker :=
  match py_range0 (Z.of_nat (List.length data)) (markerCount * 4) with
  | Ok starts =>
      match markerDataOf data markerIdx (enumerate starts) with
      | Ok markerData => Ok (MarkerOps.with_data marker markerData)
      | Raise e => Raise e
      | Timeout => Timeout
      end
  | Raise e => Raise e
  | Timeout => Timeout
  end.

(** One thread per marker, each writing its own marker only; an exception
    ends its thread and leaves that marker as it was.  All threads are
    joined before [_readMarkers] returns. *)
Definition runThread (data : list PyVal) (markerCount : Z)
    (im : Z * Marker) : Marker :=
  match processMarkerData (snd im) data (fst im) markerCount with
  | Ok m => m
  | _ => snd im
  end.

Definition runThreads (data : list PyVal) (markerCount : Z)
    (markers : list Marker) : list Marker :=
  map (runThread data markerCount) (enumerate markers).

(** [self._markers.append(Marker(name))] for every name. *)
Definition appendMarkers (names : list PyVal) : M Load unit :=
  on_self (modify (fun c =>
    with_markers c (_markers c ++ map MarkerOps.new names))).

Fixpoint mapM_result {A B} (f : A -> Result B) (l : list A)
  : Result (list B) :=
  match l with
  | [] => Ok []
  | x :: rest =>
      match f x with
      | Ok y =>
          match mapM_result f rest with
          | Ok ys => Ok (y :: ys)
          | Raise e => Raise e
          | Timeout => Timeout
          end
      | Raise e => Raise e
      | Timeout => Timeout
      end
  end.

(** The sample region: seek to the data block, read SCALE, and decode
    the flat sample buffer. *)
Definition readSamples (pointGroup : ParameterGroup)
  : M Load (list PyVal) :=
  w <- get ;;
  let startOfDataBlock := (dataStart (_header (self w)) - 1) * 512 in
  on_handle (Reader.seek startOfDataBlock) ;;;
  match GroupOps.getParameter (pystr_of_string "SCALE") pointGroup with
  | None => raise AttributeError
  | Some scale =>
      let pointScale := ParameterOps.data scale in
      let numberOfDataPoints :=
        ((lastFrame (_header (self w)) - firstFrame (_header (self w)))
         * getMarkerCount (self w)) * 4 in
      negative <- lift_result (py_lt_zero pointScale) ;;
      if negative : bool then
        fs <- on_handle (Reader.bulkReadFloat numberOfDataPoints) ;;
        ret (map VFloat fs)
      else
        vs <- on_handle (Reader.bulkReadInt numberOfDataPoints) ;;
        lift_result (mapM_result (fun value => py_mul_int value pointScale) vs)
  end.

Definition _readMarkers : M Load unit :=
  w <- get ;;
  match getParameterGroup (pystr_of_string "POINT") (self w) with
  | None => ret tt
  | Some pointGroup =>
      let markers := GroupOps.getParameter (pystr_of_string "LABELS") pointGroup in
      let markers2 := GroupOps.getParameter (pystr_of_string "LABELS2") pointGroup in
      match markers with
      | None => ret tt
      | Some markers =>
          names <- lift_result (py_iter (ParameterOps.data markers)) ;;
          appendMarkers names ;;;
          match markers2 with
          | None => ret tt
          | Some markers2 =>
              names2 <- lift_result (py_iter (ParameterOps.data markers2)) ;;
              appendMarkers names2
          end ;;;
          w <- get ;;
          if negb (Z.of_nat (List.length (_markers (self w)))
                   =? getMarkerCount (self w))
          then raise (ValueError
            "Marker count does not match the number of markers in the file")
          else
            data <- readSamples pointGroup ;;
            let markerCount := getMarkerCount (self w) in
            on_self (modify (fun c =>
              with_markers c (runThreads data markerCount (_markers c))))
      end
  end.

(** *** Loading *)

Definition loadFile (fuel : nat) (fs : FileSystem) (filePath : string)
  : M C3DFile unit :=
  reset ;;;
  match fs filePath with
  | None => raise FileNotFoundError
  | Some content =>
      modify (fun c => with_filePath c filePath) ;;;
      fun c =>
        let fileObj := snd (Reader.openFile content Reader.init) in
        let (r, w) :=
          (_readHeader ;;; _readParameters fuel ;;; _readMarkers)
            {| self := c; handle := fileObj |} in
        (r, self w)
  end.

(** *** Parameter queries *)

Definition getParameter (parameterGroup parameterProperty : pystr)
    (c : C3DFile) : Result ParameterT :=
  match getParameterGroup parameterGroup c with
  | None => Raise AttributeError
  | Some paramGrp =>
      match GroupOps.getParameter parameterProperty paramGrp with
      | None => Raise AttributeError
      | Some parameter => Ok parameter
      end
  end.

Definition getParameterValue (parameterGroup parameterProperty : pystr)
    (c : C3DFile) : Result PyVal :=
  match getParameter parameterGroup parameterProperty c with
  | Ok parameter => Ok (ParameterOps.data parameter)
  | Raise e => Raise e
  | Timeout => Timeout
  end.

(** *** Frame queries *)

Definition readFrame (frameNumber : Z)
  : M C3DFile (list (option Vector3)) :=
  fun c =>
    if (frameNumber <? firstFrame (_header c))
       || (frameNumber >? lastFrame (_header c))
    then (Raise (ValueError "Invalid Frame Number"), c)
    else (Ok (map (MarkerOps.getPosition frameNumber) (_markers c)), c).

(** *** Markers of the document *)

Definition getMarkersNames (c : C3DFile) : list PyVal :=
  map MarkerOps.markerName (_markers c).

(** [marker.markerName() == markerName] for a [str]: only a string is
    equal to a string. *)
Definition marker_named (markerName : pystr) (m : Marker) : bool :=
  match _markerName m with
  | VStr s => pystr_eqb s markerName
  | _ => false
  end.

Definition getMarker (markerName : pystr) (c : C3DFile) : option Marker :=
  find (marker_named markerName) (_markers c).

Definition addMarker (markerName : pystr) : M C3DFile Marker :=
  fun c =>
    let newMarker := MarkerOps.new (VStr markerName) in
    (Ok newMarker, with_markers c (_markers c ++ [newMarker])).

Definition removeMarker (markerName : pystr) : M C3DFile unit :=
  fun c =>
    match getMarker markerName c with
    | Some _ =>
        (Ok tt,
         with_markers c (remove_first (marker_named markerName) (_markers c)))
    | None => (Ok tt, c)
    end.

(** *** Parameter listings *)

Definition getParameterGroupsNames (c : C3DFile) : list pystr :=
  map g_name (_parameters c).

Definition getParametersInGroup (parameterGroupName : pystr) (c : C3DFile)
  : Result (list pystr) :=
  match getParameterGroup parameterGroupName c with
  | None => Raise (ValueError "Parameter not found in file")
  | Some paramGrp => Ok (map p_name (GroupOps.getParameters paramGrp))
  end.

(** A [dict] with string keys, in insertion order. *)
Definition pydict (V : Type) : Type := list (pystr * V).

(** [d[key] = v] *)
Fixpoint pydict_set {V} (d : pydict V) (key : pystr) (v : V) : pydict V :=
  match d with
  | [] => [(key, v)]
  | (k, x) :: rest =>
      if pystr_eqb k key then (k, v) :: rest
      else (k, x) :: pydict_set rest key v
  end.

(** [d.get(key)] *)
Fixpoint pydict_get {V} (d : pydict V) (key : pystr) : option V :=
  match d with
  | [] => None
  | (k, x) :: rest => if pystr_eqb k key then Some x else pydict_get rest key
  end.

(** [dict(pairs)] *)
Definition pydict_of {V} (pairs : list (pystr * V)) : pydict V :=
  fold_left (fun d kv => pydict_set d (fst kv) (snd kv)) pairs [].

Definition getParameterDict (c : C3DFile) : pydict (pydict PyVal) :=
  fold_left
    (fun returnDict paramGrp =>
       pydict_set returnDict (g_name paramGrp)
         (pydict_of (map (fun param => (p_name param, ParameterOps.data param))
                         (GroupOps.getParameters paramGrp))))
    (_parameters c) [].

(** *** Iterating over frames *)

(** [x or default] for an optional [int]: [None] and [0] are false. *)
Definition py_or (x : option Z) (default : Z) : Z :=
  match x with
  | Some v => if v =? 0 then default else v
  | None => default
  end.

(** [range(start, stop, step)] *)
Definition py_range (start stop step : Z) : Result (list Z) :=
  if step =? 0 then Raise (ValueError "range() arg 3 must not be zero")
  else
    let count :=
      if step >? 0
      then (if start <? stop then (stop - start + step - 1) / step else 0)
      else (if stop <? start then (start - stop - step - 1) / (- step) else 0)
    in
    Ok (map (fun k => start + Z.of_nat k * step) (seq 0 (Z.to_nat count))).

(** What a generator over [frames] produces when it is run to its end on a
    document that is not changed meanwhile: the frames it yields, and the
    exception that ends it if one does. *)
Fixpoint yieldFrames (frames : list Z) (c : C3DFile)
  : list (list (option Vector3)) * option PyExc :=
  match frames with
  | [] => ([], None)
  | frame :: rest =>
      match fst (readFrame frame c) with
      | Ok positions =>
          let (more, e) := yieldFrames rest c in (positions :: more, e)
      | Raise e => ([], Some e)
      | Timeout => ([], None)
      end
  end.

Definition iterFrame (start end_ : option Z) (iterJump : Z) (c : C3DFile)
  : list (list (option Vector3)) * option PyExc :=
  let firstFrame := py_or start (firstFrame (_header c)) in
  let lastFrame := py_or end_ (lastFrame (_header c) + 1) in
  match py_range firstFrame lastFrame iterJump with
  | Ok frames => yieldFrames frames c
  | Raise e => ([], Some e)
  | Timeout => ([], None)
  end.

(** [C3DFile(filePath)] *)
Definition construct (fuel : nat) (fs : FileSystem) (filePath : option string)
  : Result unit * C3DFile :=
  match filePath with
  | Some p => loadFile fuel fs p init
  | None => (Ok tt, init)
  end.

End C3D.

(* ================================================================= *)
(** ** Fields of a file, by offset *)

(** The [n] bytes of [d] from offset [p] on, fewer at the end of [d]. *)
Definition bytes_at (d : list byte) (p n : Z) : list byte :=
  firstn (Z.to_nat n) (skipn (Z.to_nat p) d).

(** The signed byte at offset [p]. *)
Definition sbyte_at (d : list byte) (p : Z) : Result PyVal :=
  struct.unpack struct.Native "b" (bytes_at d p 1).

(** The unsigned byte at offset [p]. *)
Definition ubyte_at (d : list byte) (p : Z) : Result PyVal :=
  struct.unpack struct.Native "B" (bytes_at d p 1).

(** The 16-bit integer at offset [p], for a processor type. *)
Definition int_at (d : list byte) (p : Z) (pt : option string)
  : Result PyVal :=
  Reader._readBasedOnProcessorType (bytes_at d p 2) DataTypes.INT pt.

(** The 32-bit float at offset [p], for a processor type. *)
Definition float_at (d : list byte) (p : Z) (pt : option string)
  : Result PyVal :=
  Reader._readBasedOnProcessorType (bytes_at d p 4) DataTypes.FLOAT pt.

(** The document [c] with a handle on the content [d], configured for
    [pt] and positioned at [p]. *)
Definition at_pos (c : C3DFile) (d : list byte) (pt : option string) (p : Z)
  : Load :=
  {| self := c;
     handle := {| _handle := Some p; _data := d; _processorType := pt |} |}.

(** The document in which [loadFile] starts to decode the file at
    [filePath]: reset, with the path recorded. *)
Definition start_doc (filePath : string) : C3DFile :=
  {| _filePath := filePath; _parameters := []; _markers := [];
     _header := HeaderOps.clear |}.

(** A computation that leaves the observation [f] of the document as it
    was, whether it returns or raises. *)
Definition keeps {A X} (f : C3DFile -> X) (m : M Load A) : Prop :=
  forall w, f (self (snd (m w))) = f (self w).

(** A sample of x, y, z and a fourth word is a gap when x, y and z are
    all equal to zero. *)
Definition is_gap (sample : list PyVal) : bool :=
  match sample with
  | x :: y :: z :: _ => py_eq_zero x && py_eq_zero y && py_eq_zero z
  | _ => false
  end.

(** The frame numbers [readFrame] accepts. *)
Definition frame_in_range (c : C3DFile) (frame : Z) : bool :=
  (firstFrame (_header c) <=? frame) && (frame <=? lastFrame (_header c)).

(** The longest prefix whose items all satisfy [f]. *)
Fixpoint take_while {A} (f : A -> bool) (l : list A) : list A :=
  match l with
  | [] => []
  | x :: rest => if f x then x :: take_while f rest else []
  end.

(** From a document that satisfies [P], the computation leaves one that
    satisfies [Q], whether it returns, raises or runs out of fuel. *)
Definition leaves {A} (P : C3DFile -> Prop) (m : M Load A)
    (Q : C3DFile -> Prop) : Prop :=
  forall w, P (self w) -> Q (self (snd (m w))).

(** A parameter is well typed when it has no data, or data that its data
    type accepts. *)
Definition wf_parameter (p : ParameterT) : Prop :=
  p_data p = VNone
  \/ exists k, p_dataType p = Some k
               /\ ParameterDataTypes.dataTypeCheck (p_data p) k = true.

(** What one record of the parameter block can do to the document:
    nothing, append a group whose id is new, or append a well-typed
    parameter to a group that is there. *)
Inductive walker_step (c : C3DFile) : C3DFile -> Prop :=
| step_none : walker_step c c
| step_group name groupId description :
    C3D.index_of_group (Z.abs groupId) (_parameters c) = None ->
    walker_step c
      (C3D.with_parameters c
         (_parameters c
          ++ [GroupOps.setDescription description
                (GroupOps.new name groupId)]))
| step_parameter gi g p :
    nth_error (_parameters c) gi = Some g ->
    wf_parameter p ->
    walker_step c
      (C3D.with_parameters c
         (C3D.replace_nth gi
            (GroupOps.with_parameters g (g_parameters g ++ [p]))
            (_parameters c))).

(** The document while a parameter record of the group [g], at [gi] in
    [c0], is decoded: the group has one more parameter, well typed. *)
Definition decoding (c0 : C3DFile) (gi : nat) (g : ParameterGroup)
    (c : C3DFile) : Prop :=
  exists p,
    wf_parameter p
    /\ c = C3D.with_parameters c0
             (C3D.replace_nth gi
                (GroupOps.with_parameters g (g_parameters g ++ [p]))
                (_parameters c0)).

(** The groups of a document are well formed when their ids are
    non-negative and pairwise distinct and their parameters well typed. *)
Definition wf_groups (groups : list ParameterGroup) : Prop :=
  NoDup (map g_groupId groups)
  /\ Forall (fun g => 0 <= g_groupId g) groups
  /\ Forall (fun g => Forall wf_parameter (g_parameters g)) groups.

(* ================================================================= *)
(** ** The DEC rule as specified *)

(** The DEC rule in the words of the specification: reverse the bytes of
    the field, then read it in the little-endian layout. *)
Definition DEC_reversed_then_native (data : list byte)
    (dataType : DataTypes._DataType) : Result PyVal :=
  struct.unpack struct.Little (DataTypes.fmt dataType) (rev data).

(* ================================================================= *)
(** ** Test files *)

Module Fixtures.

Definition byte_of_Z (z : Z) : byte :=
  match Byte.of_N (Z.to_N (z mod 256)) with
  | Some b => b
  | None => x00
  end.

Definition bytes_of (l : list Z) : list byte := map byte_of_Z l.

Definition ascii_bytes (s : string) : list byte :=
  map byte_of_ascii (list_ascii_of_string s).

(** Fill a block with zero bytes up to [n] bytes. *)
Definition pad (n : nat) (l : list byte) : list byte :=
  l ++ repeat x00 (n - List.length l).

(** A little-endian float32 whose two low bytes are zero. *)
Definition f32 (b2 b3 : Z) : list byte := bytes_of [0; 0; b2; b3].

(** Block 1: parameter block pointer 2, the format key, [markerCount],
    no analog data, frames 1 to 2, max gap 0, scale factor 0.0, data in
    block 3, sample rate 30, frame rate 60.0. *)
Definition header_block (key markerCount : Z) : list byte :=
  pad 512 (bytes_of [2; key; markerCount; 0; 0; 0; 1; 0; 2; 0; 0; 0]
           ++ f32 0 0 ++ bytes_of [3; 0; 30; 0] ++ f32 112 66).

(** The group record POINT (id -1), with [padding] after its empty
    description and the offset to the next record counting it. *)
Definition point_group (padding : list byte) : list byte :=
  bytes_of [5; -1] ++ ascii_bytes "POINT"
  ++ bytes_of [3 + Z.of_nat (List.length padding); 0; 0] ++ padding.

(** The parameter record LABELS of group 1: two strings of one byte. *)
Definition labels_param (strings : list byte) : list byte :=
  bytes_of [6; 1] ++ ascii_bytes "LABELS"
  ++ bytes_of [9; 0; -1; 2; 1; 2] ++ strings ++ bytes_of [0].

(** The parameter record SCALE of group 1: the float -1.0. *)
Definition scale_param : list byte :=
  bytes_of [5; 1] ++ ascii_bytes "SCALE"
  ++ bytes_of [9; 0; 4; 0] ++ f32 128 191 ++ bytes_of [0].

(** Block 2: two reserved bytes, one parameter block, Intel, the three
    records and the end of the chain. *)
Definition param_block (padding strings : list byte) : list byte :=
  pad 512 (bytes_of [0; 0; 1; 84] ++ point_group padding
           ++ labels_param strings ++ scale_param ++ bytes_of [0]).

(** Block 3: frame 1 has A at (1,2,3) and B at (4,5,6), frame 2 has A at
    (7,8,9) and B at (10,11,12); every fourth word is 0. *)
Definition data_block : list byte :=
  f32 128 63 ++ f32 0 64 ++ f32 64 64 ++ f32 0 0
  ++ f32 128 64 ++ f32 160 64 ++ f32 192 64 ++ f32 0 0
  ++ f32 224 64 ++ f32 0 65 ++ f32 16 65 ++ f32 0 0
  ++ f32 32 65 ++ f32 48 65 ++ f32 64 65 ++ f32 0 0.

Definition file_at (content : list byte) : FileSystem :=
  fun p => if String.eqb p "take.c3d" then Some content else None.

(** Two markers A and B, SCALE -1.0, two frames of float32 samples. *)
Definition minimal_file : list byte :=
  header_block 80 2 ++ param_block [] (ascii_bytes "AB") ++ data_block.



(** The same file whose first label is the byte 0xFF, which is not
    UTF-8. *)
Definition bad_label_file : list byte :=
  header_block 80 2 ++ param_block [] (bytes_of [255; 66]) ++ data_block.

(** The same file whose second label is the byte 0xFF. *)
Definition bad_last_label_file : list byte :=
  header_block 80 2 ++ param_block [] (bytes_of [65; 255]) ++ data_block.

(** The same file with three bytes of padding at the end of the POINT
    group record, which its offset to the next record skips. *)
Definition padded_group_file : list byte :=
  header_block 80 2 ++ param_block (bytes_of [0; 0; 0]) (ascii_bytes "AB")
  ++ data_block.

(** A reader at the start of the padded POINT group record. *)
Definition at_padded_group : Load :=
  {| self := C3D.init;
     handle := {| _handle := Some 0;
                  _data := point_group (bytes_of [0; 0; 0])
                           ++ labels_param (ascii_bytes "AB");
                  _processorType := Some ProcessorTypes.INTEL |} |}.

(** The document after [loadFile] on a file with this content. *)
Definition loaded (content : list byte) : C3DFile :=
  snd (C3D.loadFile 100 (file_at content) "take.c3d" C3D.init).

Definition vec3 (x y z : pyfloat) : option Vector3 :=
  Some {| v_data := [VFloat x; VFloat y; VFloat z; VFloat float_zero] |}.

Definition f (z : Z) : pyfloat := float_of_int z.

(** Two frames of one marker: a gap, written with a negative zero, then
    the position (1, 2, 3). *)
Definition gap_samples : list PyVal :=
  [VFloat float_zero; VFloat (S754_zero true); VFloat float_zero;
   VFloat float_zero;
   VFloat (f 1); VFloat (f 2); VFloat (f 3); VFloat float_zero].

Definition POINT : pystr := pystr_of_string "POINT".

(** The POINT group of a document and its SCALE parameter. *)
Definition point_of (c : C3DFile) : ParameterGroup :=
  match C3D.getParameterGroup (pystr_of_string "POINT") c with
  | Some g => g
  | None => GroupOps.new [] 0
  end.

Definition scale_of (c : C3DFile) : ParameterT :=
  match GroupOps.getParameter (pystr_of_string "SCALE") (point_of c) with
  | Some p => p
  | None => ParameterOps.new []
  end.

Definition LABELS : pystr := pystr_of_string "LABELS".
Definition SCALE : pystr := pystr_of_string "SCALE".
Definition A : PyVal := VStr (pystr_of_string "A").
Definition B : PyVal := VStr (pystr_of_string "B").

End Fixtures.


(* ================================================================= *)
(** ** Views of decoded values and of the bytes of a record *)

Definition is_str (v : PyVal) : bool :=
  match v with VStr _ => true | _ => false end.

(** What a scalar of data type [t] looks like once decoded. *)
Definition scalar_of_type (t : Z) (v : PyVal) : Prop :=
  (t = -1 /\ is_str v = true)
  \/ (t = 1 /\ exists z, v = VInt z /\ -128 <= z <= 127)
  \/ (t = 2 /\ exists z, v = VInt z)
  \/ (t = 4 /\ exists x, v = VFloat x).

(** The scalar of data type [t] that the bytes at offset [q] hold, and the
    number of bytes it takes. *)
Inductive scalar_field (d : list byte) (pt : option string) (q : Z)
  : Z -> PyVal -> Z -> Prop :=
| field_byte z :
    sbyte_at d q = Ok (VInt z) -> scalar_field d pt q 1 (VInt z) 1
| field_int z :
    int_at d q pt = Ok (VInt z) -> scalar_field d pt q 2 (VInt z) 2
| field_float x :
    float_at d q pt = Ok (VFloat x) -> scalar_field d pt q 4 (VFloat x) 4.

(** A parameter as the walker leaves it in its group. *)
Definition decoded_parameter (name : pystr) (t : Z) (v : PyVal)
  : ParameterT :=
  {| p_name := name; p_description := []; p_locked := false;
     p_data := v; p_dataType := Some t |}.

(** The document [c] after the parameter [p] joined the group [g] that
    sits at [gi]. *)
Definition with_new_parameter (c : C3DFile) (gi : nat) (g : ParameterGroup)
    (p : ParameterT) : C3DFile :=
  C3D.with_parameters c
    (C3D.replace_nth gi
       (GroupOps.with_parameters g (g_parameters g ++ [p]))
       (_parameters c)).

(** A document with the group POINT, id 1, and nothing else. *)
Definition one_group : C3DFile :=
  C3D.with_parameters C3D.init
    [GroupOps.new (pystr_of_string "POINT") (-1)].

(** The record of a Byte parameter X of group 1 with the value 7, its
    offset to the next record being [off]. *)
Definition byte_record (off : Z) : list byte :=
  Fixtures.bytes_of [1; 1; 88; off mod 256; (off / 256) mod 256; 1; 0; 7].

(** The value of a string array: two strings of three bytes. *)
Definition string_array_value : list byte :=
  Fixtures.bytes_of [3; 2] ++ Fixtures.ascii_bytes "A  B  ".

(** The record of a group FORCE with id 2 (written -2) and the
    description "ab"; its offset field holds 3. *)
Definition group_record : list byte :=
  Fixtures.bytes_of [5; -2] ++ Fixtures.ascii_bytes "FORCE"
  ++ Fixtures.bytes_of [3; 0; 2] ++ Fixtures.ascii_bytes "ab".
(* ================================================================= *)
(** ** Running the decoder step by step *)

Section Steps.


Lemma bind_Ok_inv {S A B} (m : M S A) (k : A -> M S B) s b s' :
bind m k s = (Ok b, s') ->
exists a s1, m s = (Ok a, s1) /\ k a s1 = (Ok b, s').
Proof.
unfold bind. destruct (m s) as [[a| e|] s1]; try discriminate.
intros H. now exists a, s1.
Qed.

Lemma unpack_Ok_length order fmt data v :
struct.unpack order fmt data = Ok v ->
struct.calcsize fmt = Some (Z.of_nat (List.length data)).
Proof.
unfold struct.unpack.
destruct (struct.calcsize fmt) as [size|]; [|discriminate].
destruct (Z.of_nat (List.length data) =? size) eqn:E; [|discriminate].
apply Z.eqb_eq in E. now subst.
Qed.

Lemma readBased_Ok_length data dt pt v :
Reader._readBasedOnProcessorType data dt pt = Ok v ->
struct.calcsize (DataTypes.fmt dt) = Some (Z.of_nat (List.length data)).
Proof.
unfold Reader._readBasedOnProcessorType.
destruct pt as [p|].
- destruct (String.eqb p ProcessorTypes.INTEL).
  + apply unpack_Ok_length.
  + destruct (String.eqb p ProcessorTypes.DEC).
    * intros H. apply unpack_Ok_length in H. now rewrite length_rev in H.
    * destruct (String.eqb p ProcessorTypes.MIPS); [|discriminate].
      intros H. apply unpack_Ok_length in H.
      rewrite length_app, Nat.add_comm, <- length_app, firstn_skipn in H.
      exact H.
- apply unpack_Ok_length.
Qed.

Variables (c : C3DFile) (d : list byte) (pt : option string) (p : Z).

Lemma readBytes_at n :
-1 <= n -> n <> -1 ->
Reader.readBytes n (handle (at_pos c d pt p))
= (Ok (bytes_at d p n),
   handle (at_pos c d pt (p + Z.of_nat (List.length (bytes_at d p n))))).
Proof.
intros Hn Hn'. unfold Reader.readBytes, at_pos; cbn.
destruct (n <? -1) eqn:E; [apply Z.ltb_lt in E; lia|].
destruct (n =? -1) eqn:E'; [apply Z.eqb_eq in E'; lia|].
reflexivity.
Qed.

Lemma readByte_Ok v w' :
C3D.on_handle Reader.readByte (at_pos c d pt p) = (Ok v, w') ->
sbyte_at d p = Ok (VInt v) /\ w' = at_pos c d pt (p + 1).
Proof.
unfold C3D.on_handle, Reader.readByte, bind.
rewrite readBytes_at by lia.
unfold lift_result, sbyte_at.
destruct (struct.unpack struct.Native "b" (bytes_at d p 1)) as [x| |] eqn:E;
  try discriminate.
apply unpack_Ok_length in E as L.
change (Some 1 = Some (Z.of_nat (List.length (bytes_at d p 1)))) in L.
injection L as L.
rewrite <- L.
destruct x; cbn; try discriminate.
intros H. injection H as -> <-. split; reflexivity.
Qed.

Lemma readUnsignedByte_Ok v w' :
C3D.on_handle Reader.readUnsignedByte (at_pos c d pt p) = (Ok v, w') ->
ubyte_at d p = Ok (VInt v) /\ w' = at_pos c d pt (p + 1).
Proof.
unfold C3D.on_handle, Reader.readUnsignedByte, bind.
rewrite readBytes_at by lia.
unfold lift_result, ubyte_at.
destruct (struct.unpack struct.Native "B" (bytes_at d p 1)) as [x| |] eqn:E;
  try discriminate.
apply unpack_Ok_length in E as L.
change (Some 1 = Some (Z.of_nat (List.length (bytes_at d p 1)))) in L.
injection L as L.
rewrite <- L.
destruct x; cbn; try discriminate.
intros H. injection H as -> <-. split; reflexivity.
Qed.

Lemma readInt_Ok v w' :
C3D.on_handle Reader.readInt (at_pos c d pt p) = (Ok v, w') ->
int_at d p pt = Ok (VInt v) /\ w' = at_pos c d pt (p + 2).
Proof.
unfold C3D.on_handle, Reader.readInt, Reader.readScalar, bind.
change (DataTypes.size DataTypes.INT) with 2.
rewrite readBytes_at by lia.
unfold get, lift_result, int_at. cbn [_processorType handle at_pos].
cbv beta iota. cbn [_processorType].
destruct (Reader._readBasedOnProcessorType (bytes_at d p 2) DataTypes.INT pt)
  as [x| |] eqn:E; try discriminate.
apply readBased_Ok_length in E as L.
change (Some 2 = Some (Z.of_nat (List.length (bytes_at d p 2)))) in L.
injection L as L.
rewrite <- L.
destruct x; cbn; try discriminate.
intros H. injection H as -> <-. split; reflexivity.
Qed.

Lemma readFloat_Ok v w' :
C3D.on_handle Reader.readFloat (at_pos c d pt p) = (Ok v, w') ->
float_at d p pt = Ok (VFloat v) /\ w' = at_pos c d pt (p + 4).
Proof.
unfold C3D.on_handle, Reader.readFloat, Reader.readScalar, bind.
change (DataTypes.size DataTypes.FLOAT) with 4.
rewrite readBytes_at by lia.
unfold get, lift_result, float_at. cbn [_processorType handle at_pos].
cbv beta iota. cbn [_processorType].
destruct (Reader._readBasedOnProcessorType (bytes_at d p 4) DataTypes.FLOAT pt)
  as [x| |] eqn:E; try discriminate.
apply readBased_Ok_length in E as L.
change (Some 4 = Some (Z.of_nat (List.length (bytes_at d p 4)))) in L.
injection L as L.
rewrite <- L.
destruct x; cbn; try discriminate.
intros H. injection H as -> <-. split; reflexivity.
Qed.

Lemma seek_Ok q u w' :
C3D.on_handle (Reader.seek q) (at_pos c d pt p) = (Ok u, w') ->
0 <= q /\ w' = at_pos c d pt q.
Proof.
unfold C3D.on_handle, Reader.seek, at_pos; cbn.
destruct (q <? 0) eqn:E; cbn; [discriminate|].
apply Z.ltb_ge in E. intros H. injection H as _ <-. now split.
Qed.

Lemma tell_Ok q w' :
C3D.on_handle Reader.tell (at_pos c d pt p) = (Ok q, w') ->
q = p /\ w' = at_pos c d pt p.
Proof.
unfold C3D.on_handle, Reader.tell, at_pos; cbn.
intros H. injection H as <- <-. now split.
Qed.

Lemma set_header_Ok f u w' :
C3D.set_header f (at_pos c d pt p) = (Ok u, w') ->
w' = at_pos (C3D.with_header c (f (_header c))) d pt p.
Proof.
unfold C3D.set_header, C3D.on_self, modify, at_pos; cbn.
intros H. now injection H as <-.
Qed.

Lemma get_Ok a w' :
get (at_pos c d pt p) = (Ok a, w') ->
a = at_pos c d pt p /\ w' = at_pos c d pt p.
Proof. unfold get. intros H. injection H as <- <-. now split. Qed.

End Steps.

Lemma readProcessorType_Ok c d pt p u w' :
  C3D._readProcessorType (at_pos c d pt p) = (Ok u, w') ->
  exists code,
    sbyte_at d p = Ok (VInt code)
    /\ w' = at_pos (C3D.with_header c
                      (C3D.set_processorType (C3D.processorOfCode code)
                         (_header c)))
                   d (C3D.processorOfCode code) (p + 1).
Proof.
  unfold C3D._readProcessorType. intros H.
  apply bind_Ok_inv in H as (code & w1 & H1 & H).
  apply readByte_Ok in H1 as [Hc ->].
  apply bind_Ok_inv in H as (? & w2 & H2 & H).
  apply set_header_Ok in H2 as ->.
  exists code. split; [exact Hc|].
  unfold C3D.on_handle, Reader.setProcessorType, modify, at_pos in H; cbn in H.
  now injection H as <-.
Qed.



(** Bring the document of a state back to a record of its fields. *)
Ltac norm_doc H :=
  cbn [C3D.with_header _header _filePath _parameters _markers
       C3D.set_parameterBlock C3D.set_markerCount
       C3D.set_analogMesasurements C3D.set_firstFrame C3D.set_lastFrame
       C3D.set_maxFrameGap C3D.set_scaleFactor C3D.set_dataStart
       C3D.set_sampleRate C3D.set_frameRate C3D.set_paramaterBlockCount
       C3D.set_processorType
       parameterBlock markerCount analogMesasurements firstFrame lastFrame
       maxFrameGap scaleFactor dataStart sampleRate frameRate
       paramaterBlockCount processorType] in H.

Ltac step_with H a Hs :=
  let w := fresh "w" in
  apply bind_Ok_inv in H as (a & w & Hs & H);
  first
    [ apply readByte_Ok in Hs as [Hs ->]
    | apply readUnsignedByte_Ok in Hs as [Hs ->]
    | apply readInt_Ok in Hs as [Hs ->]
    | apply readFloat_Ok in Hs as [Hs ->]
    | apply seek_Ok in Hs as [Hs ->]
    | apply tell_Ok in Hs as [-> ->]
    | apply get_Ok in Hs as [-> ->]
    | apply set_header_Ok in Hs as ->; norm_doc H
    | apply readProcessorType_Ok in Hs as (? & Hs & ->); norm_doc H ].

Tactic Notation "step" hyp(H) "as" ident(a) ident(Hs) := step_with H a Hs.
Tactic Notation "step" hyp(H) :=
  let a := fresh "u" in let Hs := fresh "Hu" in step_with H a Hs.

(** Close a goal about the field at an offset with the hypothesis about
    the same field at an offset written otherwise. *)
Ltac field_at :=
  match goal with
  | H : sbyte_at ?d ?q = _ |- sbyte_at ?d ?q' = _ =>
      replace q' with q by lia; exact H
  | H : ubyte_at ?d ?q = _ |- ubyte_at ?d ?q' = _ =>
      replace q' with q by lia; exact H
  | H : int_at ?d ?q ?pt = _ |- int_at ?d ?q' ?pt = _ =>
      replace q' with q by lia; exact H
  | H : float_at ?d ?q ?pt = _ |- float_at ?d ?q' ?pt = _ =>
      replace q' with q by lia; exact H
  end.

(* ================================================================= *)
(** ** What a decoding step leaves untouched *)

Section KeepsLaws.

Context {X : Type} (f : C3DFile -> X).

Lemma keeps_ret {A} (a : A) : keeps f (ret a).
Proof. intros w. reflexivity. Qed.

Lemma keeps_raise {A} e : keeps f (@raise Load A e).
Proof. intros w. reflexivity. Qed.

Lemma keeps_timeout {A} : keeps f (@C3D.timeout Load A).
Proof. intros w. reflexivity. Qed.

Lemma keeps_get : keeps f get.
Proof. intros w. reflexivity. Qed.

Lemma keeps_lift_result {A} (r : Result A) : keeps f (lift_result r).
Proof. intros w. reflexivity. Qed.

Lemma keeps_on_handle {A} (m : M BinaryFileReader A) :
  keeps f (C3D.on_handle m).
Proof.
  intros w. unfold C3D.on_handle. now destruct (m (handle w)).
Qed.

Lemma keeps_bind {A B} (m : M Load A) (k : A -> M Load B) :
  keeps f m -> (forall a, keeps f (k a)) -> keeps f (bind m k).
Proof.
  intros Hm Hk w. unfold bind.
  specialize (Hm w). destruct (m w) as [[a|e|] w1]; cbn in *.
  - now rewrite Hk.
  - exact Hm.
  - exact Hm.
Qed.

Lemma keeps_try_except {A} (body handler : M Load A) :
  keeps f body -> keeps f handler -> keeps f (try_except body handler).
Proof.
  intros Hb Hh w. unfold try_except.
  specialize (Hb w). destruct (body w) as [[a|e|] w1]; cbn in *.
  - exact Hb.
  - now rewrite Hh.
  - exact Hb.
Qed.

Lemma keeps_modify (g : C3DFile -> C3DFile) :
  (forall c, f (g c) = f c) -> keeps f (C3D.on_self (modify g)).
Proof. intros Hg w. cbn. apply Hg. Qed.

End KeepsLaws.

Ltac keeps_step :=
  first
    [ apply keeps_ret | apply keeps_raise | apply keeps_timeout
    | apply keeps_get | apply keeps_lift_result | apply keeps_on_handle
    | apply keeps_bind; [|intros ?]
    | apply keeps_try_except
    | match goal with
      | |- keeps _ (if ?b then _ else _) => destruct b
      | |- keeps _ (match ?x with _ => _ end) => destruct x
      end ].

Section KeepsHeaderFields.

Context {X : Type} (f : C3DFile -> X).
Hypothesis f_parameters : forall c ps, f (C3D.with_parameters c ps) = f c.
Hypothesis f_markers : forall c ms, f (C3D.with_markers c ms) = f c.
Hypothesis f_blockCount : forall c v,
    f (C3D.with_header c (C3D.set_paramaterBlockCount v (_header c))) = f c.
Hypothesis f_processor : forall c v,
    f (C3D.with_header c (C3D.set_processorType v (_header c))) = f c.

Lemma keeps_on_group gi g : keeps f (C3D.on_group gi g).
Proof.
  apply keeps_modify. intros c.
  destruct (nth_error (_parameters c) gi); [apply f_parameters|reflexivity].
Qed.

Lemma keeps_on_parameter {A} gi pi (m : M ParameterT A) :
  keeps f (C3D.on_parameter gi pi m).
Proof.
  intros w. unfold C3D.on_parameter.
  destruct (nth_error (_parameters (self w)) gi) as [g|]; [|reflexivity].
  destruct (nth_error (g_parameters g) pi) as [p|]; [|reflexivity].
  destruct (m p). cbn. apply f_parameters.
Qed.

Lemma keeps_readProcessorType : keeps f C3D._readProcessorType.
Proof.
  unfold C3D._readProcessorType. repeat keeps_step.
  apply keeps_modify. intros c. apply f_processor.
Qed.

Lemma keeps_readPropertyValue t : keeps f (C3D._readPropertyValue t).
Proof. unfold C3D._readPropertyValue. repeat keeps_step. Qed.

Lemma keeps_readStringArray size n value :
  keeps f (C3D.readStringArray size n value).
Proof.
  revert value. induction n as [|n IH]; intros value; cbn.
  - apply keeps_ret.
  - repeat keeps_step. apply IH.
Qed.

Lemma keeps_readScalarArray t n value :
  keeps f (C3D.readScalarArray t n value).
Proof.
  revert value. induction n as [|n IH]; intros value; cbn.
  - apply keeps_ret.
  - apply keeps_bind; [apply keeps_readPropertyValue|]. intros v. apply IH.
Qed.

Lemma keeps_readParamValue t dims : keeps f (C3D.readParamValue t dims).
Proof.
  unfold C3D.readParamValue.
  repeat first [ apply keeps_readStringArray | apply keeps_readScalarArray
               | apply keeps_readPropertyValue | keeps_step ].
Qed.

Lemma keeps_readParamBlock : keeps f C3D._readParamBlock.
Proof.
  unfold C3D._readParamBlock, C3D._newParam, C3D._readDescription.
  repeat first [ apply keeps_readParamValue | apply keeps_on_group
               | apply keeps_on_parameter
               | apply keeps_modify; intros ?; apply f_parameters
               | keeps_step ].
Qed.

Lemma keeps_readParamBlocks fuel : keeps f (C3D.readParamBlocks fuel).
Proof.
  induction fuel as [|n IH]; cbn.
  - apply keeps_timeout.
  - apply keeps_bind; [apply keeps_readParamBlock|].
    intros [|]; [apply IH|apply keeps_ret].
Qed.

Lemma keeps_readParameters fuel : keeps f (C3D._readParameters fuel).
Proof.
  unfold C3D._readParameters.
  repeat first [ apply keeps_readParamBlocks | apply keeps_readProcessorType
               | apply keeps_modify; intros ?; apply f_blockCount
               | keeps_step ].
Qed.

Lemma keeps_readSamples g : keeps f (C3D.readSamples g).
Proof. unfold C3D.readSamples. repeat keeps_step. Qed.

Lemma keeps_readMarkers : keeps f C3D._readMarkers.
Proof.
  unfold C3D._readMarkers, C3D.appendMarkers.
  repeat first [ apply keeps_readSamples
               | apply keeps_modify; intros ?; apply f_markers
               | keeps_step ].
Qed.

End KeepsHeaderFields.

(* ================================================================= *)
(** ** Header *)

(** What a successful header decode has read, and where it leaves the
    handle. *)
Lemma readHeader_Ok c d pt0 p0 w' :
  C3D._readHeader (at_pos c d pt0 p0) = (Ok tt, w') ->
  exists pb code mc am ff lf mg sf ds sr fr,
    let pt := C3D.processorOfCode code in
    sbyte_at d 0 = Ok (VInt pb)
    /\ 0 <= (pb - 1) * 512
    /\ sbyte_at d ((pb - 1) * 512 + 3) = Ok (VInt code)
    /\ sbyte_at d 1 = Ok (VInt C3D._c3dFileKeyValue_)
    /\ int_at d 2 pt = Ok (VInt mc)
    /\ int_at d 4 pt = Ok (VInt am)
    /\ int_at d 6 pt = Ok (VInt ff)
    /\ int_at d 8 pt = Ok (VInt lf)
    /\ int_at d 10 pt = Ok (VInt mg)
    /\ float_at d 12 pt = Ok (VFloat sf)
    /\ int_at d 16 pt = Ok (VInt ds)
    /\ int_at d 18 pt = Ok (VInt sr)
    /\ float_at d 20 pt = Ok (VFloat fr)
    /\ w' = at_pos
              (C3D.with_header c
                 (mkHeader pb mc am ff lf mg sf ds sr fr
                    (paramaterBlockCount (_header c)) pt))
              d pt 24.
Proof.
  unfold C3D._readHeader. intros H.
  step H. step H as pb Hpb. step H. step H. step H as uS Hseek.
  step H. step H. step H. step H as uC Hcode. step H.
  step H as key Hkey.
  destruct (negb (key =? C3D._c3dFileKeyValue_)) eqn:K; [discriminate|].
  apply negb_false_iff, Z.eqb_eq in K. subst key.
  step H as mc Hmc. step H. step H as am Ham. step H.
  step H as ff Hff. step H. step H as lf Hlf. step H.
  step H as mg Hmg. step H. step H as sf Hsf. step H.
  step H as ds Hds. step H. step H as sr Hsr. step H.
  step H as fr Hfr.
  apply set_header_Ok in H. norm_doc H. subst w'.
  match type of Hcode with _ = Ok (VInt ?code) =>
    exists pb, code, mc, am, ff, lf, mg, sf, ds, sr, fr
  end.
  cbn zeta.
  repeat match goal with
         | |- _ /\ _ => split
         end; try field_at; try assumption.
  match goal with
  | |- at_pos _ _ _ ?q = at_pos _ _ _ ?q' => replace q with q' by lia
  end.
  reflexivity.
Qed.

(* ================================================================= *)
(** ** Loading a file *)

Lemma loadFile_found fuel (fs : FileSystem) path content c :
  fs path = Some content ->
  C3D.loadFile fuel fs path c
  = (fst ((C3D._readHeader ;;; C3D._readParameters fuel ;;; C3D._readMarkers)
            (at_pos (start_doc path) content None 0)),
     self (snd ((C3D._readHeader ;;; C3D._readParameters fuel
                 ;;; C3D._readMarkers)
                  (at_pos (start_doc path) content None 0)))).
Proof.
  intros E. unfold C3D.loadFile, C3D.reset.
  unfold bind at 1. unfold modify at 1. rewrite E.
  unfold bind at 1. unfold modify at 1.
  change (snd (Reader.openFile content Reader.init))
    with (handle (at_pos (start_doc path) content None 0)).
  match goal with
  | |- (let (r, w) := _ ?s in _) = _ =>
      change s with (at_pos (start_doc path) content None 0)
  end.
  now destruct ((C3D._readHeader ;;; C3D._readParameters fuel
                 ;;; C3D._readMarkers)
                  (at_pos (start_doc path) content None 0)).
Qed.

Lemma loadFile_missing fuel (fs : FileSystem) path c :
  fs path = None ->
  C3D.loadFile fuel fs path c
  = (Raise FileNotFoundError,
     {| _filePath := _filePath c; _parameters := []; _markers := [];
        _header := HeaderOps.clear |}).
Proof.
  intros E. unfold C3D.loadFile, C3D.reset.
  unfold bind at 1. unfold modify at 1. now rewrite E.
Qed.

(** What a successful load has read from the header, and the header it
    leaves in the document. *)
Lemma loadFile_Ok_header fuel (fs : FileSystem) path content c c' :
  fs path = Some content ->
  C3D.loadFile fuel fs path c = (Ok tt, c') ->
  exists pb code mc am ff lf mg sf ds sr fr bc,
    let pt := C3D.processorOfCode code in
    sbyte_at content 0 = Ok (VInt pb)
    /\ sbyte_at content ((pb - 1) * 512 + 3) = Ok (VInt code)
    /\ int_at content 18 pt = Ok (VInt sr)
    /\ float_at content 20 pt = Ok (VFloat fr)
    /\ _header c' = mkHeader pb mc am ff lf mg sf ds sr fr bc pt.
Proof.
  intros Hfile Hload. rewrite (loadFile_found _ _ _ _ _ Hfile) in Hload.
  destruct ((C3D._readHeader ;;; C3D._readParameters fuel ;;; C3D._readMarkers)
              (at_pos (start_doc path) content None 0)) as [r w3] eqn:R.
  cbn [fst snd] in Hload. injection Hload as -> <-.
  apply bind_Ok_inv in R as ([] & w1 & H1 & R).
  apply readHeader_Ok in H1
    as (pb & code & mc & am & ff & lf & mg & sf & ds & sr & fr & H1).
  cbn zeta in H1.
  destruct H1 as (Hpb & Hseek & Hcode & _ & _ & _ & _ & _ & _ & _ & _
                  & Hsr & Hfr & ->).
  apply bind_Ok_inv in R as (u2 & w2 & H2 & R).
  unfold C3D._readParameters in H2.
  step H2. cbn [self at_pos _header C3D.with_header parameterBlock] in H2.
  step H2. step H2. step H2. step H2 as bc Hbc. step H2.
  step H2 as uC Hcode'.
  assert (Hsame : C3D.processorOfCode x = C3D.processorOfCode code).
  { replace ((pb - 1) * 512 + 1 + 1 + 1) with ((pb - 1) * 512 + 3)
      in Hcode' by lia.
    rewrite Hcode in Hcode'. now injection Hcode' as ->. }
  rewrite Hsame in H2.
  pose proof (keeps_readParamBlocks _header (fun _ _ => eq_refl) fuel) as K2.
  match type of H2 with
  | C3D.readParamBlocks _ ?w = _ => specialize (K2 w)
  end.
  rewrite H2 in K2. cbn [snd self at_pos _header] in K2.
  pose proof (keeps_readMarkers _header (fun _ _ => eq_refl) w2) as K3.
  rewrite R in K3. cbn [snd] in K3.
  exists pb, code, mc, am, ff, lf, mg, sf, ds, sr, fr, bc.
  cbn zeta. repeat split; try assumption.
  now rewrite K3, K2.
Qed.

(** C10.  After a successful load, [getSampleRate] is the [frameRate]
    field of the header: the 32-bit float at bytes 20 to 23 of the file
    (words 11 and 12), decoded for the processor type found in the
    parameter block.  The [sampleRate] field is the 16-bit integer at
    bytes 18 and 19 (word 10), and when the two fields differ so do
    [getSampleRate] and [sampleRate]. *)
Theorem C10_getSampleRate_is_frameRate fuel (fs : FileSystem) path content
    c c'
    (Hfile : fs path = Some content)
    (Hload : C3D.loadFile fuel fs path c = (Ok tt, c')) :
  exists pb code,
    sbyte_at content 0 = Ok (VInt pb)
    /\ sbyte_at content ((pb - 1) * 512 + 3) = Ok (VInt code)
    /\ processorType (_header c') = C3D.processorOfCode code
    /\ float_at content 20 (C3D.processorOfCode code)
       = Ok (VFloat (C3D.getSampleRate c'))
    /\ int_at content 18 (C3D.processorOfCode code)
       = Ok (VInt (sampleRate (_header c')))
    /\ C3D.getSampleRate c' = frameRate (_header c')
    /\ (py_float_ne_int (frameRate (_header c')) (sampleRate (_header c'))
        = true ->
        py_float_ne_int (C3D.getSampleRate c') (sampleRate (_header c'))
        = true).
Proof.
  destruct (loadFile_Ok_header _ _ _ _ _ _ Hfile Hload)
    as (pb & code & mc & am & ff & lf & mg & sf & ds & sr & fr & bc & H).
  cbn zeta in H. destruct H as (Hpb & Hcode & Hsr & Hfr & Hh).
  exists pb, code. unfold C3D.getSampleRate. rewrite Hh.
  cbn [processorType frameRate sampleRate].
  repeat split; try assumption. intros H; exact H.
Qed.

Lemma C10_getSampleRate_is_frameRate_witness :
  exists pb code,
    sbyte_at Fixtures.minimal_file 0 = Ok (VInt pb)
    /\ sbyte_at Fixtures.minimal_file ((pb - 1) * 512 + 3) = Ok (VInt code)
    /\ processorType (_header (Fixtures.loaded Fixtures.minimal_file))
       = C3D.processorOfCode code
    /\ float_at Fixtures.minimal_file 20 (C3D.processorOfCode code)
       = Ok (VFloat (C3D.getSampleRate
                       (Fixtures.loaded Fixtures.minimal_file)))
    /\ int_at Fixtures.minimal_file 18 (C3D.processorOfCode code)
       = Ok (VInt (sampleRate
                     (_header (Fixtures.loaded Fixtures.minimal_file))))
    /\ C3D.getSampleRate (Fixtures.loaded Fixtures.minimal_file)
       = frameRate (_header (Fixtures.loaded Fixtures.minimal_file))
    /\ (py_float_ne_int
          (frameRate (_header (Fixtures.loaded Fixtures.minimal_file)))
          (sampleRate (_header (Fixtures.loaded Fixtures.minimal_file)))
        = true ->
        py_float_ne_int
          (C3D.getSampleRate (Fixtures.loaded Fixtures.minimal_file))
          (sampleRate (_header (Fixtures.loaded Fixtures.minimal_file)))
        = true).
Proof.
  apply (C10_getSampleRate_is_frameRate 100
           (Fixtures.file_at Fixtures.minimal_file) "take.c3d"
           Fixtures.minimal_file C3D.init).
  - reflexivity.
  - vm_compute. reflexivity.
Defined.
(* ================================================================= *)
(** ** Processor-aware scalar decoding *)

Section ProcessorTypeDecoding.

Import Fixtures.

Lemma unpack_big_of_reversed (fmt : ascii) (data : list byte) :
  struct.unpack struct.Big fmt (rev data)
  = struct.unpack struct.Little fmt data.
Proof.
  unfold struct.unpack, struct.unsigned.
  now rewrite length_rev, rev_involutive.
Qed.

Lemma DEC_is_INTEL (data : list byte) (dataType : DataTypes._DataType) :
  Reader._readBasedOnProcessorType data dataType (Some ProcessorTypes.DEC)
  = Reader._readBasedOnProcessorType data dataType
      (Some ProcessorTypes.INTEL).
Proof.
  unfold Reader._readBasedOnProcessorType; cbn [String.eqb].
  cbv [ProcessorTypes.DEC ProcessorTypes.INTEL].
  change (String.eqb "DEC" "Intel") with false.
  change (String.eqb "DEC" "DEC") with true.
  change (String.eqb "Intel" "Intel") with true.
  cbv iota. apply unpack_big_of_reversed.
Qed.

(** C2.  The DEC branch reverses the field and then reads it big-endian,
    which undoes the reversal: for every field and every scalar type the
    DEC decoding is the Intel decoding.  On the bytes 01 02 03 04 read as
    a 32-bit integer, Intel and DEC both give 67305985 and MIPS gives
    17040130, while reversing and reading little-endian, as claimed for
    DEC, would give 16909060. *)
Theorem C2_DEC_decodes_like_INTEL :
  (forall data dataType,
      Reader._readBasedOnProcessorType data dataType
        (Some ProcessorTypes.DEC)
      = Reader._readBasedOnProcessorType data dataType
          (Some ProcessorTypes.INTEL))
  /\ Reader._readBasedOnProcessorType (bytes_of [1; 2; 3; 4])
       DataTypes.LONG (Some ProcessorTypes.INTEL) = Ok (VInt 67305985)
  /\ Reader._readBasedOnProcessorType (bytes_of [1; 2; 3; 4])
       DataTypes.LONG (Some ProcessorTypes.DEC) = Ok (VInt 67305985)
  /\ Reader._readBasedOnProcessorType (bytes_of [1; 2; 3; 4])
       DataTypes.LONG (Some ProcessorTypes.MIPS) = Ok (VInt 17040130)
  /\ DEC_reversed_then_native (bytes_of [1; 2; 3; 4]) DataTypes.LONG
     = Ok (VInt 16909060).
Proof.
  split; [exact DEC_is_INTEL|].
  repeat apply conj; vm_compute; reflexivity.
Qed.

End ProcessorTypeDecoding.

(* ================================================================= *)
(** ** Parameter block *)

Section ParameterWalker.

Import Fixtures.

Lemma seek_sets_position q u (w w' : Load) :
  C3D.on_handle (Reader.seek q) w = (Ok u, w') ->
  _handle (handle w') = Some q.
Proof.
  unfold C3D.on_handle, Reader.seek.
  destruct (_handle (handle w)); [|discriminate].
  destruct (q <? 0); [discriminate|].
  intros H. now injection H as _ <-.
Qed.

Lemma readStringFromByte_Ok c d pt p n s w' :
  0 <= n ->
  C3D.on_handle (Reader.readStringFromByte n) (at_pos c d pt p) = (Ok s, w') ->
  codec.utf8_decode (bytes_at d p n) = Some s
  /\ w' = at_pos c d pt (p + Z.of_nat (List.length (bytes_at d p n))).
Proof.
  intros Hn. unfold C3D.on_handle, Reader.readStringFromByte, bind.
  rewrite readBytes_at by lia.
  destruct (codec.utf8_decode (bytes_at d p n)) as [s'|]; cbn;
    [|discriminate].
  intros H. injection H as <- <-. now split.
Qed.

(** At the end of the file a read comes back short, and nothing is left
    for the next one. *)
Lemma bytes_at_short d p n m :
  0 <= p -> 0 <= n ->
  Z.of_nat (List.length (bytes_at d p n)) < n ->
  bytes_at d (p + Z.of_nat (List.length (bytes_at d p n))) m = [].
Proof.
  intros Hp Hn. unfold bytes_at.
  rewrite length_firstn, length_skipn. intros Hlt.
  assert (Hmin : (Nat.min (Z.to_nat n)
                    (List.length d - Z.to_nat p)
                  = List.length d - Z.to_nat p)%nat) by lia.
  rewrite Hmin.
  rewrite skipn_all2; [apply firstn_nil|]. lia.
Qed.

Lemma int_at_nonempty d p pt v :
  int_at d p pt = Ok v -> bytes_at d p 2 <> [].
Proof.
  unfold int_at. intros H E. rewrite E in H.
  apply readBased_Ok_length in H. discriminate H.
Qed.

(** The parameter branch of the walker ends on a seek: when a record of an
    existing group has been decoded, the handle is at the position of the
    offset field plus the offset read there. *)
Lemma readParamBlock_parameter_seeks c d pt p w' :
  0 <= p ->
  C3D._readParamBlock (at_pos c d pt p) = (Ok true, w') ->
  exists nameLength groupId bytesToNext,
    let recordStart := p + 2 + Z.abs nameLength in
    sbyte_at d p = Ok (VInt nameLength)
    /\ sbyte_at d (p + 1) = Ok (VInt groupId)
    /\ int_at d recordStart pt = Ok (VInt bytesToNext)
    /\ (C3D.getParameterByGroupId groupId c <> None ->
        _handle (handle w') = Some (recordStart + bytesToNext)).
Proof.
  intros Hp H. unfold C3D._readParamBlock in H.
  step H as nameLength Hlen.
  destruct (Z.abs nameLength =? 0) eqn:E0; [discriminate|].
  step H as groupId Hgid.
  apply bind_Ok_inv in H as (groupName & w1 & Hname & H).
  apply readStringFromByte_Ok in Hname as [_ ->]; [|lia].
  step H. step H as bytesToNext Hoff.
  assert (Hfull : Z.of_nat (List.length (bytes_at d (p + 1 + 1)
                                           (Z.abs nameLength)))
                  = Z.abs nameLength).
  { assert (Hle : Z.of_nat (List.length (bytes_at d (p + 1 + 1)
                                           (Z.abs nameLength)))
                  <= Z.abs nameLength).
    { unfold bytes_at. rewrite length_firstn. lia. }
    destruct (Z.eq_dec
                (Z.of_nat (List.length (bytes_at d (p + 1 + 1)
                                          (Z.abs nameLength))))
                (Z.abs nameLength)) as [Heq|Hne]; [exact Heq|].
    exfalso. apply (int_at_nonempty _ _ _ _ Hoff).
    apply bytes_at_short; lia. }
  rewrite Hfull in *.
  replace (p + 1 + 1 + Z.abs nameLength) with (p + 2 + Z.abs nameLength)
    in * by lia.
  exists nameLength, groupId, bytesToNext. cbn zeta.
  repeat split; try assumption.
  intros Hgroup.
  destruct (bytesToNext =? 0); [discriminate|].
  step H. cbn [self at_pos] in H.
  destruct (C3D.getParameterByGroupId groupId c) as [gi|];
    [|now elim Hgroup].
  repeat (apply bind_Ok_inv in H as (? & ? & ? & H)).
  injection H as <-.
  eapply seek_sets_position; eassumption.
Qed.

(** C3.  In the padded POINT group record the offset field sits at
    position 7 and holds 6, so the next record starts at 13; the group
    branch reads the description length and returns with the handle at 10,
    without a seek.  In the whole file the walker then reads the padding
    as the end of the chain: the load succeeds with a POINT group that has
    no parameters and no markers, where the file without padding gives the
    parameters LABELS and SCALE. *)
Theorem C3_group_record_is_not_left_by_its_offset :
  int_at (_data (handle at_padded_group)) 7 (Some ProcessorTypes.INTEL)
  = Ok (VInt 6)
  /\ fst (C3D._readParamBlock at_padded_group) = Ok true
  /\ _handle (handle (snd (C3D._readParamBlock at_padded_group))) = Some 10
  /\ fst (C3D.loadFile 100 (file_at padded_group_file) "take.c3d" C3D.init)
     = Ok tt
  /\ map g_parameters (_parameters (loaded padded_group_file)) = [[]]
  /\ _markers (loaded padded_group_file) = []
  /\ map (fun g => map p_name (g_parameters g))
       (_parameters (loaded minimal_file))
     = [[LABELS; SCALE]].
Proof. repeat apply conj; vm_compute; reflexivity. Qed.

Lemma readStringFromByte_no_timeout n (w : Load) :
  fst (C3D.on_handle (Reader.readStringFromByte n) w) <> Timeout.
Proof.
  unfold C3D.on_handle, Reader.readStringFromByte, bind, Reader.readBytes.
  destruct (_handle (handle w)); cbn; [|discriminate].
  destruct (n <? -1); cbn; [discriminate|].
  match goal with
  | |- context [codec.utf8_decode ?x] => destruct (codec.utf8_decode x)
  end; cbn; discriminate.
Qed.

(** Decoding the strings of an array never raises: every failure is
    caught where it happens. *)
Lemma readStringArray_returns stringSize arraySize value (w : Load) :
  exists l w', C3D.readStringArray stringSize arraySize value w = (Ok l, w').
Proof.
  revert value w. induction arraySize as [|n IH]; intros value w; cbn.
  - now exists value, w.
  - unfold bind at 1. unfold try_except. unfold bind at 1.
    pose proof (readStringFromByte_no_timeout stringSize w) as Hnt.
    destruct (C3D.on_handle (Reader.readStringFromByte stringSize) w)
      as [[s|e|] w1]; cbn.
    + apply IH.
    + apply IH.
    + now elim Hnt.
Qed.

(** C4.  With the first of the two labels undecodable, the file loads
    without an error and SCALE, the record after LABELS, is decoded as
    -1.0; but LABELS holds two elements, the sentinel and then the label B
    that followed the failure, and so the document has a marker named by
    the sentinel.  Only a failure on the last string of an array leaves
    the sentinel alone. *)
Theorem C4_sentinel_is_followed_by_later_strings :
  fst (C3D.loadFile 100 (file_at bad_label_file) "take.c3d" C3D.init) = Ok tt
  /\ C3D.getParameterValue POINT LABELS (loaded bad_label_file)
     = Ok (VList [VStr C3D.UNABLE_TO_READ_VALUE; B])
  /\ C3D.getParameterValue POINT SCALE (loaded bad_label_file)
     = Ok (VFloat (f (-1)))
  /\ map _markerName (_markers (loaded bad_label_file))
     = [VStr C3D.UNABLE_TO_READ_VALUE; B]
  /\ C3D.getParameterValue POINT LABELS (loaded bad_last_label_file)
     = Ok (VList [VStr C3D.UNABLE_TO_READ_VALUE]).
Proof. repeat apply conj; vm_compute; reflexivity. Qed.

End ParameterWalker.
(* ================================================================= *)
(** ** Outcome of a load *)

Section LoadOutcome.

Import Fixtures.

(** C1.  The minimal file loads, with a marker count of 2 and the markers
    A and B.  [readFrame 1] and [readFrame 2] return no position for
    either marker: the one frame that was decoded is stored under the key
    0, which [readFrame] refuses as it is below the first frame, and the
    second frame of the file was not read at all. *)
Theorem C1_readFrame_of_minimal_file :
  C3D.loadFile 100 (file_at minimal_file) "take.c3d" C3D.init
  = (Ok tt, loaded minimal_file)
  /\ C3D.getMarkerCount (loaded minimal_file) = 2
  /\ map _markerName (_markers (loaded minimal_file)) = [A; B]
  /\ fst (C3D.readFrame 1 (loaded minimal_file)) = Ok [None; None]
  /\ fst (C3D.readFrame 2 (loaded minimal_file)) = Ok [None; None]
  /\ is_raise (fst (C3D.readFrame 0 (loaded minimal_file))) = true
  /\ map m_data (_markers (loaded minimal_file))
     = [[(0, vec3 (f 1) (f 2) (f 3))]; [(0, vec3 (f 4) (f 5) (f 6))]].
Proof. repeat apply conj; vm_compute; reflexivity. Qed.

Lemma keeps_readHeader {X} (g : C3DFile -> X) :
  (forall c h, g (C3D.with_header c h) = g c) ->
  keeps g C3D._readHeader.
Proof.
  intros Hg. unfold C3D._readHeader, C3D._readProcessorType.
  repeat first [ apply keeps_modify; intros ?; apply Hg | keeps_step ].
Qed.




End LoadOutcome.
(* ================================================================= *)
(** ** Sample region *)

Section SampleRegion.

Lemma length_bytes_at d p n :
  0 <= p -> 0 <= n -> p + n <= Z.of_nat (List.length d) ->
  Z.of_nat (List.length (bytes_at d p n)) = n.
Proof.
  intros Hp Hn Hle. unfold bytes_at.
  rewrite length_firstn, length_skipn. lia.
Qed.

Lemma length_chunks size total data :
  List.length (struct.chunks size total data) = total.
Proof.
  revert data. induction total as [|n IH]; intros data; cbn;
    [reflexivity|now rewrite IH].
Qed.

Lemma seek_at c d pt p q :
  0 <= q ->
  C3D.on_handle (Reader.seek q) (at_pos c d pt p)
  = (Ok tt, at_pos c d pt q).
Proof.
  intros Hq. unfold C3D.on_handle, Reader.seek, at_pos; cbn.
  destruct (q <? 0) eqn:E; [apply Z.ltb_lt in E; lia|reflexivity].
Qed.

Lemma fields_exact size total data :
  0 <= total -> Z.of_nat (List.length data) = size * total ->
  struct.fields size total data
  = Ok (map struct.le_unsigned
          (struct.chunks (Z.to_nat size) (Z.to_nat total) data)).
Proof.
  intros Ht Hl. unfold struct.fields.
  destruct (total <? 0) eqn:E; [apply Z.ltb_lt in E; lia|].
  rewrite Hl, Z.eqb_refl. reflexivity.
Qed.

Lemma bulkReadFloat_at c d pt p n :
  0 <= p -> 0 <= n -> p + 4 * n <= Z.of_nat (List.length d) ->
  C3D.on_handle (Reader.bulkReadFloat n) (at_pos c d pt p)
  = (Ok (map struct.float_of_bits32
           (map struct.le_unsigned
              (struct.chunks 4 (Z.to_nat n) (bytes_at d p (4 * n))))),
     at_pos c d pt (p + 4 * n)).
Proof.
  intros Hp Hn Hle.
  unfold C3D.on_handle, Reader.bulkReadFloat, bind.
  change (DataTypes.size DataTypes.FLOAT) with 4.
  rewrite readBytes_at by lia.
  rewrite (length_bytes_at d p (4 * n)) by lia.
  unfold lift_result, struct.unpack_many_f.
  rewrite fields_exact by (try rewrite length_bytes_at; lia).
  reflexivity.
Qed.

Lemma bulkReadInt_at c d pt p n :
  0 <= p -> 0 <= n -> p + 2 * n <= Z.of_nat (List.length d) ->
  C3D.on_handle (Reader.bulkReadInt n) (at_pos c d pt p)
  = (Ok (map (struct.signed 16)
           (map struct.le_unsigned
              (struct.chunks 2 (Z.to_nat n) (bytes_at d p (2 * n))))),
     at_pos c d pt (p + 2 * n)).
Proof.
  intros Hp Hn Hle.
  unfold C3D.on_handle, Reader.bulkReadInt, bind.
  change (DataTypes.size DataTypes.INT) with 2.
  rewrite readBytes_at by lia.
  rewrite (length_bytes_at d p (2 * n)) by lia.
  unfold lift_result, struct.unpack_many_h.
  rewrite fields_exact by (try rewrite length_bytes_at; lia).
  reflexivity.
Qed.

(** Multiplying by a scale that compares with zero never fails. *)
Lemma mapM_mul_scale scale negative (vs : list Z) :
  py_lt_zero scale = Ok negative ->
  exists data,
    C3D.mapM_result (fun value => py_mul_int value scale) vs = Ok data
    /\ Forall2 (fun value x => py_mul_int value scale = Ok x) vs data.
Proof.
  intros Hs. induction vs as [|v vs (data & IH1 & IH2)]; cbn.
  - exists []. split; [reflexivity|constructor].
  - assert (exists x, py_mul_int v scale = Ok x) as [x Hx].
    { destruct scale; try discriminate; cbn; eexists; reflexivity. }
    rewrite Hx, IH1. exists (x :: data). split; [reflexivity|].
    now constructor.
Qed.

Lemma Forall2_map_l {A B C} (R : B -> C -> Prop) (g : A -> B) l l' :
  Forall2 R (map g l) l' -> Forall2 (fun a c => R (g a) c) l l'.
Proof.
  revert l'. induction l as [|a l IH]; intros l' H; inversion H; subst;
    constructor; auto.
Qed.

(** The sample region for any SCALE that compares with zero, an [int]
    or a [float]. *)
Lemma readSamples_numeric c d pointGroup scale negative
    (Hscale : GroupOps.getParameter (pystr_of_string "SCALE") pointGroup
              = Some scale)
    (Hneg : py_lt_zero (p_data scale) = Ok negative)
    (Hstart : 0 <= (dataStart (_header c) - 1) * 512)
    (Hcount : 0 <= ((lastFrame (_header c) - firstFrame (_header c))
                    * markerCount (_header c)) * 4)
    (Hfile : (dataStart (_header c) - 1) * 512
             + (if negative then 4 else 2)
               * (((lastFrame (_header c) - firstFrame (_header c))
                   * markerCount (_header c)) * 4)
             <= Z.of_nat (List.length d)) :
  let n := ((lastFrame (_header c) - firstFrame (_header c))
            * markerCount (_header c)) * 4 in
  let start := (dataStart (_header c) - 1) * 512 in
  let width := if negative then 4 else 2 in
  exists data,
    (forall pt p,
        C3D.readSamples pointGroup (at_pos c d pt p)
        = (Ok data, at_pos c d pt (start + width * n)))
    /\ Z.of_nat (List.length data) = n
    /\ (if negative
        then data
             = map (fun field =>
                      VFloat (struct.float_of_bits32
                                (struct.le_unsigned field)))
                   (struct.chunks 4 (Z.to_nat n) (bytes_at d start (4 * n)))
        else Forall2
               (fun field x =>
                  py_mul_int (struct.signed 16 (struct.le_unsigned field))
                             (p_data scale) = Ok x)
               (struct.chunks 2 (Z.to_nat n) (bytes_at d start (2 * n)))
               data).
Proof.
  intros n start width. fold n in Hcount, Hfile. fold start in Hstart, Hfile.
  destruct negative.
  - exists (map (fun field =>
                   VFloat (struct.float_of_bits32 (struct.le_unsigned field)))
                (struct.chunks 4 (Z.to_nat n) (bytes_at d start (4 * n)))).
    repeat split.
    + intros pt p. unfold C3D.readSamples.
      unfold bind at 1. unfold get at 1. cbv beta iota.
      cbn [self at_pos _header]. fold start. fold n.
      unfold bind at 1. rewrite seek_at by assumption.
      rewrite Hscale. unfold ParameterOps.data.
      unfold bind at 1. unfold lift_result at 1. rewrite Hneg.
      unfold C3D.getMarkerCount. cbn [_header]. fold n.
      unfold bind at 1. rewrite bulkReadFloat_at by lia.
      unfold ret. now rewrite !map_map.
    + now rewrite length_map, length_chunks, Z2Nat.id.
  - destruct (mapM_mul_scale (p_data scale) false
                (map (struct.signed 16)
                   (map struct.le_unsigned
                      (struct.chunks 2 (Z.to_nat n)
                         (bytes_at d start (2 * n))))) Hneg)
      as (data & Hdata & Hall).
    exists data. repeat split.
    + intros pt p. unfold C3D.readSamples.
      unfold bind at 1. unfold get at 1. cbv beta iota.
      cbn [self at_pos _header]. fold start. fold n.
      unfold bind at 1. rewrite seek_at by assumption.
      rewrite Hscale. unfold ParameterOps.data.
      unfold bind at 1. unfold lift_result at 1. rewrite Hneg.
      unfold C3D.getMarkerCount. cbn [_header]. fold n.
      unfold bind at 1. rewrite bulkReadInt_at by lia.
      unfold lift_result. now rewrite Hdata.
    + apply Forall2_length in Hall.
      rewrite <- Hall, !length_map, length_chunks, Z2Nat.id; lia.
    + rewrite map_map in Hall. now apply Forall2_map_l in Hall.
Qed.

(** C6.  With a SCALE that is a float and the sample region inside the
    file, the decoder reads [(lastFrame - firstFrame) * markerCount * 4]
    samples from the start of the data block, whatever processor type the
    reader is configured for: for a negative SCALE they are the
    little-endian 32-bit floats found there, otherwise the little-endian
    16-bit integers found there, each multiplied by SCALE into a float. *)
Theorem C6_sample_region c d pointGroup scale s
    (Hscale : GroupOps.getParameter (pystr_of_string "SCALE") pointGroup
              = Some scale)
    (Hfloat : p_data scale = VFloat s)
    (Hstart : 0 <= (dataStart (_header c) - 1) * 512)
    (Hcount : 0 <= ((lastFrame (_header c) - firstFrame (_header c))
                    * markerCount (_header c)) * 4)
    (Hfile : (dataStart (_header c) - 1) * 512
             + (if SFltb s float_zero then 4 else 2)
               * (((lastFrame (_header c) - firstFrame (_header c))
                   * markerCount (_header c)) * 4)
             <= Z.of_nat (List.length d)) :
  let n := ((lastFrame (_header c) - firstFrame (_header c))
            * markerCount (_header c)) * 4 in
  let start := (dataStart (_header c) - 1) * 512 in
  let width := if SFltb s float_zero then 4 else 2 in
  let data :=
    if SFltb s float_zero
    then map (fun field =>
                VFloat (struct.float_of_bits32 (struct.le_unsigned field)))
             (struct.chunks 4 (Z.to_nat n) (bytes_at d start (4 * n)))
    else map (fun field =>
                VFloat (SFmul f64_prec f64_emax
                          (float_of_int
                             (struct.signed 16 (struct.le_unsigned field)))
                          s))
             (struct.chunks 2 (Z.to_nat n) (bytes_at d start (2 * n))) in
  (forall pt p,
      C3D.readSamples pointGroup (at_pos c d pt p)
      = (Ok data, at_pos c d pt (start + width * n)))
  /\ Z.of_nat (List.length data) = n.
Proof.
  intros n start width data.
  assert (Hneg : py_lt_zero (p_data scale) = Ok (SFltb s float_zero))
    by now rewrite Hfloat.
  destruct (readSamples_numeric c d pointGroup scale (SFltb s float_zero)
              Hscale Hneg Hstart Hcount Hfile)
    as (data' & Hrun & Hlen & Hdata).
  cbn zeta in Hrun, Hlen, Hdata. fold n start in Hrun, Hlen, Hdata.
  assert (Heq : data' = data).
  { unfold data. destruct (SFltb s float_zero); [exact Hdata|].
    rewrite Hfloat in Hdata. clear -Hdata.
    revert Hdata.
    generalize (struct.chunks 2 (Z.to_nat n) (bytes_at d start (2 * n))).
    intros l H. induction H as [|field x l l' Hx _ IH]; cbn;
      [reflexivity|].
    cbn in Hx. injection Hx as <-. now rewrite IH. }
  subst data'. split; [exact Hrun|exact Hlen].
Qed.

Lemma C6_sample_region_witness :
  C3D.readSamples (Fixtures.point_of (Fixtures.loaded Fixtures.minimal_file))
    (at_pos (Fixtures.loaded Fixtures.minimal_file)
            Fixtures.minimal_file (Some ProcessorTypes.MIPS) 24)
  = (Ok (map VFloat
           [Fixtures.f 1; Fixtures.f 2; Fixtures.f 3; Fixtures.f 0;
            Fixtures.f 4; Fixtures.f 5; Fixtures.f 6; Fixtures.f 0]),
     at_pos (Fixtures.loaded Fixtures.minimal_file)
            Fixtures.minimal_file (Some ProcessorTypes.MIPS) 1056).
Proof.
  exact (proj1 (C6_sample_region (Fixtures.loaded Fixtures.minimal_file)
                  Fixtures.minimal_file
                  (Fixtures.point_of (Fixtures.loaded Fixtures.minimal_file))
                  (Fixtures.scale_of (Fixtures.loaded Fixtures.minimal_file))
                  (Fixtures.f (-1))
                  eq_refl eq_refl
                  ltac:(vm_compute; discriminate)
                  ltac:(vm_compute; discriminate)
                  ltac:(vm_compute; discriminate))
               (Some ProcessorTypes.MIPS) 24).
Defined.

(* ----------------------------------------------------------------- *)
(** *** Per-marker extraction *)

Lemma quickVec_returns (l : list PyVal) :
  (3 <= List.length l)%nat -> exists v, C3D._quickVec l = Ok v.
Proof.
  destruct l as [|a [|b [|x l]]]; cbn [List.length]; try lia. intros _.
  unfold C3D._quickVec, C3D.py_index; cbn [nth_error].
  destruct (py_eq_zero a); [|eexists; reflexivity].
  destruct (py_eq_zero b); [|eexists; reflexivity].
  destruct (py_eq_zero x); eexists; reflexivity.
Qed.

Lemma quickVec_zero (l : list PyVal) x y z :
  nth_error l 0 = Some x -> nth_error l 1 = Some y ->
  nth_error l 2 = Some z ->
  py_eq_zero x = true -> py_eq_zero y = true -> py_eq_zero z = true ->
  C3D._quickVec l = Ok None.
Proof.
  intros H0 H1 H2 Hx Hy Hz. unfold C3D._quickVec, C3D.py_index.
  now rewrite H0, Hx, H1, Hy, H2, Hz.
Qed.

Lemma length_py_slice data a :
  0 <= a -> a + 4 <= Z.of_nat (List.length data) ->
  List.length (C3D.py_slice data a (a + 4)) = 4%nat.
Proof.
  intros Ha Hle. unfold C3D.py_slice.
  rewrite length_firstn, length_skipn. lia.
Qed.

Lemma nth_error_py_slice data a (i : nat) :
  0 <= a -> (i < 4)%nat ->
  nth_error (C3D.py_slice data a (a + 4)) i
  = nth_error data (Z.to_nat (a + Z.of_nat i)).
Proof.
  intros Ha Hi. unfold C3D.py_slice.
  replace (Z.to_nat (a + 4 - a)) with 4%nat by lia.
  rewrite nth_error_firstn.
  destruct (i <? 4)%nat eqn:E; [|apply Nat.ltb_ge in E; lia].
  rewrite nth_error_skipn. f_equal. lia.
Qed.

(** The entries the dict comprehension runs over, from frame [a] on. *)
Lemma enumerate_starts step k :
  C3D.enumerate (map (fun j => Z.of_nat j * step) (seq 0 k))
  = map (fun j => (Z.of_nat j, Z.of_nat j * step)) (seq 0 k).
Proof.
  unfold C3D.enumerate. rewrite length_map, length_seq.
  generalize 0%nat. induction k as [|k IH]; intros a; cbn;
    [reflexivity|now rewrite IH].
Qed.

Lemma markerDataOf_frames data markerIdx step a k :
  (forall j, (a <= j < a + k)%nat ->
             exists v, C3D._quickVec
                         (C3D.py_slice data (Z.of_nat j * step + markerIdx * 4)
                            (Z.of_nat j * step + markerIdx * 4 + 4)) = Ok v) ->
  exists markerData,
    C3D.markerDataOf data markerIdx
      (map (fun j => (Z.of_nat j, Z.of_nat j * step)) (seq a k))
    = Ok markerData
    /\ forall j v,
        (a <= j < a + k)%nat ->
        C3D._quickVec (C3D.py_slice data (Z.of_nat j * step + markerIdx * 4)
                         (Z.of_nat j * step + markerIdx * 4 + 4)) = Ok v ->
        In (Z.of_nat j, v) markerData
        /\ MarkerOps.dict_get markerData (Z.of_nat j) = v.
Proof.
  revert a. induction k as [|k IH]; intros a Hall; cbn [seq map].
  - exists []. split; [reflexivity|]. intros j v Hj. lia.
  - destruct (Hall a ltac:(lia)) as [va Hva].
    destruct (IH (S a)) as (rest & Hrest & Hget).
    { intros j Hj. apply Hall. lia. }
    exists ((Z.of_nat a, va) :: rest). split.
    + cbn [C3D.markerDataOf]. now rewrite Hva, Hrest.
    + intros j v Hj Hv.
      destruct (Nat.eq_dec j a) as [->|Hne].
      * rewrite Hva in Hv. injection Hv as <-.
        split; [now left|]. cbn. now rewrite Z.eqb_refl.
      * destruct (Hget j v ltac:(lia) Hv) as [Hin Hd].
        split; [now right|]. cbn.
        destruct (Z.of_nat a =? Z.of_nat j) eqn:E;
          [apply Z.eqb_eq in E; lia|exact Hd].
Qed.

(** C7.  For a sample buffer of whole frames, [processMarkerData] gives
    every marker its series, and a sample of the marker whose x, y and z
    are all equal to zero is entered under its zero-based frame index as
    [None], not as a vector; [getPosition] at that index returns [None]. *)
Theorem C7_zero_sample_is_absent marker data markerIdx markerCount
    frames frame x y z
    (Hcount : 0 < markerCount)
    (Hidx : 0 <= markerIdx < markerCount)
    (Hlen : Z.of_nat (List.length data) = frames * (markerCount * 4))
    (Hframe : 0 <= frame < frames)
    (Hx : nth_error data
            (Z.to_nat (frame * (markerCount * 4) + markerIdx * 4)) = Some x)
    (Hy : nth_error data
            (Z.to_nat (frame * (markerCount * 4) + markerIdx * 4 + 1))
          = Some y)
    (Hz : nth_error data
            (Z.to_nat (frame * (markerCount * 4) + markerIdx * 4 + 2))
          = Some z)
    (Zx : py_eq_zero x = true)
    (Zy : py_eq_zero y = true)
    (Zz : py_eq_zero z = true) :
  exists marker',
    C3D.processMarkerData marker data markerIdx markerCount = Ok marker'
    /\ _markerName marker' = _markerName marker
    /\ In (frame, None) (m_data marker')
    /\ MarkerOps.getPosition frame marker' = None.
Proof.
  set (step := markerCount * 4) in *.
  assert (Hstep : 0 < step) by (unfold step; lia).
  assert (Hrange : C3D.py_range0 (Z.of_nat (List.length data)) step
                   = Ok (map (fun j => Z.of_nat j * step)
                           (seq 0 (Z.to_nat frames)))).
  { unfold C3D.py_range0.
    destruct (step =? 0) eqn:E0; [apply Z.eqb_eq in E0; lia|].
    destruct (step <? 0) eqn:E1; [apply Z.ltb_lt in E1; lia|].
    rewrite Hlen.
    replace (frames * step + step - 1) with (frames * step + (step - 1))
      by lia.
    rewrite Z.div_add_l by lia. rewrite Z.div_small by lia.
    now rewrite Z.add_0_r. }
  destruct (markerDataOf_frames data markerIdx step 0 (Z.to_nat frames))
    as (markerData & Hdata & Hget).
  { intros j Hj. apply quickVec_returns.
    rewrite length_py_slice; [lia|nia|]. rewrite Hlen.
    assert (Z.of_nat j + 1 <= frames) by lia.
    unfold step in *. nia. }
  exists (MarkerOps.with_data marker markerData).
  unfold C3D.processMarkerData. fold step.
  rewrite Hrange, enumerate_starts, Hdata.
  split; [reflexivity|]. split; [reflexivity|].
  cbn [m_data MarkerOps.with_data MarkerOps.getPosition].
  assert (Hvec : C3D._quickVec
                   (C3D.py_slice data
                      (Z.of_nat (Z.to_nat frame) * step + markerIdx * 4)
                      (Z.of_nat (Z.to_nat frame) * step + markerIdx * 4 + 4))
                 = Ok None).
  { rewrite Z2Nat.id by lia.
    apply (quickVec_zero _ x y z); try assumption;
      rewrite nth_error_py_slice by (try apply Nat.lt_succ_diag_r; lia).
    - now rewrite Z.add_0_r.
    - exact Hy.
    - exact Hz. }
  destruct (Hget (Z.to_nat frame) None ltac:(lia) Hvec) as [Hin Hd].
  rewrite Z2Nat.id in Hin, Hd by lia.
  unfold MarkerOps.getPosition. cbn [m_data]. now split.
Qed.

Lemma C7_zero_sample_is_absent_witness :
  exists marker',
    C3D.processMarkerData (MarkerOps.new Fixtures.A) Fixtures.gap_samples 0 1
    = Ok marker'
    /\ _markerName marker' = _markerName (MarkerOps.new Fixtures.A)
    /\ In (0, None) (m_data marker')
    /\ MarkerOps.getPosition 0 marker' = None.
Proof.
  apply (C7_zero_sample_is_absent (MarkerOps.new Fixtures.A)
           Fixtures.gap_samples 0 1 2 0
           (VFloat float_zero) (VFloat (S754_zero true)) (VFloat float_zero)).
  - lia.
  - lia.
  - reflexivity.
  - lia.
  - reflexivity.
  - reflexivity.
  - reflexivity.
  - reflexivity.
  - reflexivity.
  - reflexivity.
Defined.

End SampleRegion.
(* ================================================================= *)
(** ** Frame queries *)

Section FrameQueries.

(** C8.  [readFrame] raises [ValueError] when the frame number is below
    the first or above the last frame of the header, and otherwise
    returns the position of every marker, in the order of the marker
    list; both ways the document is left as it was.  With a first frame
    that is not after the last one, both boundary frames are read. *)
Theorem C8_readFrame_range (c : C3DFile) (frameNumber : Z) :
  let first := firstFrame (_header c) in
  let last := lastFrame (_header c) in
  (frameNumber < first \/ frameNumber > last ->
   C3D.readFrame frameNumber c
   = (Raise (ValueError "Invalid Frame Number"), c))
  /\ (first <= frameNumber <= last ->
      C3D.readFrame frameNumber c
      = (Ok (map (MarkerOps.getPosition frameNumber) (_markers c)), c))
  /\ (first <= last ->
      C3D.readFrame first c
      = (Ok (map (MarkerOps.getPosition first) (_markers c)), c)
      /\ C3D.readFrame last c
         = (Ok (map (MarkerOps.getPosition last) (_markers c)), c)).
Proof.
  intros first last. unfold C3D.readFrame. fold first last.
  repeat split.
  - intros H.
    destruct (frameNumber <? first) eqn:E1;
      destruct (frameNumber >? last) eqn:E2; try reflexivity.
    apply Z.ltb_ge in E1. rewrite Z.gtb_ltb in E2. apply Z.ltb_ge in E2. lia.
  - intros [H1 H2].
    destruct (frameNumber <? first) eqn:E1; [apply Z.ltb_lt in E1; lia|].
    destruct (frameNumber >? last) eqn:E2;
      [rewrite Z.gtb_ltb in E2; apply Z.ltb_lt in E2; lia|].
    reflexivity.
  - rewrite Z.ltb_irrefl.
    destruct (first >? last) eqn:E2;
      [rewrite Z.gtb_ltb in E2; apply Z.ltb_lt in E2; lia|].
    reflexivity.
  - destruct (last <? first) eqn:E1; [apply Z.ltb_lt in E1; lia|].
    rewrite Z.gtb_ltb, Z.ltb_irrefl. reflexivity.
Qed.

End FrameQueries.
(* ================================================================= *)
(** ** Typed parameter values *)

Section ParameterKinds.

Import ParameterDataTypes.

Lemma dataTypeCheck_true (v : PyVal) (k : Z) :
  dataTypeCheck v k = true ->
  getTypeFromData v = Ok k
  \/ (getTypeFromData v = Ok Byte /\ k = Interger).
Proof.
  unfold dataTypeCheck.
  destruct (getTypeFromData v) as [t| |]; try discriminate.
  destruct ((t =? Byte) && (k =? Interger)) eqn:E.
  - apply andb_true_iff in E as [E1 E2].
    apply Z.eqb_eq in E1, E2. subst. now right.
  - intros H. apply Z.eqb_eq in H. subst. now left.
Qed.

(** C9, as it was claimed: a value that [setData] stores is classified
    by [getTypeFromData] as the kind assigned to the parameter.  It fails
    on a parameter of kind Int16 given the value 5, which is classified
    Byte and stored all the same. *)
Lemma C9_stores_a_value_of_another_kind :
  ~ (forall (p p' : ParameterT) (k : Z) (v : PyVal),
        p_dataType p = Some k ->
        ParameterOps.setData v p = (Ok tt, p') ->
        getTypeFromData v = Ok k).
Proof.
  intros H.
  specialize (H (ParameterOps.with_dataType (ParameterOps.new [])
                   (Some Interger))
                (ParameterOps.with_data
                   (ParameterOps.with_dataType (ParameterOps.new [])
                      (Some Interger)) (VInt 5))
                Interger (VInt 5) eq_refl eq_refl).
  discriminate H.
Qed.

(** C9, amended.  On a parameter whose kind [k] is assigned, [setData]
    either stores the new value, which [getTypeFromData] then classifies
    as [k], or as Byte when [k] is Int16; or it raises [ValueError] and
    leaves the parameter as it was. *)
Theorem C9_setData_checks_kind (p : ParameterT) (k : Z) (v : PyVal)
    (Hk : p_dataType p = Some k) :
  (ParameterOps.setData v p = (Ok tt, ParameterOps.with_data p v)
   /\ dataTypeCheck v k = true
   /\ (getTypeFromData v = Ok k
       \/ (getTypeFromData v = Ok Byte /\ k = Interger)))
  \/ (dataTypeCheck v k = false
      /\ exists msg, ParameterOps.setData v p = (Raise (ValueError msg), p)).
Proof.
  unfold ParameterOps.setData. rewrite Hk.
  destruct (dataTypeCheck v k) eqn:E; cbn [negb].
  - left. repeat split. now apply dataTypeCheck_true.
  - right. split; [reflexivity|]. eexists. reflexivity.
Qed.

Lemma C9_setData_checks_kind_witness :
  ParameterOps.setData (VStr (pystr_of_string "mm"))
    (ParameterOps.with_dataType (ParameterOps.new []) (Some String))
  = (Ok tt,
     ParameterOps.with_data
       (ParameterOps.with_dataType (ParameterOps.new []) (Some String))
       (VStr (pystr_of_string "mm"))).
Proof.
  destruct (C9_setData_checks_kind
              (ParameterOps.with_dataType (ParameterOps.new []) (Some String))
              String (VStr (pystr_of_string "mm")) eq_refl)
    as [[H _] | [H _]].
  - exact H.
  - discriminate H.
Defined.

End ParameterKinds.


(* ================================================================= *)
(** ** More on the reader *)

Section ReaderFacts.

(** Every operation of a reader that has no file open raises [OSError]
    (the [IOError] of the source) and leaves the reader as it was. *)
Theorem reader_without_file_raises r (Hclosed : _handle r = None) :
  (forall q, Reader.seek q r = (Raise OSError, r))
  /\ Reader.tell r = (Raise OSError, r)
  /\ (forall n, Reader.readBytes n r = (Raise OSError, r))
  /\ (forall n, Reader.readStringFromByte n r = (Raise OSError, r))
  /\ Reader.readByte r = (Raise OSError, r)
  /\ Reader.readUnsignedByte r = (Raise OSError, r)
  /\ Reader.readInt r = (Raise OSError, r)
  /\ Reader.readLong r = (Raise OSError, r)
  /\ Reader.readFloat r = (Raise OSError, r)
  /\ (forall n, Reader.bulkReadFloat n r = (Raise OSError, r))
  /\ (forall n, Reader.bulkReadInt n r = (Raise OSError, r)).
Proof.
  assert (Hread : forall n, Reader.readBytes n r = (Raise OSError, r)).
  { intros n. unfold Reader.readBytes. now rewrite Hclosed. }
  repeat apply conj; intros;
    unfold Reader.seek, Reader.tell, Reader.readStringFromByte,
      Reader.readByte, Reader.readUnsignedByte, Reader.readInt,
      Reader.readLong, Reader.readFloat, Reader.readScalar,
      Reader.bulkReadFloat, Reader.bulkReadInt;
    try (unfold bind; rewrite Hread; reflexivity);
    try (now rewrite Hclosed); try apply Hread.
Qed.

Lemma reader_without_file_raises_witness :
  Reader.readInt Reader.init = (Raise OSError, Reader.init).
Proof.
  exact (proj1 (proj2 (proj2 (proj2 (proj2 (proj2 (proj2
           (reader_without_file_raises Reader.init eq_refl)))))))).
Defined.

Lemma byte_val_bounds b : 0 <= struct.byte_val b < 256.
Proof.
  unfold struct.byte_val. pose proof (Byte.to_N_bounded b). lia.
Qed.

Lemma le_unsigned_bounds data :
  0 <= struct.le_unsigned data < 256 ^ Z.of_nat (List.length data).
Proof.
  induction data as [|b data IH]; cbn [struct.le_unsigned List.length].
  - cbn. lia.
  - pose proof (byte_val_bounds b).
    rewrite Nat2Z.inj_succ, Z.pow_succ_r by lia. lia.
Qed.

Lemma unsigned_bounds order data :
  0 <= struct.unsigned order data < 256 ^ Z.of_nat (List.length data).
Proof.
  destruct order; cbn [struct.unsigned]; try apply le_unsigned_bounds.
  rewrite <- (length_rev data). apply le_unsigned_bounds.
Qed.

Lemma signed_bounds w u :
  0 < w -> 0 <= u < 2 ^ w ->
  - 2 ^ (w - 1) <= struct.signed w u < 2 ^ (w - 1).
Proof.
  intros Hw Hu. unfold struct.signed.
  assert (H2 : 2 ^ w = 2 * 2 ^ (w - 1)).
  { replace w with (Z.succ (w - 1)) at 1 by lia.
    rewrite Z.pow_succ_r by lia. reflexivity. }
  destruct (u <? 2 ^ (w - 1)) eqn:E.
  - apply Z.ltb_lt in E. lia.
  - apply Z.ltb_ge in E. lia.
Qed.

(** What [struct.unpack] returns for the integer formats. *)
Lemma unpack_int_bounds order fmt data v :
  struct.unpack order fmt data = Ok (VInt v) ->
  (fmt = "b"%char -> -128 <= v <= 127)
  /\ (fmt = "B"%char -> 0 <= v <= 255)
  /\ (fmt = "h"%char -> -32768 <= v <= 32767)
  /\ (fmt = "l"%char -> -2147483648 <= v <= 2147483647).
Proof.
  intros H. pose proof (unpack_Ok_length _ _ _ _ H) as L.
  pose proof (unsigned_bounds order data) as B.
  unfold struct.unpack in H.
  repeat apply conj; intros ->; cbn in L; injection L as L;
    rewrite <- L in B; cbn [struct.calcsize] in H;
    rewrite <- L, Z.eqb_refl in H; injection H as <-.
  - pose proof (signed_bounds 8 _ ltac:(lia) B). cbn in *. lia.
  - cbn in B. lia.
  - pose proof (signed_bounds 16 _ ltac:(lia) B). cbn in *. lia.
  - pose proof (signed_bounds 32 _ ltac:(lia) B). cbn in *. lia.
Qed.

Lemma readBased_int_bounds data dt pt v :
  Reader._readBasedOnProcessorType data dt pt = Ok (VInt v) ->
  (DataTypes.fmt dt = "h"%char -> -32768 <= v <= 32767)
  /\ (DataTypes.fmt dt = "l"%char -> -2147483648 <= v <= 2147483647).
Proof.
  unfold Reader._readBasedOnProcessorType.
  destruct pt as [p|].
  - destruct (String.eqb p ProcessorTypes.INTEL);
      [intros H; apply unpack_int_bounds in H; tauto|].
    destruct (String.eqb p ProcessorTypes.DEC);
      [intros H; apply unpack_int_bounds in H; tauto|].
    destruct (String.eqb p ProcessorTypes.MIPS); [|discriminate].
    intros H; apply unpack_int_bounds in H; tauto.
  - intros H; apply unpack_int_bounds in H; tauto.
Qed.

Lemma bind_Ok_reader {A B} (m : M BinaryFileReader A)
    (k : A -> M BinaryFileReader B) r b r' :
  bind m k r = (Ok b, r') ->
  exists a r1, m r = (Ok a, r1) /\ k a r1 = (Ok b, r').
Proof. apply bind_Ok_inv. Qed.

Lemma expect_int_Ok {S} (x : PyVal) (s s' : S) v :
  Reader.expect_int x s = (Ok v, s') -> x = VInt v.
Proof.
  destruct x; cbn; try discriminate. intros H. now injection H as ->.
Qed.

Lemma readByte_range r r' v :
  Reader.readByte r = (Ok v, r') -> -128 <= v <= 127.
Proof.
  intros H. unfold Reader.readByte in H.
  apply bind_Ok_inv in H as (data & r1 & _ & H).
  apply bind_Ok_inv in H as (x & r2 & Hx & H).
  apply expect_int_Ok in H as ->.
  unfold lift_result in Hx. injection Hx as Hx _.
  exact (proj1 (unpack_int_bounds _ _ _ _ Hx) eq_refl).
Qed.

Lemma readUnsignedByte_range r r' v :
  Reader.readUnsignedByte r = (Ok v, r') -> 0 <= v <= 255.
Proof.
  intros H. unfold Reader.readUnsignedByte in H.
  apply bind_Ok_inv in H as (data & r1 & _ & H).
  apply bind_Ok_inv in H as (x & r2 & Hx & H).
  apply expect_int_Ok in H as ->.
  unfold lift_result in Hx. injection Hx as Hx _.
  exact (proj1 (proj2 (unpack_int_bounds _ _ _ _ Hx)) eq_refl).
Qed.

(** The integers the reader returns fit their field, whatever the
    processor type: a signed byte, an unsigned byte, 16 bits and 32 bits. *)
Theorem reader_integers_fit_their_field r r' v :
  (Reader.readByte r = (Ok v, r') -> -128 <= v <= 127)
  /\ (Reader.readUnsignedByte r = (Ok v, r') -> 0 <= v <= 255)
  /\ (Reader.readInt r = (Ok v, r') -> -32768 <= v <= 32767)
  /\ (Reader.readLong r = (Ok v, r') ->
      -2147483648 <= v <= 2147483647).
Proof.
  repeat apply conj; intros H.
  - exact (readByte_range _ _ _ H).
  - exact (readUnsignedByte_range _ _ _ H).
  - unfold Reader.readInt, Reader.readScalar in H.
    apply bind_Ok_inv in H as (x & r1 & Hx & H).
    apply expect_int_Ok in H as ->.
    apply bind_Ok_inv in Hx as (data & r2 & _ & Hx).
    apply bind_Ok_inv in Hx as (r3 & r4 & _ & Hx).
    unfold lift_result in Hx. injection Hx as Hx _.
    exact (proj1 (readBased_int_bounds _ _ _ _ Hx) eq_refl).
  - unfold Reader.readLong, Reader.readScalar in H.
    apply bind_Ok_inv in H as (x & r1 & Hx & H).
    apply expect_int_Ok in H as ->.
    apply bind_Ok_inv in Hx as (data & r2 & _ & Hx).
    apply bind_Ok_inv in Hx as (r3 & r4 & _ & Hx).
    unfold lift_result in Hx. injection Hx as Hx _.
    exact (proj2 (readBased_int_bounds _ _ _ _ Hx) eq_refl).
Qed.

Lemma unpack_wrong_length order fmt size data :
  struct.calcsize fmt = Some size ->
  Z.of_nat (List.length data) <> size ->
  struct.unpack order fmt data = Raise StructError.
Proof.
  intros Hs Hl. unfold struct.unpack. rewrite Hs.
  apply Z.eqb_neq in Hl. now rewrite Hl.
Qed.

(** On a 16-bit field the MIPS rule, first byte moved to the end, is a
    byte swap: the field is read big-endian. *)
Theorem MIPS_int16_is_big_endian data :
  Reader._readBasedOnProcessorType data DataTypes.INT
    (Some ProcessorTypes.MIPS)
  = struct.unpack struct.Big "h" data.
Proof.
  unfold Reader._readBasedOnProcessorType.
  change (String.eqb ProcessorTypes.MIPS ProcessorTypes.INTEL) with false.
  change (String.eqb ProcessorTypes.MIPS ProcessorTypes.DEC) with false.
  change (String.eqb ProcessorTypes.MIPS ProcessorTypes.MIPS) with true.
  cbv iota. change (DataTypes.fmt DataTypes.INT) with "h"%char.
  destruct data as [|a [|b [|x data]]]; try reflexivity.
  rewrite (unpack_wrong_length struct.Big "h" 2) by
    (try reflexivity; cbn [List.length]; lia).
  apply (unpack_wrong_length struct.Little "h" 2); [reflexivity|].
  cbn [skipn firstn]. rewrite length_app. cbn [List.length]. lia.
Qed.

(** The processor types a file can select never make a read raise
    "Unsupported processor type": an unknown code reads as Intel.  Any
    other type set on the reader makes every read raise it. *)
Theorem unsupported_processor_type_only_when_set_by_hand :
  (forall code data dt,
      Reader._readBasedOnProcessorType data dt (C3D.processorOfCode code)
      <> Raise (ValueError "Unsupported processor type"))
  /\ (forall code data dt,
         code <> 84 -> code <> 85 -> code <> 86 ->
         Reader._readBasedOnProcessorType data dt (C3D.processorOfCode code)
         = Reader._readBasedOnProcessorType data dt
             (Some ProcessorTypes.INTEL))
  /\ (forall p data dt,
         p <> ProcessorTypes.INTEL -> p <> ProcessorTypes.DEC ->
         p <> ProcessorTypes.MIPS ->
         Reader._readBasedOnProcessorType data dt (Some p)
         = Raise (ValueError "Unsupported processor type")).
Proof.
  assert (Hunpack : forall order fmt data,
             struct.unpack order fmt data
             <> Raise (ValueError "Unsupported processor type")).
  { intros order fmt data. unfold struct.unpack.
    destruct (struct.calcsize fmt); [|discriminate].
    destruct (Z.of_nat (List.length data) =? z); [|discriminate].
    destruct fmt as [[|] [|] [|] [|] [|] [|] [|] [|]]; discriminate. }
  repeat apply conj.
  - intros code data dt. unfold C3D.processorOfCode.
    destruct (code =? 84); [apply Hunpack|].
    destruct (code =? 85); [apply Hunpack|].
    destruct (code =? 86); apply Hunpack.
  - intros code data dt H84 H85 H86. unfold C3D.processorOfCode.
    apply Z.eqb_neq in H84, H85, H86. now rewrite H84, H85, H86.
  - intros p data dt Hi Hd Hm. unfold Reader._readBasedOnProcessorType.
    apply String.eqb_neq in Hi, Hd, Hm. now rewrite Hi, Hd, Hm.
Qed.

End ReaderFacts.

(* ================================================================= *)
(** ** More on the header *)

Section HeaderFacts.

Lemma bind_Ok_fwd {S A B} (m : M S A) (k : A -> M S B) s a s1 :
  m s = (Ok a, s1) -> bind m k s = k a s1.
Proof. intros H. unfold bind. now rewrite H. Qed.

Lemma bind_get {S B} (k : S -> M S B) s : bind get k s = k s s.
Proof. reflexivity. Qed.


Lemma length_bytes_at_le d p n :
  0 <= n -> Z.of_nat (List.length (bytes_at d p n)) <= n.
Proof. intros Hn. unfold bytes_at. rewrite length_firstn. lia. Qed.

(** A field that was decoded lies inside the file. *)
Lemma bytes_at_full_inside d p n :
  0 <= p -> 0 < n ->
  Z.of_nat (List.length (bytes_at d p n)) = n ->
  p + n <= Z.of_nat (List.length d).
Proof.
  intros Hp Hn. unfold bytes_at. rewrite length_firstn, length_skipn. lia.
Qed.

Lemma sbyte_at_inside d p v :
  0 <= p -> sbyte_at d p = Ok v -> p + 1 <= Z.of_nat (List.length d).
Proof.
  intros Hp H. apply unpack_Ok_length in H.
  change (struct.calcsize "b") with (Some 1) in H. injection H as H.
  apply bytes_at_full_inside; lia.
Qed.

Lemma float_at_inside d p pt v :
  0 <= p -> float_at d p pt = Ok v -> p + 4 <= Z.of_nat (List.length d).
Proof.
  intros Hp H. apply readBased_Ok_length in H.
  change (struct.calcsize (DataTypes.fmt DataTypes.FLOAT)) with (Some 4) in H.
  injection H as H. apply bytes_at_full_inside; lia.
Qed.

Lemma sbyte_at_defined d p :
  0 <= p -> p + 1 <= Z.of_nat (List.length d) ->
  exists v, sbyte_at d p = Ok (VInt v).
Proof.
  intros Hp Hle. unfold sbyte_at, struct.unpack.
  change (struct.calcsize "b") with (Some 1).
  rewrite length_bytes_at by lia. rewrite Z.eqb_refl.
  eexists. reflexivity.
Qed.

Lemma readBased_defined data dt code :
  struct.calcsize (DataTypes.fmt dt) = Some (Z.of_nat (List.length data)) ->
  exists v,
    Reader._readBasedOnProcessorType data dt (C3D.processorOfCode code)
    = Ok v
    /\ (DataTypes.fmt dt = "h"%char -> exists z, v = VInt z)
    /\ (DataTypes.fmt dt = "f"%char -> exists x, v = VFloat x).
Proof.
  intros Hsize.
  assert (Hun : forall order data',
             List.length data' = List.length data ->
             exists v, struct.unpack order (DataTypes.fmt dt) data' = Ok v
                       /\ (DataTypes.fmt dt = "h"%char -> exists z, v = VInt z)
                       /\ (DataTypes.fmt dt = "f"%char
                           -> exists x, v = VFloat x)).
  { intros order data' Hl. unfold struct.unpack. rewrite Hsize, Hl.
    rewrite Z.eqb_refl.
    destruct (DataTypes.fmt dt) as [[|] [|] [|] [|] [|] [|] [|] [|]];
      eexists; (split; [reflexivity|]); split; intros Hf;
      try discriminate Hf; eexists; reflexivity. }
  unfold Reader._readBasedOnProcessorType, C3D.processorOfCode.
  destruct (code =? 84); [apply Hun; reflexivity|].
  destruct (code =? 85).
  { change (String.eqb ProcessorTypes.DEC ProcessorTypes.INTEL) with false.
    change (String.eqb ProcessorTypes.DEC ProcessorTypes.DEC) with true.
    cbv iota. apply Hun. apply length_rev. }
  destruct (code =? 86); [|apply Hun; reflexivity].
  change (String.eqb ProcessorTypes.MIPS ProcessorTypes.INTEL) with false.
  change (String.eqb ProcessorTypes.MIPS ProcessorTypes.DEC) with false.
  change (String.eqb ProcessorTypes.MIPS ProcessorTypes.MIPS) with true.
  cbv iota. apply Hun.
  rewrite length_app, Nat.add_comm, <- length_app. now rewrite firstn_skipn.
Qed.

Lemma int_at_defined d p code :
  0 <= p -> p + 2 <= Z.of_nat (List.length d) ->
  exists v, int_at d p (C3D.processorOfCode code) = Ok (VInt v).
Proof.
  intros Hp Hle. unfold int_at.
  destruct (readBased_defined (bytes_at d p 2) DataTypes.INT code)
    as (v & Hv & Hint & _).
  - change (struct.calcsize (DataTypes.fmt DataTypes.INT)) with (Some 2).
    now rewrite length_bytes_at by lia.
  - destruct (Hint eq_refl) as [z ->]. now exists z.
Qed.

Lemma float_at_defined d p code :
  0 <= p -> p + 4 <= Z.of_nat (List.length d) ->
  exists v, float_at d p (C3D.processorOfCode code) = Ok (VFloat v).
Proof.
  intros Hp Hle. unfold float_at.
  destruct (readBased_defined (bytes_at d p 4) DataTypes.FLOAT code)
    as (v & Hv & _ & Hfloat).
  - change (struct.calcsize (DataTypes.fmt DataTypes.FLOAT)) with (Some 4).
    now rewrite length_bytes_at by lia.
  - destruct (Hfloat eq_refl) as [x ->]. now exists x.
Qed.

Variables (c : C3DFile) (d : list byte) (pt : option string) (p : Z).

Lemma readByte_at v :
  sbyte_at d p = Ok (VInt v) ->
  C3D.on_handle Reader.readByte (at_pos c d pt p)
  = (Ok v, at_pos c d pt (p + 1)).
Proof.
  intros H. unfold C3D.on_handle, Reader.readByte, bind.
  rewrite readBytes_at by lia.
  apply unpack_Ok_length in H as L.
  change (Some 1 = Some (Z.of_nat (List.length (bytes_at d p 1)))) in L.
  injection L as L. rewrite <- L.
  unfold lift_result. unfold sbyte_at in H. now rewrite H.
Qed.

Lemma readInt_at v :
  int_at d p pt = Ok (VInt v) ->
  C3D.on_handle Reader.readInt (at_pos c d pt p)
  = (Ok v, at_pos c d pt (p + 2)).
Proof.
  intros H. unfold C3D.on_handle, Reader.readInt, Reader.readScalar, bind.
  change (DataTypes.size DataTypes.INT) with 2.
  rewrite readBytes_at by lia.
  apply readBased_Ok_length in H as L.
  change (Some 2 = Some (Z.of_nat (List.length (bytes_at d p 2)))) in L.
  injection L as L. rewrite <- L.
  unfold get, lift_result. cbn [_processorType handle at_pos].
  unfold int_at in H. now rewrite H.
Qed.

Lemma readFloat_at v :
  float_at d p pt = Ok (VFloat v) ->
  C3D.on_handle Reader.readFloat (at_pos c d pt p)
  = (Ok v, at_pos c d pt (p + 4)).
Proof.
  intros H. unfold C3D.on_handle, Reader.readFloat, Reader.readScalar, bind.
  change (DataTypes.size DataTypes.FLOAT) with 4.
  rewrite readBytes_at by lia.
  apply readBased_Ok_length in H as L.
  change (Some 4 = Some (Z.of_nat (List.length (bytes_at d p 4)))) in L.
  injection L as L. rewrite <- L.
  unfold get, lift_result. cbn [_processorType handle at_pos].
  unfold float_at in H. now rewrite H.
Qed.

Lemma tell_at :
  C3D.on_handle Reader.tell (at_pos c d pt p) = (Ok p, at_pos c d pt p).
Proof. reflexivity. Qed.

Lemma set_header_at f :
  C3D.set_header f (at_pos c d pt p)
  = (Ok tt, at_pos (C3D.with_header c (f (_header c))) d pt p).
Proof. reflexivity. Qed.

Lemma readProcessorType_at code :
  sbyte_at d p = Ok (VInt code) ->
  C3D._readProcessorType (at_pos c d pt p)
  = (Ok tt,
     at_pos (C3D.with_header c
               (C3D.set_processorType (C3D.processorOfCode code) (_header c)))
            d (C3D.processorOfCode code) (p + 1)).
Proof.
  intros H. unfold C3D._readProcessorType.
  rewrite (bind_Ok_fwd _ _ _ _ _ (readByte_at _ H)).
  reflexivity.
Qed.

End HeaderFacts.

(** Run the next step of a decoder forward, with the fact about the file
    that lets it succeed. *)
Ltac fwd_with H :=
  first
    [ rewrite (bind_Ok_fwd _ _ _ _ _ (readByte_at _ _ _ _ _ H))
    | rewrite (bind_Ok_fwd _ _ _ _ _ (readInt_at _ _ _ _ _ H))
    | rewrite (bind_Ok_fwd _ _ _ _ _ (readFloat_at _ _ _ _ _ H))
    | rewrite (bind_Ok_fwd _ _ _ _ _ (seek_at _ _ _ _ _ H))
    | rewrite (bind_Ok_fwd _ _ _ _ _ (readProcessorType_at _ _ _ _ _ H)) ].

Ltac fwd :=
  first
    [ rewrite (bind_Ok_fwd _ _ _ _ _ (tell_at _ _ _ _))
    | rewrite (bind_Ok_fwd _ _ _ _ _ (set_header_at _ _ _ _ _)) ].

(** The header a file gives, and the state in which its decoding ends. *)
Lemma readHeader_at c d pt0 p0 pb code mc am ff lf mg sf ds sr fr b0 b1 b2 :
  let pt := C3D.processorOfCode code in
  sbyte_at d 0 = Ok (VInt pb) ->
  0 <= (pb - 1) * 512 ->
  sbyte_at d ((pb - 1) * 512) = Ok (VInt b0) ->
  sbyte_at d ((pb - 1) * 512 + 1) = Ok (VInt b1) ->
  sbyte_at d ((pb - 1) * 512 + 2) = Ok (VInt b2) ->
  sbyte_at d ((pb - 1) * 512 + 3) = Ok (VInt code) ->
  sbyte_at d 1 = Ok (VInt C3D._c3dFileKeyValue_) ->
  int_at d 2 pt = Ok (VInt mc) ->
  int_at d 4 pt = Ok (VInt am) ->
  int_at d 6 pt = Ok (VInt ff) ->
  int_at d 8 pt = Ok (VInt lf) ->
  int_at d 10 pt = Ok (VInt mg) ->
  float_at d 12 pt = Ok (VFloat sf) ->
  int_at d 16 pt = Ok (VInt ds) ->
  int_at d 18 pt = Ok (VInt sr) ->
  float_at d 20 pt = Ok (VFloat fr) ->
  C3D._readHeader (at_pos c d pt0 p0)
  = (Ok tt,
     at_pos (C3D.with_header c
               (mkHeader pb mc am ff lf mg sf ds sr fr
                  (paramaterBlockCount (_header c)) pt))
            d pt 24).
Proof.
  intros pt Hpb Hseek H0 H1 H2 Hcode Hkey Hmc Ham Hff Hlf Hmg Hsf Hds Hsr Hfr.
  unfold C3D._readHeader.
  rewrite (bind_Ok_fwd _ _ _ _ _ (seek_at _ _ _ _ 0 ltac:(lia))).
  fwd_with Hpb. fwd. change (0 + 1) with 1. fwd. fwd_with Hseek.
  fwd_with H0. fwd_with H1.
  replace ((pb - 1) * 512 + 1 + 1) with ((pb - 1) * 512 + 2) by lia.
  fwd_with H2.
  replace ((pb - 1) * 512 + 2 + 1) with ((pb - 1) * 512 + 3) by lia.
  fwd_with Hcode.
  rewrite (bind_Ok_fwd _ _ _ _ _ (seek_at _ _ _ _ 1 ltac:(lia))).
  fwd_with Hkey. rewrite Z.eqb_refl. cbn [negb].
  change (1 + 1) with 2. fold pt.
  fwd_with Hmc. fwd. change (2 + 2) with 4.
  fwd_with Ham. fwd. change (4 + 2) with 6.
  fwd_with Hff. fwd. change (6 + 2) with 8.
  fwd_with Hlf. fwd. change (8 + 2) with 10.
  fwd_with Hmg. fwd. change (10 + 2) with 12.
  fwd_with Hsf. fwd. change (12 + 4) with 16.
  fwd_with Hds. fwd. change (16 + 2) with 18.
  fwd_with Hsr. fwd. change (18 + 2) with 20.
  fwd_with Hfr. rewrite set_header_at. reflexivity.
Qed.

Lemma readHeader_total c d pt0 p0 pb :
  sbyte_at d 0 = Ok (VInt pb) ->
  1 <= pb ->
  (pb - 1) * 512 + 4 <= Z.of_nat (List.length d) ->
  sbyte_at d 1 = Ok (VInt C3D._c3dFileKeyValue_) ->
  24 <= Z.of_nat (List.length d) ->
  exists h code,
    sbyte_at d ((pb - 1) * 512 + 3) = Ok (VInt code)
    /\ C3D._readHeader (at_pos c d pt0 p0)
       = (Ok tt, at_pos (C3D.with_header c h) d (C3D.processorOfCode code) 24)
    /\ parameterBlock h = pb
    /\ processorType h = C3D.processorOfCode code.
Proof.
  intros Hpb Hge Hblock Hkey Hlen.
  destruct (sbyte_at_defined d ((pb - 1) * 512)) as [b0 H0]; try lia.
  destruct (sbyte_at_defined d ((pb - 1) * 512 + 1)) as [b1 H1]; try lia.
  destruct (sbyte_at_defined d ((pb - 1) * 512 + 2)) as [b2 H2]; try lia.
  destruct (sbyte_at_defined d ((pb - 1) * 512 + 3)) as [code Hcode];
    try lia.
  destruct (int_at_defined d 2 code) as [mc Hmc]; try lia.
  destruct (int_at_defined d 4 code) as [am Ham]; try lia.
  destruct (int_at_defined d 6 code) as [ff Hff]; try lia.
  destruct (int_at_defined d 8 code) as [lf Hlf]; try lia.
  destruct (int_at_defined d 10 code) as [mg Hmg]; try lia.
  destruct (float_at_defined d 12 code) as [sf Hsf]; try lia.
  destruct (int_at_defined d 16 code) as [ds Hds]; try lia.
  destruct (int_at_defined d 18 code) as [sr Hsr]; try lia.
  destruct (float_at_defined d 20 code) as [fr Hfr]; try lia.
  eexists _, code. split; [exact Hcode|]. split.
  - eapply readHeader_at; try eassumption. lia.
  - split; reflexivity.
Qed.

(** A header is decoded exactly from the files that hold its 24 bytes,
    have the key 80 in their second byte, and point to a parameter block,
    numbered from 1, whose first four bytes are in the file. *)
Theorem readHeader_returns_iff c d pt0 p0 :
  fst (C3D._readHeader (at_pos c d pt0 p0)) = Ok tt
  <-> exists pb,
      sbyte_at d 0 = Ok (VInt pb)
      /\ 1 <= pb
      /\ (pb - 1) * 512 + 4 <= Z.of_nat (List.length d)
      /\ sbyte_at d 1 = Ok (VInt 80)
      /\ 24 <= Z.of_nat (List.length d).
Proof.
  split.
  - destruct (C3D._readHeader (at_pos c d pt0 p0)) as [r w'] eqn:R.
    cbn [fst]. intros ->.
    apply readHeader_Ok in R
      as (pb & code & mc & am & ff & lf & mg & sf & ds & sr & fr & R).
    cbn zeta in R.
    destruct R as (Hpb & Hseek & Hcode & Hkey & _ & _ & _ & _ & _ & _ & _
                   & _ & Hfr & _).
    exists pb. apply sbyte_at_inside in Hcode; [|lia].
    apply float_at_inside in Hfr; [|lia].
    repeat apply conj; try assumption; lia.
  - intros (pb & Hpb & Hge & Hblock & Hkey & Hlen).
    destruct (readHeader_total c d pt0 p0 pb Hpb Hge Hblock Hkey Hlen)
      as (h & code & _ & -> & _).
    reflexivity.
Qed.




(** A zero name length ends the chain: the walker stops, one byte further,
    with the document as it was. *)
Lemma readParamBlock_end c d pt p :
  sbyte_at d p = Ok (VInt 0) ->
  C3D._readParamBlock (at_pos c d pt p) = (Ok false, at_pos c d pt (p + 1)).
Proof.
  intros Hend. unfold C3D._readParamBlock.
  fwd_with Hend. reflexivity.
Qed.

(** A file with a decodable header whose parameter chain ends at once, on
    a zero name length, loads: the document has the header of the file, no
    parameter group and no marker, whatever marker count the header
    announces. *)
Theorem empty_parameter_chain_loads fuel (fs : FileSystem) path content c pb
    (Hfile : fs path = Some content)
    (Hpb : sbyte_at content 0 = Ok (VInt pb))
    (Hge : 1 <= pb)
    (Hkey : sbyte_at content 1 = Ok (VInt 80))
    (Hlen : 24 <= Z.of_nat (List.length content))
    (Hend : sbyte_at content ((pb - 1) * 512 + 4) = Ok (VInt 0)) :
  exists c',
    C3D.loadFile (S fuel) fs path c = (Ok tt, c')
    /\ _filePath c' = path
    /\ parameterBlock (_header c') = pb
    /\ _parameters c' = []
    /\ _markers c' = [].
Proof.
  assert (Hblock : (pb - 1) * 512 + 4 <= Z.of_nat (List.length content)).
  { apply sbyte_at_inside in Hend; lia. }
  destruct (readHeader_total (start_doc path) content None 0 pb
              Hpb Hge Hblock Hkey Hlen) as (h & code & Hcode & Hrun & Hh & _).
  destruct (sbyte_at_defined content ((pb - 1) * 512)) as [b0 H0]; try lia.
  destruct (sbyte_at_defined content ((pb - 1) * 512 + 1)) as [b1 H1];
    try lia.
  destruct (sbyte_at_defined content ((pb - 1) * 512 + 2)) as [b2 H2];
    try lia.
  assert (Hparams :
            C3D._readParameters (S fuel)
              (at_pos (C3D.with_header (start_doc path) h) content
                 (C3D.processorOfCode code) 24)
            = (Ok tt,
               at_pos (C3D.with_header
                         (C3D.with_header (C3D.with_header (start_doc path) h)
                            (C3D.set_paramaterBlockCount b2 h))
                         (C3D.set_processorType (C3D.processorOfCode code)
                            (C3D.set_paramaterBlockCount b2 h)))
                      content (C3D.processorOfCode code)
                      ((pb - 1) * 512 + 5))).
  { unfold C3D._readParameters. rewrite bind_get.
    cbn [self at_pos _header C3D.with_header]. rewrite Hh.
    rewrite (bind_Ok_fwd _ _ _ _ _ (seek_at _ _ _ _ ((pb - 1) * 512)
                                       ltac:(lia))).
    fwd_with H0. fwd_with H1.
    replace ((pb - 1) * 512 + 1 + 1) with ((pb - 1) * 512 + 2) by lia.
    fwd_with H2. fwd.
    replace ((pb - 1) * 512 + 2 + 1) with ((pb - 1) * 512 + 3) by lia.
    fwd_with Hcode.
    replace ((pb - 1) * 512 + 3 + 1) with ((pb - 1) * 512 + 4) by lia.
    cbn [C3D.readParamBlocks].
    rewrite (bind_Ok_fwd _ _ _ _ _ (readParamBlock_end _ _ _ _ Hend)).
    replace ((pb - 1) * 512 + 4 + 1) with ((pb - 1) * 512 + 5) by lia.
    reflexivity. }
  rewrite (loadFile_found _ _ _ _ _ Hfile).
  rewrite (bind_Ok_fwd _ _ _ _ _ Hrun).
  rewrite (bind_Ok_fwd _ _ _ _ _ Hparams).
  eexists. split; [reflexivity|].
  cbn. repeat split. rewrite <- Hh. now destruct h.
Qed.

Lemma empty_parameter_chain_loads_witness :
  exists c',
    C3D.loadFile 1 (Fixtures.file_at (Fixtures.header_block 80 2
                                        ++ repeat Byte.x00 512))
      "take.c3d" C3D.init = (Ok tt, c')
    /\ _filePath c' = "take.c3d"%string
    /\ parameterBlock (_header c') = 2
    /\ _parameters c' = []
    /\ _markers c' = [].
Proof.
  apply (empty_parameter_chain_loads 0
           (Fixtures.file_at (Fixtures.header_block 80 2
                              ++ repeat Byte.x00 512))
           "take.c3d" (Fixtures.header_block 80 2 ++ repeat Byte.x00 512)
           C3D.init 2).
  - reflexivity.
  - reflexivity.
  - lia.
  - reflexivity.
  - vm_compute. discriminate.
  - reflexivity.
Defined.

(* ================================================================= *)
(** ** More on typed parameters *)

Section ParameterInvariant.

Lemma wf_new name : wf_parameter (ParameterOps.new name).
Proof. now left. Qed.

Lemma wf_setDataType t p :
  wf_parameter p -> wf_parameter (snd (ParameterOps.setDataType t p)).
Proof.
  intros Hwf. unfold ParameterOps.setDataType.
  destruct (p_data p) eqn:Ed; cbn [ParameterOps.is_none negb andb];
    try (cbn [snd]; left; exact Ed);
    (destruct (ParameterDataTypes.dataTypeCheck _ t) eqn:Echeck;
     cbn [negb snd]; [right; exists t; cbn; rewrite Ed; now split
                     | rewrite <- Ed in *; exact Hwf]).
Qed.

Lemma wf_setData v p :
  wf_parameter p -> wf_parameter (snd (ParameterOps.setData v p)).
Proof.
  intros Hwf. unfold ParameterOps.setData.
  destruct (p_dataType p) as [k|] eqn:Ek; [|exact Hwf].
  destruct (ParameterDataTypes.dataTypeCheck v k) eqn:Echeck;
    cbn [negb snd]; [|exact Hwf].
  right. exists k. cbn. now split.
Qed.

Lemma wf_clear p : wf_parameter (ParameterOps.clear p).
Proof. now left. Qed.

(** Starting from a new parameter, no sequence of [setDataType], [setData]
    and [clear], failed calls included, leaves a parameter with data that
    its data type rejects; and [data()] after a successful [setData] is
    the value given. *)
Theorem parameter_stays_well_typed p (Hwf : wf_parameter p) :
  wf_parameter (ParameterOps.new (p_name p))
  /\ (forall t, wf_parameter (snd (ParameterOps.setDataType t p)))
  /\ (forall v, wf_parameter (snd (ParameterOps.setData v p)))
  /\ wf_parameter (ParameterOps.clear p)
  /\ (forall v p', ParameterOps.setData v p = (Ok tt, p') ->
                   ParameterOps.data p' = v
                   /\ p_dataType p' = p_dataType p
                   /\ p_name p' = p_name p).
Proof.
  repeat apply conj.
  - apply wf_new.
  - intros t. now apply wf_setDataType.
  - intros v. now apply wf_setData.
  - apply wf_clear.
  - intros v p'. unfold ParameterOps.setData.
    destruct (p_dataType p) as [k|] eqn:Ek; [|discriminate].
    destruct (ParameterDataTypes.dataTypeCheck v k); cbn [negb];
      [|discriminate].
    intros H. injection H as <-. cbn. auto.
Qed.

Lemma parameter_stays_well_typed_witness :
  wf_parameter
    (snd (ParameterOps.setData (VInt 300)
            (snd (ParameterOps.setDataType 2 (ParameterOps.new []))))).
Proof.
  exact (proj1 (proj2 (proj2 (parameter_stays_well_typed
                                (snd (ParameterOps.setDataType 2
                                        (ParameterOps.new [])))
                                (wf_setDataType 2 _ (wf_new []))))) (VInt 300)).
Defined.

End ParameterInvariant.

(* ================================================================= *)
(** ** What the walker does to the document *)

Section LeavesLaws.

Lemma leaves_conseq {A} (P P' Q Q' : C3DFile -> Prop) (m : M Load A) :
  leaves P' m Q' -> (forall c, P c -> P' c) -> (forall c, Q' c -> Q c) ->
  leaves P m Q.
Proof. intros H HP HQ w Hw. apply HQ, H, HP, Hw. Qed.

Lemma leaves_ret {A} (P : C3DFile -> Prop) (a : A) : leaves P (ret a) P.
Proof. intros w Hw. exact Hw. Qed.

Lemma leaves_raise {A} (P : C3DFile -> Prop) e :
  leaves P (@raise Load A e) P.
Proof. intros w Hw. exact Hw. Qed.

Lemma leaves_keeps {A} (P : C3DFile -> Prop) (m : M Load A) :
  keeps (fun c => c) m -> leaves P m P.
Proof. intros K w Hw. now rewrite K. Qed.

Lemma leaves_on_handle {A} (P : C3DFile -> Prop)
    (m : M BinaryFileReader A) :
  leaves P (C3D.on_handle m) P.
Proof. apply leaves_keeps, keeps_on_handle. Qed.

Lemma leaves_bind {A B} (P Q' Q : C3DFile -> Prop) (m : M Load A)
    (k : A -> M Load B) :
  leaves P m Q' -> (forall a, leaves Q' (k a) Q) ->
  (forall c, Q' c -> Q c) ->
  leaves P (bind m k) Q.
Proof.
  intros Hm Hk Himp w Hw. unfold bind.
  specialize (Hm w Hw). destruct (m w) as [[a|e|] w1]; cbn [snd] in *.
  - now apply Hk.
  - now apply Himp.
  - now apply Himp.
Qed.

Lemma leaves_get_bind {B} (P Q : C3DFile -> Prop)
    (k : Load -> M Load B) :
  (forall w0, leaves (fun c => P c /\ c = self w0) (k w0) Q) ->
  leaves P (bind get k) Q.
Proof. intros H w Hw. apply (H w w). now split. Qed.

Lemma leaves_modify (P Q : C3DFile -> Prop) (g : C3DFile -> C3DFile) :
  (forall c, P c -> Q (g c)) -> leaves P (C3D.on_self (modify g)) Q.
Proof. intros H w Hw. cbn. now apply H. Qed.

End LeavesLaws.

Section ListFacts.

Lemma index_of_group_Some groupId groups gi :
  C3D.index_of_group groupId groups = Some gi ->
  exists g, nth_error groups gi = Some g /\ g_groupId g = groupId.
Proof.
  revert gi. induction groups as [|g groups IH]; intros gi; cbn;
    [discriminate|].
  unfold GroupOps.groupId.
  destruct (g_groupId g =? groupId) eqn:E.
  - intros H. injection H as <-. exists g. apply Z.eqb_eq in E. now split.
  - destruct (C3D.index_of_group groupId groups) as [n|]; [|discriminate].
    cbn. intros H. injection H as <-. now apply IH.
Qed.

Lemma index_of_group_None groupId groups :
  C3D.index_of_group groupId groups = None ->
  ~ In groupId (map g_groupId groups).
Proof.
  induction groups as [|g groups IH]; cbn; [tauto|].
  unfold GroupOps.groupId.
  destruct (g_groupId g =? groupId) eqn:E; [discriminate|].
  apply Z.eqb_neq in E.
  destruct (C3D.index_of_group groupId groups); [discriminate|].
  intros _ [H|H]; [contradiction|now apply IH].
Qed.

Lemma nth_error_replace_nth {A} (l : list A) n x y :
  nth_error l n = Some y -> nth_error (C3D.replace_nth n x l) n = Some x.
Proof.
  revert n. induction l as [|a l IH]; intros [|n]; cbn; try discriminate;
    auto.
Qed.

Lemma replace_nth_twice {A} (l : list A) n x y :
  C3D.replace_nth n x (C3D.replace_nth n y l) = C3D.replace_nth n x l.
Proof.
  revert n. induction l as [|a l IH]; intros [|n]; cbn; try reflexivity.
  now rewrite IH.
Qed.

Lemma nth_error_app_last {A} (l : list A) x :
  nth_error (l ++ [x]) (List.length l) = Some x.
Proof. induction l; cbn; auto. Qed.

Lemma replace_nth_app_last {A} (l : list A) x y :
  C3D.replace_nth (List.length l) y (l ++ [x]) = l ++ [y].
Proof. induction l as [|a l IH]; cbn; [reflexivity|now rewrite IH]. Qed.

Lemma map_replace_nth {A B} (f : A -> B) (l : list A) n x y :
  nth_error l n = Some y -> f x = f y ->
  map f (C3D.replace_nth n x l) = map f l.
Proof.
  revert n. induction l as [|a l IH]; intros [|n]; cbn; try discriminate.
  - intros H Hf. injection H as ->. now rewrite Hf.
  - intros H Hf. now rewrite (IH n H Hf).
Qed.

Lemma Forall_replace_nth {A} (P : A -> Prop) (l : list A) n x :
  Forall P l -> P x -> Forall P (C3D.replace_nth n x l).
Proof.
  revert n. induction l as [|a l IH]; intros [|n] Hl Hx; cbn;
    try constructor; inversion Hl; subst; auto.
Qed.

End ListFacts.

Section WalkerStep.

Lemma decoding_on_parameter {A} c0 gi g (m : M ParameterT A) :
  nth_error (_parameters c0) gi = Some g ->
  (forall p, wf_parameter p -> wf_parameter (snd (m p))) ->
  leaves (decoding c0 gi g)
         (C3D.on_parameter gi (List.length (g_parameters g)) m)
         (decoding c0 gi g).
Proof.
  intros Hg Hm w (p & Hp & Hc). unfold C3D.on_parameter. rewrite Hc.
  cbn [_parameters C3D.with_parameters].
  rewrite (nth_error_replace_nth _ _ _ _ Hg).
  cbn [g_parameters GroupOps.with_parameters].
  rewrite nth_error_app_last.
  specialize (Hm p Hp). destruct (m p) as [r p']. cbn [snd self] in *.
  exists p'. split; [exact Hm|].
  rewrite replace_nth_app_last, replace_nth_twice. reflexivity.
Qed.

Lemma decoding_is_step c0 gi g c :
  nth_error (_parameters c0) gi = Some g ->
  decoding c0 gi g c -> walker_step c0 c.
Proof. intros Hg (p & Hp & ->). now apply step_parameter. Qed.

Lemma parameter_branch c0 gi g groupName currentFilePos bytesToNextGroup :
  nth_error (_parameters c0) gi = Some g ->
  leaves (eq c0)
    (C3D.on_group gi (GroupOps.addNewProperty groupName) ;;;
     dataType <- C3D.on_handle Reader.readByte ;;
     dataDimensions <- C3D.on_handle Reader.readByte ;;
     value <- C3D.readParamValue dataType dataDimensions ;;
     C3D.on_parameter gi (List.length (g_parameters g))
       (ParameterOps.setDataType dataType) ;;;
     C3D.on_parameter gi (List.length (g_parameters g))
       (ParameterOps.setData value) ;;;
     C3D.on_handle (Reader.seek (currentFilePos + bytesToNextGroup)) ;;;
     ret true)
    (walker_step c0).
Proof.
  intros Hg.
  assert (Himp : forall c, decoding c0 gi g c -> walker_step c0 c)
    by (intros c; now apply decoding_is_step).
  apply (leaves_bind (eq c0) (decoding c0 gi g) (walker_step c0));
    [| |exact Himp].
  { apply leaves_modify. intros c <-. rewrite Hg.
    exists (ParameterOps.new groupName). split; [apply wf_new|reflexivity]. }
  intros _.
  apply (leaves_conseq (decoding c0 gi g) (decoding c0 gi g)
           (walker_step c0) (decoding c0 gi g)); [|auto|exact Himp].
  apply (leaves_bind _ (decoding c0 gi g)); [apply leaves_on_handle| |auto].
  intros dataType.
  apply (leaves_bind _ (decoding c0 gi g)); [apply leaves_on_handle| |auto].
  intros dataDimensions.
  apply (leaves_bind _ (decoding c0 gi g));
    [apply leaves_keeps, keeps_readParamValue| |auto].
  intros value.
  apply (leaves_bind _ (decoding c0 gi g));
    [apply decoding_on_parameter;
     [exact Hg|intros p; apply wf_setDataType]| |auto].
  intros _.
  apply (leaves_bind _ (decoding c0 gi g));
    [apply decoding_on_parameter;
     [exact Hg|intros p; apply wf_setData]| |auto].
  intros _.
  apply (leaves_bind _ (decoding c0 gi g)); [apply leaves_on_handle| |auto].
  intros _. apply leaves_ret.
Qed.

Lemma group_branch c0 groupName groupId :
  C3D.index_of_group (Z.abs groupId) (_parameters c0) = None ->
  leaves (eq c0) (C3D._newParam groupName groupId ;;; ret true)
         (walker_step c0).
Proof.
  intros Hnew.
  assert (Hnone : forall c, c0 = c -> walker_step c0 c)
    by (intros c <-; apply step_none).
  apply (leaves_bind (eq c0) (walker_step c0) (walker_step c0));
    [|intros _; apply leaves_ret|auto].
  unfold C3D._newParam.
  apply (leaves_bind (eq c0) (eq c0) (walker_step c0)); [| |exact Hnone].
  - unfold C3D._readDescription.
    apply (leaves_bind (eq c0) (eq c0) (eq c0));
      [apply leaves_on_handle| |auto].
    intros n. destruct (n =? 0); [apply leaves_ret|apply leaves_on_handle].
  - intros description. apply leaves_modify. intros c <-.
    now apply step_group.
Qed.

Lemma readParamBlock_step c0 :
  leaves (eq c0) C3D._readParamBlock (walker_step c0).
Proof.
  assert (Hnone : forall c, c0 = c -> walker_step c0 c)
    by (intros c <-; apply step_none).
  assert (Hret : forall (b : bool), leaves (eq c0) (ret b) (walker_step c0)).
  { intros b w Hw. cbn. rewrite <- Hw. apply step_none. }
  unfold C3D._readParamBlock.
  apply (leaves_bind (eq c0) (eq c0) (walker_step c0));
    [apply leaves_on_handle| |exact Hnone]. intros b.
  destruct (Z.abs b =? 0); [apply Hret|].
  apply (leaves_bind (eq c0) (eq c0) (walker_step c0));
    [apply leaves_on_handle| |exact Hnone]. intros groupId.
  apply (leaves_bind (eq c0) (eq c0) (walker_step c0));
    [apply leaves_on_handle| |exact Hnone]. intros groupName.
  apply (leaves_bind (eq c0) (eq c0) (walker_step c0));
    [apply leaves_on_handle| |exact Hnone]. intros currentFilePos.
  apply (leaves_bind (eq c0) (eq c0) (walker_step c0));
    [apply leaves_on_handle| |exact Hnone]. intros bytesToNextGroup.
  destruct (bytesToNextGroup =? 0); [apply Hret|].
  apply leaves_get_bind. intros w0 w [Hc Hw0].
  assert (Hself : self w0 = c0) by congruence.
  rewrite Hself.
  destruct (C3D.getParameterByGroupId groupId c0) as [gi|] eqn:E.
  - unfold C3D.getParameterByGroupId in E.
    apply index_of_group_Some in E as (g & Hg & _). rewrite Hg.
    now apply parameter_branch.
  - now apply group_branch.
Qed.


Lemma nth_error_Forall {A} (P : A -> Prop) (l : list A) n x :
  Forall P l -> nth_error l n = Some x -> P x.
Proof.
  intros Hl Hn. apply nth_error_In in Hn.
  rewrite Forall_forall in Hl. now apply Hl.
Qed.

Lemma walker_step_wf c0 c :
  wf_groups (_parameters c0) -> walker_step c0 c ->
  wf_groups (_parameters c).
Proof.
  intros (Hnd & Hpos & Hwf) Hstep. destruct Hstep as [|name gid desc Hnew|gi g p Hg Hp].
  - now repeat split.
  - cbn [_parameters C3D.with_parameters]. repeat split.
    + rewrite map_app. cbn [map g_groupId GroupOps.setDescription GroupOps.new].
      apply index_of_group_None in Hnew.
      apply NoDup_app; [exact Hnd|repeat constructor; intros []| ].
      intros x Hx [<-|[]]. contradiction.
    + apply Forall_app. split; [exact Hpos|].
      repeat constructor. cbn. lia.
    + apply Forall_app. split; [exact Hwf|].
      repeat constructor.
  - cbn [_parameters C3D.with_parameters]. repeat split.
    + now rewrite (map_replace_nth g_groupId _ _ _ _ Hg).
    + apply Forall_replace_nth; [exact Hpos|].
      cbn. apply (nth_error_Forall _ _ _ _ Hpos Hg).
    + apply Forall_replace_nth; [exact Hwf|].
      cbn. apply Forall_app. split; [|constructor; [exact Hp|constructor]].
      apply (nth_error_Forall _ _ _ _ Hwf Hg).
Qed.

Lemma walker_step_rest c0 c :
  walker_step c0 c ->
  _header c = _header c0 /\ _markers c = _markers c0
  /\ _filePath c = _filePath c0.
Proof. intros []; repeat split. Qed.

Lemma readParamBlock_wf :
  leaves (fun c => wf_groups (_parameters c)) C3D._readParamBlock
         (fun c => wf_groups (_parameters c)).
Proof.
  intros w Hw.
  apply (walker_step_wf (self w)); [exact Hw|].
  now apply (readParamBlock_step (self w) w).
Qed.

Lemma readParamBlocks_wf fuel :
  leaves (fun c => wf_groups (_parameters c)) (C3D.readParamBlocks fuel)
         (fun c => wf_groups (_parameters c)).
Proof.
  induction fuel as [|n IH]; cbn [C3D.readParamBlocks].
  - intros w Hw. exact Hw.
  - apply (leaves_bind _ (fun c => wf_groups (_parameters c)));
      [apply readParamBlock_wf| |auto].
    intros [|]; [exact IH|apply leaves_ret].
Qed.

(** Whatever the file and however the load ends, the parameter groups of
    the document have non-negative, pairwise distinct ids, and every
    parameter in them is without data or holds data that its data type
    accepts. *)
Theorem loaded_groups_are_well_formed fuel (fs : FileSystem) path c :
  wf_groups (_parameters (snd (C3D.loadFile fuel fs path c))).
Proof.
  assert (Hnil : wf_groups []) by (repeat split; constructor).
  destruct (fs path) as [content|] eqn:Hfile.
  - rewrite (loadFile_found _ _ _ _ _ Hfile). cbn [snd].
    assert (Hinv : leaves (fun c => wf_groups (_parameters c))
                     (C3D._readHeader ;;; C3D._readParameters fuel
                      ;;; C3D._readMarkers)
                     (fun c => wf_groups (_parameters c))).
    { apply (leaves_bind _ (fun c => wf_groups (_parameters c))); [| |auto].
      - intros w Hw.
        now rewrite (keeps_readHeader _parameters (fun _ _ => eq_refl) w).
      - intros _.
        apply (leaves_bind _ (fun c => wf_groups (_parameters c)));
          [| |auto].
        + unfold C3D._readParameters.
          apply leaves_get_bind. intros w0.
          apply (leaves_conseq _ (fun c => wf_groups (_parameters c)) _
                   (fun c => wf_groups (_parameters c)));
            [|now intros c0 [H _]|auto].
          repeat (apply (leaves_bind _ (fun c => wf_groups (_parameters c)));
                  [first [apply leaves_on_handle
                         |apply leaves_modify; now intros c0 H
                         |intros w Hw;
                          now rewrite (keeps_readProcessorType _parameters
                                         (fun _ _ => eq_refl) w)]
                  |intros ?|auto]).
          apply readParamBlocks_wf.
        + intros _ w Hw.
          now rewrite (keeps_readMarkers _parameters (fun _ _ => eq_refl) w). }
    apply Hinv. exact Hnil.
  - rewrite (loadFile_missing _ _ _ _ Hfile). exact Hnil.
Qed.

(** Decoding the parameter block touches the parameter groups, the block
    count and the processor type of the header, and nothing else of the
    document: not its markers, its path or its other header fields. *)
Theorem readParameters_touches_only_groups fuel (w : Load) :
  let c := self w in
  let c' := self (snd (C3D._readParameters fuel w)) in
  _markers c' = _markers c
  /\ _filePath c' = _filePath c
  /\ parameterBlock (_header c') = parameterBlock (_header c)
  /\ markerCount (_header c') = markerCount (_header c)
  /\ analogMesasurements (_header c') = analogMesasurements (_header c)
  /\ firstFrame (_header c') = firstFrame (_header c)
  /\ lastFrame (_header c') = lastFrame (_header c)
  /\ maxFrameGap (_header c') = maxFrameGap (_header c)
  /\ scaleFactor (_header c') = scaleFactor (_header c)
  /\ dataStart (_header c') = dataStart (_header c)
  /\ sampleRate (_header c') = sampleRate (_header c)
  /\ frameRate (_header c') = frameRate (_header c).
Proof.
  intros c c'. subst c c'.
  repeat apply conj;
    match goal with
    | |- ?f (_header (self (snd _))) = _ =>
        apply (keeps_readParameters (fun c => f (_header c))
                 (fun _ _ => eq_refl) (fun _ _ => eq_refl)
                 (fun _ _ => eq_refl) fuel w)
    | |- ?f (self (snd _)) = _ =>
        apply (keeps_readParameters f
                 (fun _ _ => eq_refl) (fun _ _ => eq_refl)
                 (fun _ _ => eq_refl) fuel w)
    end.
Qed.

End WalkerStep.

(* ================================================================= *)
(** ** More on the samples *)

Section MarkerSeries.

Lemma quickVec_of_sample (l : list PyVal) :
  (3 <= List.length l)%nat ->
  C3D._quickVec l = Ok (if is_gap l then None else Some {| v_data := l |}).
Proof.
  destruct l as [|x [|y [|z l]]]; cbn [List.length]; try lia. intros _.
  unfold C3D._quickVec, C3D.py_index, is_gap; cbn [nth_error].
  destruct (py_eq_zero x); [|reflexivity].
  destruct (py_eq_zero y); [|reflexivity].
  destruct (py_eq_zero z); reflexivity.
Qed.

Lemma markerDataOf_keys data markerIdx entries markerData :
  C3D.markerDataOf data markerIdx entries = Ok markerData ->
  map fst markerData = map fst entries.
Proof.
  revert markerData.
  induction entries as [|[frame idx] entries IH]; intros markerData; cbn.
  - intros H. now injection H as <-.
  - destruct (C3D._quickVec _) as [v| |]; try discriminate.
    destruct (C3D.markerDataOf data markerIdx entries) as [rest| |];
      try discriminate.
    intros H. injection H as <-. cbn. now rewrite (IH rest eq_refl).
Qed.

Lemma dict_get_missing d key :
  ~ In key (map fst d) -> MarkerOps.dict_get d key = None.
Proof.
  induction d as [|[k v] d IH]; cbn; [reflexivity|].
  intros H. destruct (k =? key) eqn:E.
  - apply Z.eqb_eq in E. tauto.
  - apply IH. tauto.
Qed.

(** For a sample buffer of whole frames, [processMarkerData] gives the
    marker one entry per frame, keyed 0, 1, 2, ... in order.  The position
    at a frame index is the marker's four words of that frame, x, y, z and
    the residual word, as they stand in the buffer, or [None] when x, y and
    z are zero; at any other key it is [None]. *)
Theorem marker_series marker data markerIdx markerCount frames
    (Hcount : 0 < markerCount)
    (Hidx : 0 <= markerIdx < markerCount)
    (Hlen : Z.of_nat (List.length data) = frames * (markerCount * 4)) :
  exists marker',
    C3D.processMarkerData marker data markerIdx markerCount = Ok marker'
    /\ _markerName marker' = _markerName marker
    /\ map fst (m_data marker') = map Z.of_nat (seq 0 (Z.to_nat frames))
    /\ forall frame,
        MarkerOps.getPosition frame marker'
        = if (0 <=? frame) && (frame <? frames)
          then
            let sample :=
              C3D.py_slice data
                (frame * (markerCount * 4) + markerIdx * 4)
                (frame * (markerCount * 4) + markerIdx * 4 + 4) in
            if is_gap sample then None else Some {| v_data := sample |}
          else None.
Proof.
  set (step := markerCount * 4) in *.
  assert (Hstep : 0 < step) by (unfold step; lia).
  assert (Hframes : 0 <= frames) by nia.
  assert (Hrange : C3D.py_range0 (Z.of_nat (List.length data)) step
                   = Ok (map (fun j => Z.of_nat j * step)
                           (seq 0 (Z.to_nat frames)))).
  { unfold C3D.py_range0.
    destruct (step =? 0) eqn:E0; [apply Z.eqb_eq in E0; lia|].
    destruct (step <? 0) eqn:E1; [apply Z.ltb_lt in E1; lia|].
    rewrite Hlen.
    replace (frames * step + step - 1) with (frames * step + (step - 1))
      by lia.
    rewrite Z.div_add_l by lia. rewrite Z.div_small by lia.
    now rewrite Z.add_0_r. }
  assert (Hslice : forall j, (j < Z.to_nat frames)%nat ->
             List.length
               (C3D.py_slice data (Z.of_nat j * step + markerIdx * 4)
                  (Z.of_nat j * step + markerIdx * 4 + 4)) = 4%nat).
  { intros j Hj. apply length_py_slice; [nia|]. rewrite Hlen.
    assert (Z.of_nat j + 1 <= frames) by lia. unfold step in *. nia. }
  destruct (markerDataOf_frames data markerIdx step 0 (Z.to_nat frames))
    as (markerData & Hdata & Hget).
  { intros j Hj. apply quickVec_returns. rewrite Hslice; lia. }
  exists (MarkerOps.with_data marker markerData).
  unfold C3D.processMarkerData. fold step.
  rewrite Hrange, enumerate_starts, Hdata.
  split; [reflexivity|]. split; [reflexivity|].
  cbn [m_data MarkerOps.with_data]. split.
  - rewrite (markerDataOf_keys _ _ _ _ Hdata), map_map. reflexivity.
  - intros frame. unfold MarkerOps.getPosition. cbn [m_data].
    destruct ((0 <=? frame) && (frame <? frames)) eqn:E.
    + apply andb_true_iff in E as [E1 E2].
      apply Z.leb_le in E1. apply Z.ltb_lt in E2. cbn zeta.
      assert (Hj : (0 <= Z.to_nat frame < 0 + Z.to_nat frames)%nat) by lia.
      pose proof (quickVec_of_sample
                    (C3D.py_slice data
                       (Z.of_nat (Z.to_nat frame) * step + markerIdx * 4)
                       (Z.of_nat (Z.to_nat frame) * step + markerIdx * 4 + 4)))
        as Hv.
      rewrite Hslice in Hv by lia. specialize (Hv ltac:(lia)).
      destruct (Hget (Z.to_nat frame) _ Hj Hv) as [_ Hd].
      now rewrite Z2Nat.id in Hd by lia.
    + apply dict_get_missing. cbn [m_data MarkerOps.with_data].
      rewrite (markerDataOf_keys _ _ _ _ Hdata), map_map. cbn [fst].
      intros Hin. apply in_map_iff in Hin as (j & <- & Hj).
      apply in_seq in Hj.
      apply andb_false_iff in E as [E|E];
        [apply Z.leb_gt in E|apply Z.ltb_ge in E]; lia.
Qed.

Lemma marker_series_witness :
  exists marker',
    C3D.processMarkerData (MarkerOps.new Fixtures.A) Fixtures.gap_samples 0 1
    = Ok marker'
    /\ _markerName marker' = _markerName (MarkerOps.new Fixtures.A)
    /\ map fst (m_data marker') = map Z.of_nat (seq 0 (Z.to_nat 2))
    /\ forall frame,
        MarkerOps.getPosition frame marker'
        = if (0 <=? frame) && (frame <? 2)
          then
            let sample :=
              C3D.py_slice Fixtures.gap_samples
                (frame * (1 * 4) + 0 * 4) (frame * (1 * 4) + 0 * 4 + 4) in
            if is_gap sample then None else Some {| v_data := sample |}
          else None.
Proof.
  apply (marker_series (MarkerOps.new Fixtures.A) Fixtures.gap_samples
           0 1 2); [lia|lia|reflexivity].
Defined.

Lemma map_snd_enumerate {A} (l : list A) : map snd (C3D.enumerate l) = l.
Proof.
  unfold C3D.enumerate. generalize 0%nat.
  induction l as [|x l IH]; intros a; cbn; [reflexivity|].
  now rewrite IH.
Qed.

Lemma runThread_name data markerCount im :
  _markerName (C3D.runThread data markerCount im) = _markerName (snd im).
Proof.
  unfold C3D.runThread, C3D.processMarkerData.
  destruct (C3D.py_range0 _ _); try reflexivity.
  destruct (C3D.markerDataOf _ _ _); reflexivity.
Qed.

Lemma runThreads_names data markerCount markers :
  map _markerName (C3D.runThreads data markerCount markers)
  = map _markerName markers.
Proof.
  unfold C3D.runThreads. rewrite map_map.
  rewrite (map_ext _ (fun im => _markerName (snd im)))
    by (intros im; apply runThread_name).
  rewrite <- (map_map snd _markerName). now rewrite map_snd_enumerate.
Qed.

(** Decoding the samples gives every marker its series and nothing more:
    the markers keep their number, their order and their names, whichever
    threads fail. *)
Theorem runThreads_keeps_the_markers data markerCount markers :
  map _markerName (C3D.runThreads data markerCount markers)
  = map _markerName markers
  /\ List.length (C3D.runThreads data markerCount markers)
     = List.length markers.
Proof.
  split; [apply runThreads_names|].
  rewrite <- (length_map _markerName), runThreads_names.
  apply length_map.
Qed.

End MarkerSeries.

Section MarkersOfALoad.

Lemma lift_result_Ok {S A} (r : Result A) (s s' : S) a :
  lift_result r s = (Ok a, s') -> r = Ok a /\ s' = s.
Proof. unfold lift_result. intros H. injection H as -> <-. now split. Qed.

Lemma on_self_modify_Ok g (w w' : Load) u :
  C3D.on_self (modify g) w = (Ok u, w') ->
  w' = {| self := g (self w); handle := handle w |}.
Proof. cbn. intros H. now injection H as <-. Qed.

Lemma get_any_Ok {S} (s s' a : S) :
  get s = (Ok a, s') -> a = s /\ s' = s.
Proof. unfold get. intros H. injection H as <- <-. now split. Qed.

Lemma names_of_new names :
  map _markerName (map MarkerOps.new names) = names.
Proof. rewrite map_map. cbn. apply map_id. Qed.

(** What [_readMarkers] has done when it returns. *)
Lemma readMarkers_Ok (w w' : Load) :
  C3D._readMarkers w = (Ok tt, w') ->
  match C3D.getParameterGroup (pystr_of_string "POINT") (self w) with
  | None => w' = w
  | Some pointGroup =>
      match GroupOps.getParameter (pystr_of_string "LABELS") pointGroup with
      | None => w' = w
      | Some labels =>
          exists names names2,
            C3D.py_iter (p_data labels) = Ok names
            /\ match GroupOps.getParameter (pystr_of_string "LABELS2")
                       pointGroup with
               | None => names2 = []
               | Some labels2 => C3D.py_iter (p_data labels2) = Ok names2
               end
            /\ map _markerName (_markers (self w'))
               = map _markerName (_markers (self w)) ++ names ++ names2
            /\ Z.of_nat (List.length (_markers (self w')))
               = markerCount (_header (self w))
      end
  end.
Proof.
  unfold C3D._readMarkers. rewrite bind_get.
  destruct (C3D.getParameterGroup (pystr_of_string "POINT") (self w))
    as [pointGroup|]; [|intros H; now injection H as <-].
  destruct (GroupOps.getParameter (pystr_of_string "LABELS") pointGroup)
    as [labels|]; [|intros H; now injection H as <-].
  intros H.
  apply bind_Ok_inv in H as (names & w1 & Hnames & H).
  apply lift_result_Ok in Hnames as [Hnames ->].
  apply bind_Ok_inv in H as ([] & w2 & Happ & H).
  apply on_self_modify_Ok in Happ. cbn [self] in Happ.
  apply bind_Ok_inv in H as ([] & w3 & H2 & H).
  assert (Hsecond :
            exists names2,
              match GroupOps.getParameter (pystr_of_string "LABELS2")
                      pointGroup with
              | None => names2 = []
              | Some labels2 => C3D.py_iter (p_data labels2) = Ok names2
              end
              /\ _markers (self w3)
                 = _markers (self w) ++ map MarkerOps.new names
                   ++ map MarkerOps.new names2
              /\ _header (self w3) = _header (self w)).
  { destruct (GroupOps.getParameter (pystr_of_string "LABELS2") pointGroup)
      as [labels2|].
    - apply bind_Ok_inv in H2 as (names2 & w4 & Hn2 & H2).
      apply lift_result_Ok in Hn2 as [Hn2 ->].
      apply on_self_modify_Ok in H2. subst w3 w2. cbn.
      exists names2. rewrite <- app_assoc. now repeat split.
    - injection H2 as <-. subst w2. cbn. exists [].
      now rewrite app_nil_r. }
  destruct Hsecond as (names2 & Hn2 & Hms & Hh).
  rewrite bind_get in H.
  destruct (negb (Z.of_nat (List.length (_markers (self w3)))
                  =? C3D.getMarkerCount (self w3))) eqn:Ecount;
    [discriminate|].
  apply negb_false_iff, Z.eqb_eq in Ecount.
  apply bind_Ok_inv in H as (data & w5 & Hdata & H).
  pose proof (keeps_readSamples (fun c => c) pointGroup w3) as Ksamples.
  rewrite Hdata in Ksamples. cbn [snd] in Ksamples.
  apply on_self_modify_Ok in H. subst w'. cbn [self C3D.with_markers _markers].
  rewrite Ksamples.
  pose proof (runThreads_names data (C3D.getMarkerCount (self w3))
                (_markers (self w3))) as Hnames'.
  assert (Hlen' : List.length (C3D.runThreads data
                                 (C3D.getMarkerCount (self w3))
                                 (_markers (self w3)))
                  = List.length (_markers (self w3))).
  { rewrite <- (length_map _markerName), Hnames'. apply length_map. }
  exists names, names2. repeat split; try assumption.
  - rewrite Hnames', Hms, !map_app, !names_of_new. reflexivity.
  - rewrite Hlen', Ecount. unfold C3D.getMarkerCount. now rewrite Hh.
Qed.

(** After a successful load the markers of the document are named, in
    order, by the items of LABELS and then those of LABELS2 of the first
    group called POINT, and they are as many as the header's marker
    count; without a POINT group, or without LABELS in it, there is no
    marker. *)
Theorem markers_follow_labels fuel (fs : FileSystem) path content c c'
    (Hfile : fs path = Some content)
    (Hload : C3D.loadFile fuel fs path c = (Ok tt, c')) :
  match C3D.getParameterGroup (pystr_of_string "POINT") c' with
  | None => _markers c' = []
  | Some pointGroup =>
      match GroupOps.getParameter (pystr_of_string "LABELS") pointGroup with
      | None => _markers c' = []
      | Some labels =>
          exists names names2,
            C3D.py_iter (p_data labels) = Ok names
            /\ match GroupOps.getParameter (pystr_of_string "LABELS2")
                       pointGroup with
               | None => names2 = []
               | Some labels2 => C3D.py_iter (p_data labels2) = Ok names2
               end
            /\ C3D.getMarkersNames c' = names ++ names2
            /\ Z.of_nat (List.length (_markers c')) = C3D.getMarkerCount c'
      end
  end.
Proof.
  rewrite (loadFile_found _ _ _ _ _ Hfile) in Hload.
  destruct ((C3D._readHeader ;;; C3D._readParameters fuel ;;; C3D._readMarkers)
              (at_pos (start_doc path) content None 0)) as [r w3] eqn:R.
  cbn [fst snd] in Hload. injection Hload as -> <-.
  apply bind_Ok_inv in R as ([] & w1 & H1 & R).
  apply bind_Ok_inv in R as ([] & w2 & H2 & R).
  assert (Hnone : _markers (self w2) = []).
  { pose proof (keeps_readParameters _markers (fun _ _ => eq_refl)
                  (fun _ _ => eq_refl) (fun _ _ => eq_refl) fuel w1) as K2.
    rewrite H2 in K2. cbn [snd] in K2. rewrite K2.
    pose proof (keeps_readHeader _markers (fun _ _ => eq_refl)
                  (at_pos (start_doc path) content None 0)) as K1.
    rewrite H1 in K1. exact K1. }
  pose proof (keeps_readMarkers _parameters (fun _ _ => eq_refl) w2) as Kp.
  rewrite R in Kp. cbn [snd] in Kp.
  pose proof (keeps_readMarkers _header (fun _ _ => eq_refl) w2) as Kh.
  rewrite R in Kh. cbn [snd] in Kh.
  apply readMarkers_Ok in R.
  unfold C3D.getParameterGroup in *. rewrite Kp.
  destruct (find _ (_parameters (self w2))) as [pointGroup|];
    [|now subst w3].
  destruct (GroupOps.getParameter (pystr_of_string "LABELS") pointGroup)
    as [labels|]; [|now subst w3].
  destruct R as (names & names2 & Hn & Hn2 & Hnames & Hcount).
  exists names, names2. repeat split; try assumption.
  - change (C3D.getMarkersNames (self w3))
      with (map _markerName (_markers (self w3))).
    rewrite Hnames, Hnone. reflexivity.
  - unfold C3D.getMarkerCount. now rewrite Kh.
Qed.

Lemma markers_follow_labels_witness :
  exists names names2,
    C3D.py_iter (VList [Fixtures.A; Fixtures.B]) = Ok names
    /\ names2 = []
    /\ C3D.getMarkersNames (Fixtures.loaded Fixtures.minimal_file)
       = names ++ names2
    /\ Z.of_nat (List.length (_markers (Fixtures.loaded Fixtures.minimal_file)))
       = C3D.getMarkerCount (Fixtures.loaded Fixtures.minimal_file).
Proof.
  exact (markers_follow_labels 100 (Fixtures.file_at Fixtures.minimal_file)
           "take.c3d" Fixtures.minimal_file C3D.init
           (Fixtures.loaded Fixtures.minimal_file) eq_refl
           ltac:(vm_compute; reflexivity)).
Defined.

End MarkersOfALoad.

(* ================================================================= *)
(** ** Editing a document *)

Section MarkerPositions.

(** [setPosition] stores the position under the frame key and touches no
    other key and not the name: [getPosition] returns it at that key and
    what it returned before at every other. *)
Theorem setPosition_then_getPosition frameNumber position marker :
  MarkerOps.getPosition frameNumber
    (MarkerOps.setPosition frameNumber position marker) = Some position
  /\ (forall other,
         other <> frameNumber ->
         MarkerOps.getPosition other
           (MarkerOps.setPosition frameNumber position marker)
         = MarkerOps.getPosition other marker)
  /\ _markerName (MarkerOps.setPosition frameNumber position marker)
     = _markerName marker.
Proof.
  unfold MarkerOps.getPosition, MarkerOps.setPosition.
  cbn [m_data MarkerOps.with_data _markerName].
  repeat apply conj; [| |reflexivity].
  - induction (m_data marker) as [|[k v] d IH]; cbn.
    + now rewrite Z.eqb_refl.
    + destruct (k =? frameNumber) eqn:E; cbn; now rewrite E.
  - intros other Hother.
    induction (m_data marker) as [|[k v] d IH]; cbn.
    + destruct (frameNumber =? other) eqn:E;
        [apply Z.eqb_eq in E; congruence|reflexivity].
    + destruct (k =? frameNumber) eqn:E; cbn.
      * apply Z.eqb_eq in E. subst k.
        destruct (frameNumber =? other) eqn:E';
          [apply Z.eqb_eq in E'; congruence|reflexivity].
      * now rewrite IH.
Qed.

End MarkerPositions.

Section MarkerList.

Lemma pystr_eqb_eq a b : pystr_eqb a b = true <-> a = b.
Proof.
  unfold pystr_eqb. destruct (list_eq_dec N.eq_dec a b); split;
    intros; try assumption; try reflexivity; try discriminate; contradiction.
Qed.

Lemma pystr_eqb_refl a : pystr_eqb a a = true.
Proof. now apply pystr_eqb_eq. Qed.

Lemma find_app_first {A} (f : A -> bool) l x :
  find f (l ++ [x])
  = match find f l with
    | Some y => Some y
    | None => if f x then Some x else None
    end.
Proof.
  induction l as [|a l IH]; cbn; [reflexivity|].
  destruct (f a); [reflexivity|exact IH].
Qed.

Lemma find_none_before {A} (f : A -> bool) before x after :
  (forall y, In y before -> f y = false) -> f x = true ->
  find f (before ++ x :: after) = Some x
  /\ remove_first f (before ++ x :: after) = before ++ after.
Proof.
  intros Hb Hx. induction before as [|a before IH]; cbn.
  - now rewrite Hx.
  - rewrite (Hb a (or_introl eq_refl)).
    destruct IH as [IH1 IH2]; [intros y Hy; apply Hb; now right|].
    now rewrite IH1, IH2.
Qed.

(** [addMarker] appends a marker with the name and no data and leaves the
    header alone, so [getMarkerCount] does not see it.  Afterwards
    [getMarker] finds a marker of that name, the one found before if there
    was one: the first marker of a name shadows later ones; the markers of
    other names are found as before. *)
Theorem addMarker_then_getMarker markerName c :
  let c' := snd (C3D.addMarker markerName c) in
  fst (C3D.addMarker markerName c)
  = Ok (MarkerOps.new (VStr markerName))
  /\ C3D.getMarkersNames c' = C3D.getMarkersNames c ++ [VStr markerName]
  /\ C3D.getMarker markerName c'
     = match C3D.getMarker markerName c with
       | Some m => Some m
       | None => Some (MarkerOps.new (VStr markerName))
       end
  /\ (forall other,
         other <> markerName ->
         C3D.getMarker other c' = C3D.getMarker other c)
  /\ C3D.getMarkerCount c' = C3D.getMarkerCount c
  /\ _parameters c' = _parameters c.
Proof.
  cbn zeta. unfold C3D.addMarker, C3D.getMarker, C3D.getMarkersNames.
  cbn [fst snd _markers C3D.with_markers].
  repeat apply conj; try reflexivity.
  - now rewrite map_app.
  - rewrite find_app_first. unfold C3D.marker_named at 2.
    cbn [_markerName MarkerOps.new]. now rewrite pystr_eqb_refl.
  - intros other Hother. rewrite find_app_first.
    unfold C3D.marker_named at 2. cbn [_markerName MarkerOps.new].
    destruct (pystr_eqb markerName other) eqn:E;
      [apply pystr_eqb_eq in E; congruence|].
    now destruct (find _ _).
Qed.

(** [removeMarker] takes out the first marker of the name and no other;
    when there is none it does nothing, and it never raises. *)
Theorem removeMarker_removes_the_first markerName c :
  (C3D.getMarker markerName c = None ->
   C3D.removeMarker markerName c = (Ok tt, c))
  /\ (forall before m after,
         _markers c = before ++ m :: after ->
         (forall x, In x before -> C3D.marker_named markerName x = false) ->
         C3D.marker_named markerName m = true ->
         C3D.getMarker markerName c = Some m
         /\ C3D.removeMarker markerName c
            = (Ok tt, C3D.with_markers c (before ++ after))).
Proof.
  unfold C3D.removeMarker, C3D.getMarker. split.
  - intros H. now rewrite H.
  - intros before m after Hms Hb Hm. rewrite Hms.
    destruct (find_none_before _ before m after Hb Hm) as [Hf Hr].
    now rewrite Hf, Hr.
Qed.

End MarkerList.

Section GroupParameters.

(** In a group, [getParameter] returns the first parameter of the name:
    after [addNewProperty] a parameter of that name is found, the earlier
    one if the name was taken, and other names are found as before.
    [removePrameterByName] takes out the first parameter of the name and
    answers [True], or answers [False] and changes nothing when there is
    none. *)
Theorem group_parameters_by_name name g :
  GroupOps.getParameter name (GroupOps.addNewProperty name g)
  = match GroupOps.getParameter name g with
    | Some p => Some p
    | None => Some (ParameterOps.new name)
    end
  /\ (forall other,
         other <> name ->
         GroupOps.getParameter other (GroupOps.addNewProperty name g)
         = GroupOps.getParameter other g)
  /\ (GroupOps.getParameter name g = None ->
      GroupOps.removePrameterByName name g = (false, g))
  /\ (forall before p after,
         g_parameters g = before ++ p :: after ->
         (forall x, In x before -> pystr_eqb (p_name x) name = false) ->
         p_name p = name ->
         GroupOps.getParameter name g = Some p
         /\ GroupOps.removePrameterByName name g
            = (true, GroupOps.with_parameters g (before ++ after))).
Proof.
  unfold GroupOps.removePrameterByName, GroupOps.getParameter,
    GroupOps.addNewProperty, GroupOps.addParameter.
  cbn [g_parameters GroupOps.with_parameters].
  repeat apply conj.
  - rewrite find_app_first. cbn [p_name ParameterOps.new].
    now rewrite pystr_eqb_refl.
  - intros other Hother. rewrite find_app_first.
    cbn [p_name ParameterOps.new].
    destruct (pystr_eqb name other) eqn:E;
      [apply pystr_eqb_eq in E; congruence|].
    now destruct (find _ _).
  - intros H. now rewrite H.
  - intros before p after Hps Hb Hp. rewrite Hps.
    destruct (find_none_before
                (fun param => pystr_eqb (p_name param) name)
                before p after Hb) as [Hf Hr].
    { now apply pystr_eqb_eq. }
    now rewrite Hf, Hr.
Qed.

End GroupParameters.

(* ================================================================= *)
(** ** Iterating over frames *)

Section FrameIteration.

Lemma readFrame_in_range c frame :
  fst (C3D.readFrame frame c)
  = if frame_in_range c frame
    then Ok (map (MarkerOps.getPosition frame) (_markers c))
    else Raise (ValueError "Invalid Frame Number").
Proof.
  unfold C3D.readFrame, frame_in_range.
  destruct (frame <? firstFrame (_header c)) eqn:E1;
    destruct (frame >? lastFrame (_header c)) eqn:E2;
    destruct (firstFrame (_header c) <=? frame) eqn:E3;
    destruct (frame <=? lastFrame (_header c)) eqn:E4;
    cbn; try reflexivity; exfalso;
    rewrite ?Z.gtb_ltb in *;
    repeat match goal with
           | H : (_ <? _) = true |- _ => apply Z.ltb_lt in H
           | H : (_ <? _) = false |- _ => apply Z.ltb_ge in H
           | H : (_ <=? _) = true |- _ => apply Z.leb_le in H
           | H : (_ <=? _) = false |- _ => apply Z.leb_gt in H
           end; lia.
Qed.

Lemma yieldFrames_trace frames c :
  C3D.yieldFrames frames c
  = (map (fun frame => map (MarkerOps.getPosition frame) (_markers c))
         (take_while (frame_in_range c) frames),
     if forallb (frame_in_range c) frames then None
     else Some (ValueError "Invalid Frame Number")).
Proof.
  induction frames as [|frame frames IH]; cbn [C3D.yieldFrames];
    [reflexivity|].
  rewrite readFrame_in_range. cbn [take_while forallb].
  destruct (frame_in_range c frame); [|reflexivity].
  rewrite IH. reflexivity.
Qed.

(** Run to its end, [iterFrame] with a step other than zero yields the
    frames of its range, [start or firstFrame] up to [end or lastFrame + 1]
    by the step, as long as they lie between the first and the last frame
    of the header, each as [readFrame] gives it; it ends with
    [ValueError] at the first frame of the range outside, and without an
    exception when there is none.  With the step zero it raises at once. *)
Theorem iterFrame_trace start end_ iterJump c :
  (iterJump = 0 ->
   C3D.iterFrame start end_ iterJump c
   = ([], Some (ValueError "range() arg 3 must not be zero")))
  /\ (iterJump <> 0 ->
      exists frames,
        C3D.py_range (C3D.py_or start (firstFrame (_header c)))
                     (C3D.py_or end_ (lastFrame (_header c) + 1)) iterJump
        = Ok frames
        /\ C3D.iterFrame start end_ iterJump c
           = (map (fun frame =>
                     map (MarkerOps.getPosition frame) (_markers c))
                  (take_while (frame_in_range c) frames),
              if forallb (frame_in_range c) frames then None
              else Some (ValueError "Invalid Frame Number"))).
Proof.
  unfold C3D.iterFrame, C3D.py_range. split.
  - intros ->. reflexivity.
  - intros Hstep. apply Z.eqb_neq in Hstep. rewrite Hstep.
    eexists. split; [reflexivity|]. apply yieldFrames_trace.
Qed.

Lemma take_while_all {A} (f : A -> bool) l :
  forallb f l = true -> take_while f l = l.
Proof.
  induction l as [|x l IH]; cbn; [reflexivity|].
  destruct (f x); cbn; [|discriminate]. intros H. now rewrite IH.
Qed.

(** Called without arguments, [iterFrame] yields [readFrame] of every
    frame from the first to the last of the header, in order, and never
    raises; when the last frame is before the first it yields nothing. *)
Theorem iterFrame_default c :
  let first := firstFrame (_header c) in
  let last := lastFrame (_header c) in
  let frames :=
    map (fun k => first + Z.of_nat k) (seq 0 (Z.to_nat (last + 1 - first))) in
  C3D.iterFrame None None 1 c
  = (map (fun frame => map (MarkerOps.getPosition frame) (_markers c)) frames,
     None)
  /\ (forall frame, In frame frames <-> first <= frame <= last).
Proof.
  intros first last frames.
  assert (Hin : forall frame, In frame frames <-> first <= frame <= last).
  { intros frame. unfold frames. rewrite in_map_iff. split.
    - intros (k & <- & Hk). apply in_seq in Hk. lia.
    - intros H. exists (Z.to_nat (frame - first)). split; [lia|].
      apply in_seq. lia. }
  split; [|exact Hin].
  unfold C3D.iterFrame, C3D.py_range, C3D.py_or. fold first last.
  change (1 =? 0) with false. change (1 >? 0) with true. cbv iota.
  assert (Hframes :
            map (fun k => first + Z.of_nat k * 1)
              (seq 0 (Z.to_nat (if first <? last + 1
                                then (last + 1 - first + 1 - 1) / 1
                                else 0)))
            = frames).
  { unfold frames.
    destruct (first <? last + 1) eqn:E.
    - rewrite Z.div_1_r.
      replace (last + 1 - first + 1 - 1) with (last + 1 - first) by lia.
      apply map_ext. intros k. lia.
    - apply Z.ltb_ge in E.
      replace (Z.to_nat (last + 1 - first)) with 0%nat by lia.
      reflexivity. }
  rewrite Hframes, yieldFrames_trace.
  assert (Hall : forallb (frame_in_range c) frames = true).
  { apply forallb_forall. intros frame Hf. apply Hin in Hf.
    unfold frame_in_range. fold first last.
    apply andb_true_iff. split; apply Z.leb_le; lia. }
  now rewrite Hall, take_while_all.
Qed.

End FrameIteration.

(* ================================================================= *)
(** ** The parameter dictionary *)

Section ParameterDict.

Lemma pystr_eqb_neq a b : a <> b -> pystr_eqb a b = false.
Proof.
  intros H. destruct (pystr_eqb a b) eqn:E; [|reflexivity].
  apply pystr_eqb_eq in E. contradiction.
Qed.

Lemma pydict_get_set_same {V} (d : C3D.pydict V) key v :
  C3D.pydict_get (C3D.pydict_set d key v) key = Some v.
Proof.
  induction d as [|[k x] d IH]; cbn.
  - now rewrite pystr_eqb_refl.
  - destruct (pystr_eqb k key) eqn:E; cbn; now rewrite E.
Qed.

Lemma pydict_get_set_other {V} (d : C3D.pydict V) key v other :
  other <> key ->
  C3D.pydict_get (C3D.pydict_set d key v) other = C3D.pydict_get d other.
Proof.
  intros Hne. induction d as [|[k x] d IH]; cbn.
  - now rewrite (pystr_eqb_neq key other) by congruence.
  - destruct (pystr_eqb k key) eqn:E; cbn.
    + apply pystr_eqb_eq in E. subst k.
      now rewrite (pystr_eqb_neq key other) by congruence.
    + now rewrite IH.
Qed.

Lemma fold_left_over_map {A B C} (f : C -> B -> C) (g : A -> B) l d :
  fold_left f (map g l) d = fold_left (fun acc x => f acc (g x)) l d.
Proof.
  revert d. induction l as [|x l IH]; intros d; cbn; [reflexivity|apply IH].
Qed.

(** Filling a dict from items with distinct keys, each item is found
    under its key. *)
Lemma pydict_fill_get {A V} (key : A -> pystr) (val : A -> V) items :
  forall d x,
    NoDup (map key items) -> In x items ->
    C3D.pydict_get
      (fold_left (fun d y => C3D.pydict_set d (key y) (val y)) items d)
      (key x)
    = Some (val x).
Proof.
  induction items as [|y items IH]; intros d x Hnd Hin; [destruct Hin|].
  inversion Hnd as [|? ? Hnotin Hnd']; subst. cbn [fold_left].
  destruct Hin as [->|Hin]; [|now apply IH].
  clear IH Hnd Hnd'.
  assert (Hkeep : forall d',
             C3D.pydict_get
               (fold_left (fun d y => C3D.pydict_set d (key y) (val y))
                  items d') (key x)
             = C3D.pydict_get d' (key x)).
  { induction items as [|z items IH]; intros d'; [reflexivity|].
    cbn [fold_left]. rewrite IH.
    - apply pydict_get_set_other. intros E. apply Hnotin. left. congruence.
    - intros H. apply Hnotin. now right. }
  rewrite Hkeep. apply pydict_get_set_same.
Qed.

(** When the groups of the document have distinct names and the
    parameters of a group distinct names, [getParameterDict] agrees with
    [getParameterValue]: the value a group and a parameter name give is
    found in the nested dict under the same names. *)
Theorem getParameterDict_agrees_with_getParameterValue c group property v
    (Hgroups : NoDup (map g_name (_parameters c)))
    (Hparams : forall g, In g (_parameters c) ->
                         NoDup (map p_name (g_parameters g)))
    (Hvalue : C3D.getParameterValue group property c = Ok v) :
  exists d,
    C3D.pydict_get (C3D.getParameterDict c) group = Some d
    /\ C3D.pydict_get d property = Some v.
Proof.
  unfold C3D.getParameterValue, C3D.getParameter, C3D.getParameterGroup
    in Hvalue.
  destruct (find _ (_parameters c)) as [g|] eqn:Eg; [|discriminate].
  unfold GroupOps.getParameter in Hvalue.
  destruct (find _ (g_parameters g)) as [p|] eqn:Ep; [|discriminate].
  injection Hvalue as <-.
  apply find_some in Eg as [Hg Hgname]. apply pystr_eqb_eq in Hgname.
  apply find_some in Ep as [Hp Hpname]. apply pystr_eqb_eq in Hpname.
  subst group property.
  eexists. split.
  - unfold C3D.getParameterDict.
    apply (pydict_fill_get g_name
             (fun paramGrp =>
                C3D.pydict_of
                  (map (fun param => (p_name param, ParameterOps.data param))
                       (GroupOps.getParameters paramGrp))));
      assumption.
  - unfold C3D.pydict_of, GroupOps.getParameters.
    rewrite fold_left_over_map. cbn [fst snd].
    apply (pydict_fill_get p_name ParameterOps.data); [|exact Hp].
    now apply Hparams.
Qed.

Lemma getParameterDict_agrees_with_getParameterValue_witness :
  exists d,
    C3D.pydict_get (C3D.getParameterDict
                      (Fixtures.loaded Fixtures.minimal_file))
      Fixtures.POINT = Some d
    /\ C3D.pydict_get d Fixtures.LABELS
       = Some (VList [Fixtures.A; Fixtures.B]).
Proof.
  apply (getParameterDict_agrees_with_getParameterValue
           (Fixtures.loaded Fixtures.minimal_file)
           Fixtures.POINT Fixtures.LABELS).
  - vm_compute. repeat constructor. intros [].
  - vm_compute. intros g [<-|[]].
    repeat constructor; cbn; intros H;
      repeat (destruct H as [H|H]; try discriminate H); exact H.
  - vm_compute. reflexivity.
Defined.

(** With two parameters of one name in a group the two disagree:
    [getParameterValue] gives the first, the dict the last. *)
Lemma duplicate_parameter_names_disagree :
  let g := GroupOps.with_parameters (GroupOps.new Fixtures.POINT (-1))
             [ParameterOps.with_data (ParameterOps.new Fixtures.SCALE) (VInt 1);
              ParameterOps.with_data (ParameterOps.new Fixtures.SCALE) (VInt 2)]
  in
  let c := C3D.with_parameters C3D.init [g] in
  C3D.getParameterValue Fixtures.POINT Fixtures.SCALE c = Ok (VInt 1)
  /\ option_map (fun d => C3D.pydict_get d Fixtures.SCALE)
       (C3D.pydict_get (C3D.getParameterDict c) Fixtures.POINT)
     = Some (Some (VInt 2)).
Proof. split; vm_compute; reflexivity. Qed.

End ParameterDict.

(* ================================================================= *)
(** ** Values the walker decodes *)

Section DecodedValues.

Import ParameterDataTypes.

Lemma on_handle_Ok {A} (m : M BinaryFileReader A) (w w' : Load) a :
  C3D.on_handle m w = (Ok a, w') ->
  exists r', m (handle w) = (Ok a, r').
Proof.
  unfold C3D.on_handle. destruct (m (handle w)) as [r h].
  intros H. injection H as -> _. now exists h.
Qed.

Lemma readPropertyValue_scalar t (w w' : Load) v :
  C3D._readPropertyValue t w = (Ok v, w') -> scalar_of_type t v.
Proof.
  unfold C3D._readPropertyValue.
  destruct (t =? -1) eqn:E1.
  { apply Z.eqb_eq in E1. intros H.
    apply bind_Ok_inv in H as (n & w1 & _ & H).
    apply bind_Ok_inv in H as (s & w2 & _ & H).
    injection H as <- _. left. now split. }
  destruct (t =? 1) eqn:E2.
  { apply Z.eqb_eq in E2. intros H.
    apply bind_Ok_inv in H as (z & w1 & Hz & H). injection H as <- _.
    apply on_handle_Ok in Hz as (r' & Hz).
    right. left. split; [exact E2|]. exists z. split; [reflexivity|].
    exact (readByte_range _ _ _ Hz). }
  destruct (t =? 2) eqn:E3.
  { apply Z.eqb_eq in E3. intros H.
    apply bind_Ok_inv in H as (z & w1 & Hz & H). injection H as <- _.
    right. right. left. split; [exact E3|]. now exists z. }
  destruct (t =? 4) eqn:E4; [|discriminate].
  apply Z.eqb_eq in E4. intros H.
  apply bind_Ok_inv in H as (x & w1 & Hx & H). injection H as <- _.
  right. right. right. split; [exact E4|]. now exists x.
Qed.

Lemma scalar_check t v : scalar_of_type t v -> dataTypeCheck v t = true.
Proof.
  unfold dataTypeCheck, getTypeFromData, typeOfScalar.
  intros [[-> Hs]|[[-> (z & -> & Hz)]|[[-> (z & ->)]|[-> (x & ->)]]]].
  - destruct v; try discriminate. reflexivity.
  - destruct (z <? 255) eqn:E; [reflexivity|apply Z.ltb_ge in E; lia].
  - destruct (z <? 255); reflexivity.
  - reflexivity.
Qed.

Lemma scalar_list_check t v l :
  t <> -1 -> Forall (scalar_of_type t) (v :: l) ->
  dataTypeCheck (VList (v :: l)) t = true.
Proof.
  intros Ht Hall.
  assert (Hmix : existsb is_int (v :: l) && existsb is_float (v :: l)
                 = false).
  { destruct (existsb is_int (v :: l)) eqn:Ei; [|reflexivity].
    destruct (existsb is_float (v :: l)) eqn:Ef; [|reflexivity].
    apply existsb_exists in Ei as (a & Ha & Hia).
    apply existsb_exists in Ef as (b & Hb & Hfb).
    rewrite Forall_forall in Hall.
    pose proof (Hall a Ha) as Sa. pose proof (Hall b Hb) as Sb.
    destruct Sa as [[-> _]|[[-> (z & -> & _)]|[[-> (z & ->)]|[-> (x & ->)]]]];
      try contradiction; try discriminate;
      destruct Sb as [[? _]|[[? (z' & -> & _)]|[[? (z' & ->)]|[? (x' & ->)]]]];
      try discriminate; try lia. }
  inversion Hall as [|? ? Hv _]; subst.
  pose proof (scalar_check t v Hv) as Hc.
  assert (Hflat : getTypeFromData (VList (v :: l)) = getTypeFromData v).
  { unfold getTypeFromData at 1. rewrite Hmix.
    destruct Hv as [[? _]|[[_ (z & -> & _)]|[[_ (z & ->)]|[_ (x & ->)]]]];
      [contradiction|reflexivity..]. }
  unfold dataTypeCheck in *. now rewrite Hflat.
Qed.

Lemma readScalarArray_scalars t n : forall value (w w' : Load) l,
  C3D.readScalarArray t n value w = (Ok l, w') ->
  Forall (scalar_of_type t) value ->
  Forall (scalar_of_type t) l
  /\ (List.length l = List.length value + n)%nat.
Proof.
  induction n as [|n IH]; intros value w w' l H Hvalue; cbn in H.
  - injection H as <- _. split; [exact Hvalue|lia].
  - apply bind_Ok_inv in H as (v & w1 & Hv & H).
    apply readPropertyValue_scalar in Hv.
    apply IH in H as [Hl Hlen].
    + split; [exact Hl|]. rewrite Hlen, length_app. cbn. lia.
    + apply Forall_app. split; [exact Hvalue|now constructor].
Qed.

Lemma readStringArray_strings size n : forall value (w w' : Load) l,
  C3D.readStringArray size n value w = (Ok l, w') ->
  Forall (fun v => is_str v = true) value ->
  Forall (fun v => is_str v = true) l
  /\ (value <> [] \/ (0 < n)%nat -> l <> []).
Proof.
  induction n as [|n IH]; intros value w w' l H Hvalue; cbn in H.
  - injection H as <- _. split; [exact Hvalue|]. intros [Hne|Hn]; [exact Hne|lia].
  - apply bind_Ok_inv in H as (value' & w1 & Hv & H).
    assert (Hvalue' : Forall (fun v => is_str v = true) value'
                      /\ value' <> []).
    { unfold try_except in Hv.
      destruct ((s <- C3D.on_handle (Reader.readStringFromByte size) ;;
                 ret (value ++ [VStr (codec.strip s)])) w)
        as [[x|e|] w2] eqn:Hbody.
      - injection Hv as <- _.
        apply bind_Ok_inv in Hbody as (s & w3 & _ & Hbody).
        injection Hbody as <- _. split.
        + apply Forall_app. split; [exact Hvalue|now repeat constructor].
        + intros E. now apply app_eq_nil in E as [_ E].
      - injection Hv as <- _. split; [now repeat constructor|discriminate].
      - discriminate. }
    destruct Hvalue' as [Hs Hne].
    apply IH in H as [Hl Hnonempty]; [|exact Hs].
    split; [exact Hl|]. intros _. apply Hnonempty. now left.
Qed.

Lemma string_list_check v l :
  Forall (fun v => is_str v = true) (v :: l) ->
  dataTypeCheck (VList (v :: l)) (-1) = true.
Proof.
  intros Hall.
  assert (Hnoint : existsb is_int (v :: l) = false).
  { destruct (existsb is_int (v :: l)) eqn:Ei; [|reflexivity].
    apply existsb_exists in Ei as (a & Ha & Hia).
    rewrite Forall_forall in Hall. specialize (Hall a Ha).
    destruct a; discriminate. }
  inversion Hall as [|? ? Hv _]; subst.
  unfold dataTypeCheck, getTypeFromData. rewrite Hnoint. cbn [andb].
  destruct v; try discriminate. reflexivity.
Qed.

(** Every value the walker decodes for a parameter passes the type check
    of the data type it was decoded for, so [setData] accepts it; the one
    exception is the empty list that a negative dimension count of a
    numeric parameter decodes to, which [setData] refuses. *)
Theorem decoded_value_passes_the_type_check dataType dataDimensions
    (w w' : Load) value
    (Hvalue : C3D.readParamValue dataType dataDimensions w = (Ok value, w')) :
  dataTypeCheck value dataType = true
  \/ (dataType <> -1 /\ dataDimensions < 0 /\ value = VList []
      /\ dataTypeCheck value dataType = false).
Proof.
  unfold C3D.readParamValue in Hvalue.
  destruct (dataType =? -1) eqn:E1.
  - apply Z.eqb_eq in E1. subst dataType. left.
    apply bind_Ok_inv in Hvalue as (stringSize & w1 & _ & H).
    destruct (dataDimensions >? 1).
    + apply bind_Ok_inv in H as (arraySize & w2 & Hsize & H).
      apply bind_Ok_inv in H as (l & w3 & Hl & H). injection H as <- _.
      apply readStringArray_strings in Hl as [Hstr Hne].
      * destruct l as [|v l].
        { exfalso. apply Hne; [|reflexivity].
          destruct (arraySize =? 0) eqn:E0; [left; discriminate|].
          right. apply Z.eqb_neq in E0.
          apply on_handle_Ok in Hsize as (r' & Hsize).
          pose proof (readUnsignedByte_range _ _ _ Hsize). lia. }
        now apply string_list_check.
      * destruct (arraySize =? 0); now repeat constructor.
    + apply bind_Ok_inv in H as (s & w2 & _ & H). injection H as <- _.
      reflexivity.
  - apply Z.eqb_neq in E1.
    destruct (dataDimensions =? 0) eqn:E0.
    + left. apply readPropertyValue_scalar in Hvalue.
      now apply scalar_check.
    + apply Z.eqb_neq in E0.
      apply bind_Ok_inv in Hvalue as (l & w1 & Hl & H). injection H as <- _.
      apply readScalarArray_scalars in Hl as [Hall Hlen]; [|constructor].
      cbn [List.length] in Hlen.
      destruct l as [|v l].
      * right. cbn [List.length] in Hlen.
        split; [exact E1|]. split; [lia|]. split; [reflexivity|].
        unfold dataTypeCheck, getTypeFromData. cbn.
        reflexivity.
      * left. now apply scalar_list_check.
Qed.

Lemma decoded_value_passes_the_type_check_witness :
  dataTypeCheck (VList [VStr (pystr_of_string "A");
                        VStr (pystr_of_string "B")]) (-1) = true
  \/ (-1 <> -1 /\ 2 < 0
      /\ VList [VStr (pystr_of_string "A"); VStr (pystr_of_string "B")]
         = VList []
      /\ dataTypeCheck (VList [VStr (pystr_of_string "A");
                               VStr (pystr_of_string "B")]) (-1) = false).
Proof.
  apply (decoded_value_passes_the_type_check (-1) 2
           (at_pos one_group string_array_value
              (Some ProcessorTypes.INTEL) 0)
           (at_pos one_group string_array_value
              (Some ProcessorTypes.INTEL) 8)).
  vm_compute; reflexivity.
Defined.

End DecodedValues.

(* ================================================================= *)
(** ** Records the walker accepts *)

Section WalkerForward.

Lemma readString_at c d pt p n s :
  0 <= p -> 0 <= n -> p + n <= Z.of_nat (List.length d) ->
  codec.utf8_decode (bytes_at d p n) = Some s ->
  C3D.on_handle (Reader.readStringFromByte n) (at_pos c d pt p)
  = (Ok s, at_pos c d pt (p + n)).
Proof.
  intros Hp Hn Hin Hs.
  unfold C3D.on_handle, Reader.readStringFromByte, bind.
  rewrite readBytes_at by lia. rewrite Hs.
  rewrite length_bytes_at by assumption. reflexivity.
Qed.

Lemma readUnsignedByte_at c d pt p v :
  ubyte_at d p = Ok (VInt v) ->
  C3D.on_handle Reader.readUnsignedByte (at_pos c d pt p)
  = (Ok v, at_pos c d pt (p + 1)).
Proof.
  intros H. unfold C3D.on_handle, Reader.readUnsignedByte, bind.
  rewrite readBytes_at by lia.
  apply unpack_Ok_length in H as L.
  change (Some 1 = Some (Z.of_nat (List.length (bytes_at d p 1)))) in L.
  injection L as L. rewrite <- L.
  unfold lift_result. unfold ubyte_at in H. now rewrite H.
Qed.

Lemma int_at_inside d p pt v :
  0 <= p -> int_at d p pt = Ok v -> p + 2 <= Z.of_nat (List.length d).
Proof.
  intros Hp H. apply readBased_Ok_length in H.
  apply bytes_at_full_inside; [exact Hp|lia|].
  change (Some 2 = Some (Z.of_nat (List.length (bytes_at d p 2)))) in H.
  now injection H as <-.
Qed.

Lemma readPropertyValue_at c d pt q t v size :
  scalar_field d pt q t v size ->
  C3D._readPropertyValue t (at_pos c d pt q)
  = (Ok v, at_pos c d pt (q + size)).
Proof.
  intros [z Hz|z Hz|x Hx]; unfold C3D._readPropertyValue;
    cbn [Z.eqb Pos.eqb].
  - fwd_with Hz. reflexivity.
  - fwd_with Hz. reflexivity.
  - fwd_with Hx. reflexivity.
Qed.

Lemma scalar_field_check d pt q t v size :
  scalar_field d pt q t v size ->
  ParameterDataTypes.dataTypeCheck v t = true /\ t <> -1.
Proof.
  intros H. split; [|destruct H; discriminate].
  apply scalar_check. destruct H as [z Hz|z Hz|x Hx].
  - right. left. split; [reflexivity|]. exists z. split; [reflexivity|].
    exact (proj1 (unpack_int_bounds _ _ _ _ Hz) eq_refl).
  - right. right. left. split; [reflexivity|]. now exists z.
  - right. right. right. split; [reflexivity|]. now exists x.
Qed.

Lemma on_group_at c d pt q gi g f :
  nth_error (_parameters c) gi = Some g ->
  C3D.on_group gi f (at_pos c d pt q)
  = (Ok tt,
     at_pos (C3D.with_parameters c (C3D.replace_nth gi (f g) (_parameters c)))
            d pt q).
Proof.
  intros Hg. unfold C3D.on_group, C3D.on_self, modify, at_pos. cbn.
  now rewrite Hg.
Qed.

Lemma on_parameter_at {A} c d pt q gi g (m : M ParameterT A) p a p' :
  nth_error (_parameters c) gi = Some g ->
  m p = (Ok a, p') ->
  C3D.on_parameter gi (List.length (g_parameters g)) m
    (at_pos (with_new_parameter c gi g p) d pt q)
  = (Ok a, at_pos (with_new_parameter c gi g p') d pt q).
Proof.
  intros Hg Hm. unfold C3D.on_parameter, with_new_parameter, at_pos.
  cbn [self _parameters C3D.with_parameters handle].
  rewrite (nth_error_replace_nth _ _ _ _ Hg).
  cbn [g_parameters GroupOps.with_parameters].
  rewrite nth_error_app_last, Hm.
  rewrite replace_nth_app_last, replace_nth_twice. reflexivity.
Qed.

Lemma scalar_value_at c d pt q t v size :
  scalar_field d pt q t v size ->
  C3D.readParamValue t 0 (at_pos c d pt q)
  = (Ok v, at_pos c d pt (q + size)).
Proof.
  intros Hv. unfold C3D.readParamValue.
  destruct (t =? -1) eqn:Et;
    [apply Z.eqb_eq in Et; destruct Hv; discriminate|].
  cbn [Z.eqb]. now apply readPropertyValue_at.
Qed.

(** A record whose group is in the document, once its value is decoded
    and accepted by its data type. *)
Lemma parameter_record_at c d pt p len gid name off t dims v q gi g :
  0 <= p ->
  sbyte_at d p = Ok (VInt len) -> len <> 0 ->
  sbyte_at d (p + 1) = Ok (VInt gid) ->
  codec.utf8_decode (bytes_at d (p + 2) (Z.abs len)) = Some name ->
  int_at d (p + 2 + Z.abs len) pt = Ok (VInt off) -> off <> 0 ->
  C3D.index_of_group (Z.abs gid) (_parameters c) = Some gi ->
  nth_error (_parameters c) gi = Some g ->
  sbyte_at d (p + 4 + Z.abs len) = Ok (VInt t) ->
  sbyte_at d (p + 5 + Z.abs len) = Ok (VInt dims) ->
  (forall c1, C3D.readParamValue t dims (at_pos c1 d pt (p + 6 + Z.abs len))
              = (Ok v, at_pos c1 d pt q)) ->
  ParameterDataTypes.dataTypeCheck v t = true ->
  0 <= p + 2 + Z.abs len + off ->
  C3D._readParamBlock (at_pos c d pt p)
  = (Ok true,
     at_pos (with_new_parameter c gi g (decoded_parameter name t v))
            d pt (p + 2 + Z.abs len + off)).
Proof.
  intros Hp Hlen Hlen0 Hgid Hname Hoff Hoff0 Hidx Hg Ht Hdims Hv Hcheck
         Hseek.
  assert (Hin : p + 2 + Z.abs len + 2 <= Z.of_nat (List.length d))
    by (apply (int_at_inside d _ pt (VInt off)); [lia|exact Hoff]).
  unfold C3D._readParamBlock.
  fwd_with Hlen.
  destruct (Z.abs len =? 0) eqn:E0; [apply Z.eqb_eq in E0; lia|].
  fwd_with Hgid.
  replace (p + 1 + 1) with (p + 2) by lia.
  rewrite (bind_Ok_fwd _ _ _ _ _
             (readString_at c d pt (p + 2) (Z.abs len) name
                ltac:(lia) ltac:(lia) ltac:(lia) Hname)).
  fwd. fwd_with Hoff.
  destruct (off =? 0) eqn:Eoff; [apply Z.eqb_eq in Eoff; lia|].
  rewrite bind_get. cbn [self at_pos].
  unfold C3D.getParameterByGroupId. rewrite Hidx, Hg.
  rewrite (bind_Ok_fwd _ _ _ _ _ (on_group_at c d pt _ gi g _ Hg)).
  change (C3D.with_parameters c
            (C3D.replace_nth gi (GroupOps.addNewProperty name g)
               (_parameters c)))
    with (with_new_parameter c gi g (ParameterOps.new name)).
  replace (p + 2 + Z.abs len + 2) with (p + 4 + Z.abs len) by lia.
  fwd_with Ht.
  replace (p + 4 + Z.abs len + 1) with (p + 5 + Z.abs len) by lia.
  fwd_with Hdims.
  replace (p + 5 + Z.abs len + 1) with (p + 6 + Z.abs len) by lia.
  rewrite (bind_Ok_fwd _ _ _ _ _ (Hv _)).
  rewrite (bind_Ok_fwd _ _ _ _ _
             (on_parameter_at c d pt _ gi g (ParameterOps.setDataType t)
                (ParameterOps.new name) tt
                (ParameterOps.with_dataType (ParameterOps.new name) (Some t))
                Hg eq_refl)).
  assert (Hset : ParameterOps.setData v
                   (ParameterOps.with_dataType (ParameterOps.new name)
                      (Some t))
                 = (Ok tt, decoded_parameter name t v)).
  { unfold ParameterOps.setData. cbn [p_dataType ParameterOps.with_dataType].
    rewrite Hcheck. reflexivity. }
  rewrite (bind_Ok_fwd _ _ _ _ _
             (on_parameter_at c d pt _ gi g _ _ tt _ Hg Hset)).
  rewrite (bind_Ok_fwd _ _ _ _ _ (seek_at _ d pt _ _ Hseek)).
  reflexivity.
Qed.

(** A record of a scalar parameter (Byte, Integer or Float, dimension
    count 0) whose group is in the document is accepted: the parameter
    joins its group last, with the name, data type and value of the
    record, and the cursor moves to the offset field plus the offset. *)
Theorem scalar_parameter_record_decodes c d pt p len gid name off t v size
    gi g
    (Hp : 0 <= p)
    (Hlen : sbyte_at d p = Ok (VInt len)) (Hlen0 : len <> 0)
    (Hgid : sbyte_at d (p + 1) = Ok (VInt gid))
    (Hname : codec.utf8_decode (bytes_at d (p + 2) (Z.abs len)) = Some name)
    (Hoff : int_at d (p + 2 + Z.abs len) pt = Ok (VInt off))
    (Hoff0 : off <> 0)
    (Hidx : C3D.index_of_group (Z.abs gid) (_parameters c) = Some gi)
    (Hg : nth_error (_parameters c) gi = Some g)
    (Ht : sbyte_at d (p + 4 + Z.abs len) = Ok (VInt t))
    (Hdims : sbyte_at d (p + 5 + Z.abs len) = Ok (VInt 0))
    (Hv : scalar_field d pt (p + 6 + Z.abs len) t v size)
    (Hseek : 0 <= p + 2 + Z.abs len + off) :
  C3D._readParamBlock (at_pos c d pt p)
  = (Ok true,
     at_pos (with_new_parameter c gi g (decoded_parameter name t v))
            d pt (p + 2 + Z.abs len + off)).
Proof.
  destruct (scalar_field_check _ _ _ _ _ _ Hv) as [Hcheck _].
  apply (parameter_record_at c d pt p len gid name off t 0 v
           (p + 6 + Z.abs len + size));
    try assumption.
  intros c1. now apply scalar_value_at.
Qed.

Lemma scalar_parameter_record_decodes_witness :
  C3D._readParamBlock
    (at_pos one_group (byte_record 5) (Some ProcessorTypes.INTEL) 0)
  = (Ok true,
     at_pos (with_new_parameter one_group 0
               (GroupOps.new (pystr_of_string "POINT") (-1))
               (decoded_parameter (pystr_of_string "X") 1 (VInt 7)))
            (byte_record 5) (Some ProcessorTypes.INTEL) 8).
Proof.
  apply (scalar_parameter_record_decodes one_group (byte_record 5)
           (Some ProcessorTypes.INTEL) 0 1 1 (pystr_of_string "X") 5 1
           (VInt 7) 1 0%nat (GroupOps.new (pystr_of_string "POINT") (-1)));
    first [ lia
          | vm_compute; reflexivity
          | apply field_byte; vm_compute; reflexivity ].
Defined.

Lemma index_of_group_replace_nth groupId groups gi g g' :
  nth_error groups gi = Some g -> g_groupId g' = g_groupId g ->
  C3D.index_of_group groupId (C3D.replace_nth gi g' groups)
  = C3D.index_of_group groupId groups.
Proof.
  revert gi. induction groups as [|h rest IH]; intros [|gi] Hg Hid;
    try discriminate.
  - cbn in Hg. injection Hg as ->. cbn. unfold GroupOps.groupId.
    now rewrite Hid.
  - cbn in Hg. cbn. now rewrite (IH gi Hg Hid).
Qed.

Lemma replace_nth_same {A} (l : list A) n x :
  nth_error l n = Some x -> C3D.replace_nth n x l = l.
Proof.
  revert n. induction l as [|y l IH]; intros [|n] H; try discriminate.
  - cbn in H. now injection H as ->.
  - cbn in H. cbn. now rewrite (IH n H).
Qed.

(** A record whose offset leads back to its own first byte is decoded
    again and again: the walker never returns, whatever the number of
    passes, and each pass adds the same parameter to the group once
    more. *)
Theorem walker_never_leaves_a_record_that_points_to_itself
    d pt p len gid name t v size gi
    (Hp : 0 <= p)
    (Hlen : sbyte_at d p = Ok (VInt len)) (Hlen0 : len <> 0)
    (Hgid : sbyte_at d (p + 1) = Ok (VInt gid))
    (Hname : codec.utf8_decode (bytes_at d (p + 2) (Z.abs len)) = Some name)
    (Hoff : int_at d (p + 2 + Z.abs len) pt
            = Ok (VInt (- (Z.abs len + 2))))
    (Ht : sbyte_at d (p + 4 + Z.abs len) = Ok (VInt t))
    (Hdims : sbyte_at d (p + 5 + Z.abs len) = Ok (VInt 0))
    (Hv : scalar_field d pt (p + 6 + Z.abs len) t v size) :
  forall passes c g,
    C3D.index_of_group (Z.abs gid) (_parameters c) = Some gi ->
    nth_error (_parameters c) gi = Some g ->
    C3D.readParamBlocks passes (at_pos c d pt p)
    = (Timeout,
       at_pos (C3D.with_parameters c
                 (C3D.replace_nth gi
                    (GroupOps.with_parameters g
                       (g_parameters g
                        ++ repeat (decoded_parameter name t v) passes))
                    (_parameters c)))
              d pt p).
Proof.
  induction passes as [|passes IH]; intros c g Hidx Hg.
  - cbn [repeat C3D.readParamBlocks]. unfold C3D.timeout.
    rewrite app_nil_r.
    replace (GroupOps.with_parameters g (g_parameters g)) with g
      by now destruct g.
    rewrite (replace_nth_same _ _ _ Hg). now destruct c.
  - cbn [C3D.readParamBlocks].
    rewrite (bind_Ok_fwd _ _ _ _ _
               (parameter_record_at c d pt p len gid name _ t 0 v
                  (p + 6 + Z.abs len + size) gi g
                  Hp Hlen Hlen0 Hgid Hname Hoff ltac:(lia) Hidx Hg Ht Hdims
                  (fun c1 => scalar_value_at c1 d pt _ t v size Hv)
                  (proj1 (scalar_field_check _ _ _ _ _ _ Hv))
                  ltac:(lia))).
    replace (p + 2 + Z.abs len + - (Z.abs len + 2)) with p by lia.
    rewrite (IH (with_new_parameter c gi g (decoded_parameter name t v))
                (GroupOps.with_parameters g
                   (g_parameters g ++ [decoded_parameter name t v]))).
    + unfold with_new_parameter.
      cbn [_parameters C3D.with_parameters g_parameters
           GroupOps.with_parameters].
      rewrite replace_nth_twice, <- app_assoc. reflexivity.
    + unfold with_new_parameter. cbn [_parameters C3D.with_parameters].
      rewrite (index_of_group_replace_nth _ _ _ g _ Hg); [exact Hidx|].
      reflexivity.
    + unfold with_new_parameter. cbn [_parameters C3D.with_parameters].
      apply (nth_error_replace_nth _ _ _ _ Hg).
Qed.

Lemma walker_never_leaves_a_record_that_points_to_itself_witness :
  fst (C3D.readParamBlocks 1000
         (at_pos one_group (byte_record (-3)) (Some ProcessorTypes.INTEL) 0))
  = Timeout.
Proof.
  rewrite (walker_never_leaves_a_record_that_points_to_itself
             (byte_record (-3)) (Some ProcessorTypes.INTEL) 0 1 1
             (pystr_of_string "X") 1 (VInt 7) 1 0%nat
             ltac:(lia) ltac:(vm_compute; reflexivity)
             ltac:(vm_compute; discriminate) ltac:(vm_compute; reflexivity)
             ltac:(vm_compute; reflexivity) ltac:(vm_compute; reflexivity)
             ltac:(vm_compute; reflexivity) ltac:(vm_compute; reflexivity)
             ltac:(apply field_byte; vm_compute; reflexivity)
             1000%nat one_group
             (GroupOps.new (pystr_of_string "POINT") (-1))
             ltac:(vm_compute; reflexivity) ltac:(vm_compute; reflexivity)).
  reflexivity.
Defined.

Lemma readStringArray_at c d pt size :
  0 <= size ->
  forall ss p value,
    0 <= p ->
    p + Z.of_nat (List.length ss) * size <= Z.of_nat (List.length d) ->
    (forall i s, nth_error ss i = Some s ->
       codec.utf8_decode (bytes_at d (p + Z.of_nat i * size) size)
       = Some s) ->
    C3D.readStringArray size (List.length ss) value (at_pos c d pt p)
    = (Ok (value ++ map (fun s => VStr (codec.strip s)) ss),
       at_pos c d pt (p + Z.of_nat (List.length ss) * size)).
Proof.
  intros Hsize. induction ss as [|s ss IH]; intros p value Hp Hin Hss.
  - cbn. rewrite app_nil_r. now replace (p + 0) with p by lia.
  - cbn [List.length C3D.readStringArray]. cbn [List.length] in Hin.
    assert (Hs : codec.utf8_decode (bytes_at d p size) = Some s).
    { specialize (Hss 0%nat s eq_refl). cbn in Hss.
      now replace (p + 0) with p in Hss by lia. }
    assert (Hbody : try_except
                      (x <- C3D.on_handle (Reader.readStringFromByte size) ;;
                       ret (value ++ [VStr (codec.strip x)]))
                      (ret [VStr C3D.UNABLE_TO_READ_VALUE])
                      (at_pos c d pt p)
                    = (Ok (value ++ [VStr (codec.strip s)]),
                       at_pos c d pt (p + size))).
    { unfold try_except.
      rewrite (bind_Ok_fwd _ _ _ _ _
                 (readString_at c d pt p size s Hp Hsize ltac:(nia) Hs)).
      reflexivity. }
    rewrite (bind_Ok_fwd _ _ _ _ _ Hbody).
    rewrite IH.
    + rewrite <- app_assoc. cbn [map app]. f_equal. f_equal. lia.
    + lia.
    + nia.
    + intros i x Hx. specialize (Hss (S i) x Hx).
      replace (p + size + Z.of_nat i * size)
        with (p + Z.of_nat (S i) * size) by lia.
      exact Hss.
Qed.

(** The value of a string array whose strings all decode is the list of
    the strings, each stripped of surrounding white space, in file order;
    an array of no strings gives the list of one empty string.  The cursor
    ends behind the last string. *)
Theorem string_array_decodes c d pt p size dims ss
    (Hp : 0 <= p) (Hdims : 1 < dims)
    (Hsize : sbyte_at d p = Ok (VInt size)) (Hsize0 : 0 <= size)
    (Hcount : ubyte_at d (p + 1) = Ok (VInt (Z.of_nat (List.length ss))))
    (Hin : p + 2 + Z.of_nat (List.length ss) * size
           <= Z.of_nat (List.length d))
    (Hss : forall i s, nth_error ss i = Some s ->
       codec.utf8_decode (bytes_at d (p + 2 + Z.of_nat i * size) size)
       = Some s) :
  C3D.readParamValue (-1) dims (at_pos c d pt p)
  = (Ok (VList match ss with
               | [] => [VStr []]
               | _ => map (fun s => VStr (codec.strip s)) ss
               end),
     at_pos c d pt (p + 2 + Z.of_nat (List.length ss) * size)).
Proof.
  unfold C3D.readParamValue. cbn [Z.eqb Pos.eqb].
  fwd_with Hsize.
  destruct (dims >? 1) eqn:E; [|rewrite Z.gtb_ltb in E; apply Z.ltb_ge in E; lia].
  rewrite (bind_Ok_fwd _ _ _ _ _ (readUnsignedByte_at c d pt _ _ Hcount)).
  rewrite Nat2Z.id.
  replace (p + 1 + 1) with (p + 2) by lia.
  rewrite (bind_Ok_fwd _ _ _ _ _
             (readStringArray_at c d pt size Hsize0 ss (p + 2) _
                ltac:(lia) Hin Hss)).
  destruct ss as [|s ss]; reflexivity.
Qed.

Lemma string_array_decodes_witness :
  C3D.readParamValue (-1) 2
    (at_pos one_group string_array_value (Some ProcessorTypes.INTEL) 0)
  = (Ok (VList [VStr (pystr_of_string "A"); VStr (pystr_of_string "B")]),
     at_pos one_group string_array_value (Some ProcessorTypes.INTEL) 8).
Proof.
  apply (string_array_decodes one_group string_array_value
           (Some ProcessorTypes.INTEL) 0 3 2
           [pystr_of_string "A  "; pystr_of_string "B  "]);
    try first [ lia | vm_compute; reflexivity | vm_compute; discriminate ].
  intros [|[|[|i]]] s H; cbn in H; try discriminate;
    injection H as <-; vm_compute; reflexivity.
Defined.

(** A record whose group id is not yet in the document is taken for a
    group: the group joins the document last, with the name of the record,
    the absolute value of the id, the description that follows, and locked
    when the id is positive.  The cursor ends behind the description,
    whatever the offset field of the record holds. *)
Theorem group_record_decodes c d pt p len gid name off dlen desc
    (Hp : 0 <= p)
    (Hlen : sbyte_at d p = Ok (VInt len)) (Hlen0 : len <> 0)
    (Hgid : sbyte_at d (p + 1) = Ok (VInt gid))
    (Hname : codec.utf8_decode (bytes_at d (p + 2) (Z.abs len)) = Some name)
    (Hoff : int_at d (p + 2 + Z.abs len) pt = Ok (VInt off))
    (Hoff0 : off <> 0)
    (Hidx : C3D.index_of_group (Z.abs gid) (_parameters c) = None)
    (Hdlen : sbyte_at d (p + 4 + Z.abs len) = Ok (VInt dlen))
    (Hdlen0 : 0 <= dlen)
    (Hin : p + 5 + Z.abs len + dlen <= Z.of_nat (List.length d))
    (Hdesc : codec.utf8_decode (bytes_at d (p + 5 + Z.abs len) dlen)
             = Some desc) :
  C3D._readParamBlock (at_pos c d pt p)
  = (Ok true,
     at_pos (C3D.with_parameters c
               (_parameters c
                ++ [{| g_name := name; g_description := desc;
                       g_locked := 0 <? gid; g_parameters := [];
                       g_groupId := Z.abs gid |}]))
            d pt (p + 5 + Z.abs len + dlen)).
Proof.
  assert (Hinside : p + 2 + Z.abs len + 2 <= Z.of_nat (List.length d))
    by (apply (int_at_inside d _ pt (VInt off)); [lia|exact Hoff]).
  unfold C3D._readParamBlock.
  fwd_with Hlen.
  destruct (Z.abs len =? 0) eqn:E0; [apply Z.eqb_eq in E0; lia|].
  fwd_with Hgid.
  replace (p + 1 + 1) with (p + 2) by lia.
  rewrite (bind_Ok_fwd _ _ _ _ _
             (readString_at c d pt (p + 2) (Z.abs len) name
                ltac:(lia) ltac:(lia) ltac:(lia) Hname)).
  fwd. fwd_with Hoff.
  destruct (off =? 0) eqn:Eoff; [apply Z.eqb_eq in Eoff; lia|].
  rewrite bind_get. cbn [self at_pos].
  unfold C3D.getParameterByGroupId. rewrite Hidx.
  replace (p + 2 + Z.abs len + 2) with (p + 4 + Z.abs len) by lia.
  assert (Hd : C3D._readDescription (at_pos c d pt (p + 4 + Z.abs len))
               = (Ok desc, at_pos c d pt (p + 5 + Z.abs len + dlen))).
  { unfold C3D._readDescription. fwd_with Hdlen.
    replace (p + 4 + Z.abs len + 1) with (p + 5 + Z.abs len) by lia.
    destruct (dlen =? 0) eqn:Ed.
    - apply Z.eqb_eq in Ed. subst dlen. cbn in Hdesc.
      injection Hdesc as <-. unfold ret. do 2 f_equal. lia.
    - apply readString_at; [lia|lia|lia|exact Hdesc]. }
  unfold C3D._newParam.
  rewrite (bind_Ok_fwd _ _ _ _ _
             (bind_Ok_fwd _ _ _ _ _ Hd)).
  unfold C3D.on_self, modify, bind, ret, at_pos. cbn.
  unfold GroupOps.setDescription, GroupOps.new. cbn.
  rewrite Z.gtb_ltb. destruct (0 <? gid); reflexivity.
Qed.

Lemma group_record_decodes_witness :
  C3D._readParamBlock
    (at_pos one_group group_record (Some ProcessorTypes.INTEL) 0)
  = (Ok true,
     at_pos (C3D.with_parameters one_group
               (_parameters one_group
                ++ [{| g_name := pystr_of_string "FORCE";
                       g_description := pystr_of_string "ab";
                       g_locked := false; g_parameters := [];
                       g_groupId := 2 |}]))
            group_record (Some ProcessorTypes.INTEL) 12).
Proof.
  apply (group_record_decodes one_group group_record
           (Some ProcessorTypes.INTEL) 0 5 (-2) (pystr_of_string "FORCE") 3
           2 (pystr_of_string "ab"));
    first [ lia | vm_compute; reflexivity | vm_compute; discriminate ].
Defined.

End WalkerForward.
